(** * Smart Budget Tracker: the offline-first synchronisation engine

    A shallow embedding of [src/context/AppContext.tsx] (the [AppProvider]
    state manager) and the properties of its dirty tracker, context
    switcher, reconciliation engine and session guard.

    Conventions of the embedding.
    - React state is a record ([App]); every [setX(prev => f prev)] is the
      function [f] applied to the current record.
    - [useRef] cells are plain fields of [App].
    - An [async] function is cut at each [await]: the synchronous prefix is
      one function returning either a finished outcome or a pending [Task];
      the continuation is [resume], run when the gateway answers.
    - A closure reads the values of the render in which the function was
      created: a call from the screen runs in the latest render, a task
      carries what its continuation still reads of the render it was
      called in, and the auto-backup timer runs in the render that armed
      it.
    - JS numbers are integers ([Z]); a string is the [string] of the
      bytes of its UTF-8 encoding; [T | null | undefined] is [option T];
      plain objects used as records with optional keys are
      [gmap string JsVal]. *)

From Stdlib Require Import ZArith List Sorted Permutation Lia Ascii.
From stdpp Require Import base option strings gmap list pretty.

Local Open Scope string_scope.
Local Open Scope Z_scope.
Local Open Scope list_scope.

(** ** JavaScript values and objects *)

(** The values a settings object holds: [language], [currency],
    [autoBackup] are strings, [enableRealtime] and
    [showAIInsightsOnDashboard] booleans, [currencies] a string array. *)
Inductive JsVal : Type :=
| VStr (s : string)
| VBool (b : bool)
| VNum (n : Z)
| VStrs (l : list string).

#[global] Instance JsVal_eq_dec : EqDecision JsVal.
Proof. solve_decision. Defined.

Abbreviation JsObject := (gmap string JsVal).

(** [{ ...a, ...b }]: the keys of [b] override those of [a]. *)
Definition spread (a b : JsObject) : JsObject := b ∪ a.

(** Truthiness of a [string | null | undefined]: the empty string is
    falsy like [null]. *)
Definition truthy (o : option string) : bool :=
  match o with
  | Some s => negb (String.eqb s "")
  | None => false
  end.

(** [!!o] on an object or [null]. *)
Definition is_Some_b {A} (o : option A) : bool :=
  match o with
  | Some _ => true
  | None => false
  end.

(** [o || null] on a [string | null | undefined]. *)
Definition or_null (o : option string) : option string :=
  if truthy o then o else None.

(** ** The data model

    The type declarations live in [../types], which is not among the
    sources; the records below have the fields the state manager reads or
    writes, under the names it uses. *)

(** Modelled from the spec: the transaction type of section 3,
    [type ∈ {income, expense, transfer}]. *)
Inductive TxType : Type := income | expense | transfer.

#[global] Instance TxType_eq_dec : EqDecision TxType.
Proof. solve_decision. Defined.

Definition TxType_to_string (t : TxType) : string :=
  match t with
  | income => "income"
  | expense => "expense"
  | transfer => "transfer"
  end.

(** Modelled from the spec: the Transaction of section 3 (opaque id,
    type, amount, date, optional account and category references, the
    pending-sync flag), with the [note] the import signature reads. *)
Record Transaction : Type := {
  tx_id : string;
  tx_type : TxType;
  tx_amount : Z;
  tx_date : string;
  tx_note : option string;
  tx_accountId : option string;
  tx_fromAccountId : option string;
  tx_toAccountId : option string;
  tx_categoryId : option string;
  tx_isPendingSync : option bool
}.

#[global] Instance Transaction_eq_dec : EqDecision Transaction.
Proof. solve_decision. Defined.

(** Modelled from the spec: an Account; the code reads [id] and [name],
    whatever else it has travels in [acc_extra]. *)
Record Account : Type := {
  acc_id : string;
  acc_name : string;
  acc_extra : JsObject
}.

(** Modelled from the spec: a Category, likewise. *)
Record Category : Type := {
  cat_id : string;
  cat_name : string;
  cat_extra : JsObject
}.

(** Modelled from the spec: one entry of the per-category budgets,
    [{ categoryId, amount }]. *)
Record CategoryBudget : Type := {
  cb_categoryId : string;
  cb_amount : Z
}.

(** Modelled from the spec: a Wallet context's metadata. *)
Record Wallet : Type := {
  w_id : string;
  w_name : string;
  w_currency : string
}.

(** The [UserProfile] the auth handler builds. *)
Record UserProfile : Type := {
  u_id : string;
  u_email : option string;
  u_name : string;
  u_createdAt : string;
  u_emailVerified : bool;
  u_photoURL : option string
}.

(** The [user: any] handed to the auth callback by the auth provider. *)
Record AuthUser : Type := {
  au_id : string;
  au_email : option string;
  au_full_name : option string;
  au_name : option string;
  au_created_at : string;
  au_email_confirmed_at : option string;
  au_photo_url : option string;
  au_avatar_url : option string
}.

(** The [SyncState], with the fields of its initial value. *)
Record SyncState : Type := {
  isLoggedIn : bool;
  user : option UserProfile;
  lastSync : option string;
  backupSize : option string;
  pendingRestoreAvailable : bool;
  isOnline : bool;
  pendingActionsCount : Z;
  isSyncing : bool;
  isRealtimeConnected : bool;
  unsyncedChanges : bool;
  activeWalletId : option string;
  syncStatusMessage : option string
}.

(** The six pieces of React state that make up the live Snapshot. *)
Record Snapshot : Type := {
  transactions : list Transaction;
  accounts : list Account;
  categories : list Category;
  budget : Z;
  categoryBudgets : list CategoryBudget;
  settings : JsObject
}.

(** The wire and storage form of a Snapshot ([remoteData: any], and what
    [storage.get] returns for a context key): every field may be missing. *)
Record Payload : Type := {
  p_transactions : option (list Transaction);
  p_accounts : option (list Account);
  p_categories : option (list Category);
  p_budget : option Z;
  p_category_budgets : option (list CategoryBudget);
  p_settings : option JsObject
}.

(** [{ transactions, accounts, categories, budget, category_budgets:
    categoryBudgets, settings }] *)
Definition payload_of (s : Snapshot) : Payload :=
  {| p_transactions := Some (transactions s);
     p_accounts := Some (accounts s);
     p_categories := Some (categories s);
     p_budget := Some (budget s);
     p_category_budgets := Some (categoryBudgets s);
     p_settings := Some (settings s) |}.

(** What [cloudDrive.restoreBackup] resolves to when a backup exists:
    [{ data, metadata?: { timestamp } }]. *)
Record BackupEnvelope : Type := {
  be_data : option Payload;
  be_timestamp : option string
}.

(** What a push resolves to: [{ skipped: boolean; timestamp?: string }]. *)
Record PushResult : Type := {
  skipped : bool;
  timestamp : option string
}.

(** The clock as a continuation reads it: the values of the
    [new Date().toISOString()] it evaluates, in the order of the source
    text. Only the wallet branch of [backupUserData] evaluates two, one
    inside the state updater it hands to [setSyncState] and one for the
    object it returns; nothing in the code makes them equal. *)
Record Clock : Type := {
  first_read : string;
  second_read : string
}.

(** A clock that does not advance between the two reads. *)
Definition instant (s : string) : Clock :=
  {| first_read := s; second_read := s |}.

(** ** The host: imported constants and the runtime's date parser

    [INITIAL_ACCOUNTS], [INITIAL_CATEGORIES] and [DEFAULT_SETTINGS] come
    from [../constants]. [new Date(s).getTime()] is a number of
    milliseconds when [s] parses as a date and [NaN] when it does not:
    [valid_date s] tells which, and [getTime s] is the number. The sync
    state's time stamps, which the code writes itself with
    [toISOString], are read with [getTime]; the date of a transaction,
    which comes from the user or from an imported file, is read with
    [time_of]. *)
Class Host : Type := {
  INITIAL_ACCOUNTS : list Account;
  INITIAL_CATEGORIES : list Category;
  DEFAULT_SETTINGS : JsObject;
  getTime : string → Z;
  valid_date : string → bool
}.

(** [new Date(s).getTime()], [None] being [NaN]. *)
Definition time_of `{Host} (s : string) : option Z :=
  if valid_date s then Some (getTime s) else None.

(** ** Updating one field of the sync state: [{ ...prev, field: v }] *)

Definition set_isLoggedIn (v : bool) (p : SyncState) : SyncState :=
  {| isLoggedIn := v; user := user p; lastSync := lastSync p;
     backupSize := backupSize p;
     pendingRestoreAvailable := pendingRestoreAvailable p;
     isOnline := isOnline p; pendingActionsCount := pendingActionsCount p;
     isSyncing := isSyncing p; isRealtimeConnected := isRealtimeConnected p;
     unsyncedChanges := unsyncedChanges p;
     activeWalletId := activeWalletId p;
     syncStatusMessage := syncStatusMessage p |}.

Definition set_user (v : option UserProfile) (p : SyncState) : SyncState :=
  {| isLoggedIn := isLoggedIn p; user := v; lastSync := lastSync p;
     backupSize := backupSize p;
     pendingRestoreAvailable := pendingRestoreAvailable p;
     isOnline := isOnline p; pendingActionsCount := pendingActionsCount p;
     isSyncing := isSyncing p; isRealtimeConnected := isRealtimeConnected p;
     unsyncedChanges := unsyncedChanges p;
     activeWalletId := activeWalletId p;
     syncStatusMessage := syncStatusMessage p |}.

Definition set_lastSync (v : option string) (p : SyncState) : SyncState :=
  {| isLoggedIn := isLoggedIn p; user := user p; lastSync := v;
     backupSize := backupSize p;
     pendingRestoreAvailable := pendingRestoreAvailable p;
     isOnline := isOnline p; pendingActionsCount := pendingActionsCount p;
     isSyncing := isSyncing p; isRealtimeConnected := isRealtimeConnected p;
     unsyncedChanges := unsyncedChanges p;
     activeWalletId := activeWalletId p;
     syncStatusMessage := syncStatusMessage p |}.

Definition set_pendingRestoreAvailable (v : bool) (p : SyncState)
  : SyncState :=
  {| isLoggedIn := isLoggedIn p; user := user p; lastSync := lastSync p;
     backupSize := backupSize p;
     pendingRestoreAvailable := v;
     isOnline := isOnline p; pendingActionsCount := pendingActionsCount p;
     isSyncing := isSyncing p; isRealtimeConnected := isRealtimeConnected p;
     unsyncedChanges := unsyncedChanges p;
     activeWalletId := activeWalletId p;
     syncStatusMessage := syncStatusMessage p |}.

Definition set_isOnline (v : bool) (p : SyncState) : SyncState :=
  {| isLoggedIn := isLoggedIn p; user := user p; lastSync := lastSync p;
     backupSize := backupSize p;
     pendingRestoreAvailable := pendingRestoreAvailable p;
     isOnline := v; pendingActionsCount := pendingActionsCount p;
     isSyncing := isSyncing p; isRealtimeConnected := isRealtimeConnected p;
     unsyncedChanges := unsyncedChanges p;
     activeWalletId := activeWalletId p;
     syncStatusMessage := syncStatusMessage p |}.

Definition set_isSyncing (v : bool) (p : SyncState) : SyncState :=
  {| isLoggedIn := isLoggedIn p; user := user p; lastSync := lastSync p;
     backupSize := backupSize p;
     pendingRestoreAvailable := pendingRestoreAvailable p;
     isOnline := isOnline p; pendingActionsCount := pendingActionsCount p;
     isSyncing := v; isRealtimeConnected := isRealtimeConnected p;
     unsyncedChanges := unsyncedChanges p;
     activeWalletId := activeWalletId p;
     syncStatusMessage := syncStatusMessage p |}.

Definition set_isRealtimeConnected (v : bool) (p : SyncState) : SyncState :=
  {| isLoggedIn := isLoggedIn p; user := user p; lastSync := lastSync p;
     backupSize := backupSize p;
     pendingRestoreAvailable := pendingRestoreAvailable p;
     isOnline := isOnline p; pendingActionsCount := pendingActionsCount p;
     isSyncing := isSyncing p; isRealtimeConnected := v;
     unsyncedChanges := unsyncedChanges p;
     activeWalletId := activeWalletId p;
     syncStatusMessage := syncStatusMessage p |}.

Definition set_unsyncedChanges (v : bool) (p : SyncState) : SyncState :=
  {| isLoggedIn := isLoggedIn p; user := user p; lastSync := lastSync p;
     backupSize := backupSize p;
     pendingRestoreAvailable := pendingRestoreAvailable p;
     isOnline := isOnline p; pendingActionsCount := pendingActionsCount p;
     isSyncing := isSyncing p; isRealtimeConnected := isRealtimeConnected p;
     unsyncedChanges := v;
     activeWalletId := activeWalletId p;
     syncStatusMessage := syncStatusMessage p |}.

Definition set_activeWalletId (v : option string) (p : SyncState)
  : SyncState :=
  {| isLoggedIn := isLoggedIn p; user := user p; lastSync := lastSync p;
     backupSize := backupSize p;
     pendingRestoreAvailable := pendingRestoreAvailable p;
     isOnline := isOnline p; pendingActionsCount := pendingActionsCount p;
     isSyncing := isSyncing p; isRealtimeConnected := isRealtimeConnected p;
     unsyncedChanges := unsyncedChanges p;
     activeWalletId := v;
     syncStatusMessage := syncStatusMessage p |}.

Definition set_syncStatusMessage (v : option string) (p : SyncState)
  : SyncState :=
  {| isLoggedIn := isLoggedIn p; user := user p; lastSync := lastSync p;
     backupSize := backupSize p;
     pendingRestoreAvailable := pendingRestoreAvailable p;
     isOnline := isOnline p; pendingActionsCount := pendingActionsCount p;
     isSyncing := isSyncing p; isRealtimeConnected := isRealtimeConnected p;
     unsyncedChanges := unsyncedChanges p;
     activeWalletId := activeWalletId p;
     syncStatusMessage := v |}.

(** ** Updating one piece of the live Snapshot *)

Definition set_transactions (v : list Transaction) (s : Snapshot) : Snapshot :=
  {| transactions := v; accounts := accounts s; categories := categories s;
     budget := budget s; categoryBudgets := categoryBudgets s;
     settings := settings s |}.

Definition set_accounts (v : list Account) (s : Snapshot) : Snapshot :=
  {| transactions := transactions s; accounts := v;
     categories := categories s; budget := budget s;
     categoryBudgets := categoryBudgets s; settings := settings s |}.

Definition set_categories (v : list Category) (s : Snapshot) : Snapshot :=
  {| transactions := transactions s; accounts := accounts s;
     categories := v; budget := budget s;
     categoryBudgets := categoryBudgets s; settings := settings s |}.

Definition set_budget (v : Z) (s : Snapshot) : Snapshot :=
  {| transactions := transactions s; accounts := accounts s;
     categories := categories s; budget := v;
     categoryBudgets := categoryBudgets s; settings := settings s |}.

Definition set_categoryBudgets (v : list CategoryBudget) (s : Snapshot)
  : Snapshot :=
  {| transactions := transactions s; accounts := accounts s;
     categories := categories s; budget := budget s;
     categoryBudgets := v; settings := settings s |}.

Definition set_settings (v : JsObject) (s : Snapshot) : Snapshot :=
  {| transactions := transactions s; accounts := accounts s;
     categories := categories s; budget := budget s;
     categoryBudgets := categoryBudgets s; settings := v |}.

(** ** The Local Store *)

(** Modelled from the spec: the Local Store of [../services/storage]
    (section 6: [get(key, default)], [set(key, value)], [clearAll()]; "no
    logic, pure read/write/clear"). One typed slot per fixed
    [STORAGE_KEYS] entry the state manager uses, [None] when the key was
    never written, and a finite map for the per-context composite keys
    [sb_personal_data] and [sb_wallet_<id>_data]. *)
Record Store : Type := {
  k_transactions : option (list Transaction);
  k_accounts : option (list Account);
  k_categories : option (list Category);
  k_budget : option Z;
  k_category_budgets : option (list CategoryBudget);
  k_settings : option JsObject;
  k_wallets_list : option (list Wallet);
  k_last_sync : option string;
  k_unsynced_changes : option bool;
  k_active_wallet_id : option string;
  k_contexts : gmap string Payload
}.

(** [storage.clearAll()] *)
Definition empty_store : Store :=
  {| k_transactions := None; k_accounts := None; k_categories := None;
     k_budget := None; k_category_budgets := None; k_settings := None;
     k_wallets_list := None; k_last_sync := None;
     k_unsynced_changes := None; k_active_wallet_id := None;
     k_contexts := ∅ |}.

(** [storage.set(key, data)] for a per-context key. *)
Definition set_context (key : string) (data : Payload) (st : Store) : Store :=
  {| k_transactions := k_transactions st; k_accounts := k_accounts st;
     k_categories := k_categories st; k_budget := k_budget st;
     k_category_budgets := k_category_budgets st;
     k_settings := k_settings st; k_wallets_list := k_wallets_list st;
     k_last_sync := k_last_sync st;
     k_unsynced_changes := k_unsynced_changes st;
     k_active_wallet_id := k_active_wallet_id st;
     k_contexts := <[key := data]> (k_contexts st) |}.

(** [walletId ? `sb_wallet_${walletId}_data` : `sb_personal_data`] *)
Definition context_key (walletId : option string) : string :=
  match walletId with
  | Some w => if truthy walletId then "sb_wallet_" +:+ w +:+ "_data"
              else "sb_personal_data"
  | None => "sb_personal_data"
  end.

(** ** The state manager *)

Inductive NotificationType : Type := success | error | info.

(** Every call the state manager makes on the Remote Gateway
    ([cloudDrive], [supabase.auth]), in the order made. *)
Inductive GatewayCall : Type :=
| SyncWalletData (walletId userId : string) (data : Payload)
| BackupUserData (userId : string) (data : Payload)
| GetWalletData (walletId : string)
| RestoreBackup (userId : string)
| GetMyWallets (userId : string)
| CreateWallet (userId name currency : string)
| DeleteWallet (walletId : string)
| SignOut.

(** A network push is one of the two backup-write calls. *)
Definition is_push (c : GatewayCall) : bool :=
  match c with
  | SyncWalletData _ _ _ | BackupUserData _ _ => true
  | _ => false
  end.

(** The provider's state: the [useState] cells, the three [useRef] cells,
    the Local Store, and two logs of what left the component: the
    notifications shown and the gateway calls made. *)
Record App : Type := {
  snap : Snapshot;
  wallets : list Wallet;
  syncState : SyncState;
  sessionVersion : nat;
  isBackingUpRef : bool;
  isLoggingOutRef : bool;
  storage : Store;
  notifications : list (string * NotificationType);
  gateway : list GatewayCall
}.

Definition setSnap (f : Snapshot → Snapshot) (a : App) : App :=
  {| snap := f (snap a); wallets := wallets a; syncState := syncState a;
     sessionVersion := sessionVersion a; isBackingUpRef := isBackingUpRef a;
     isLoggingOutRef := isLoggingOutRef a; storage := storage a;
     notifications := notifications a; gateway := gateway a |}.

Definition setWallets (f : list Wallet → list Wallet) (a : App) : App :=
  {| snap := snap a; wallets := f (wallets a); syncState := syncState a;
     sessionVersion := sessionVersion a; isBackingUpRef := isBackingUpRef a;
     isLoggingOutRef := isLoggingOutRef a; storage := storage a;
     notifications := notifications a; gateway := gateway a |}.

Definition setSyncState (f : SyncState → SyncState) (a : App) : App :=
  {| snap := snap a; wallets := wallets a; syncState := f (syncState a);
     sessionVersion := sessionVersion a; isBackingUpRef := isBackingUpRef a;
     isLoggingOutRef := isLoggingOutRef a; storage := storage a;
     notifications := notifications a; gateway := gateway a |}.

Definition set_sessionVersion (v : nat) (a : App) : App :=
  {| snap := snap a; wallets := wallets a; syncState := syncState a;
     sessionVersion := v; isBackingUpRef := isBackingUpRef a;
     isLoggingOutRef := isLoggingOutRef a; storage := storage a;
     notifications := notifications a; gateway := gateway a |}.

Definition set_isBackingUpRef (v : bool) (a : App) : App :=
  {| snap := snap a; wallets := wallets a; syncState := syncState a;
     sessionVersion := sessionVersion a; isBackingUpRef := v;
     isLoggingOutRef := isLoggingOutRef a; storage := storage a;
     notifications := notifications a; gateway := gateway a |}.

Definition set_isLoggingOutRef (v : bool) (a : App) : App :=
  {| snap := snap a; wallets := wallets a; syncState := syncState a;
     sessionVersion := sessionVersion a; isBackingUpRef := isBackingUpRef a;
     isLoggingOutRef := v; storage := storage a;
     notifications := notifications a; gateway := gateway a |}.

Definition setStorage (f : Store → Store) (a : App) : App :=
  {| snap := snap a; wallets := wallets a; syncState := syncState a;
     sessionVersion := sessionVersion a; isBackingUpRef := isBackingUpRef a;
     isLoggingOutRef := isLoggingOutRef a; storage := f (storage a);
     notifications := notifications a; gateway := gateway a |}.

(** [showNotification(message, type = 'success')]; the five-second timer
    that hides the toast again is not part of the record of what was
    shown. *)
Definition showNotification (message : string) (type : NotificationType)
  (a : App) : App :=
  {| snap := snap a; wallets := wallets a; syncState := syncState a;
     sessionVersion := sessionVersion a; isBackingUpRef := isBackingUpRef a;
     isLoggingOutRef := isLoggingOutRef a; storage := storage a;
     notifications := notifications a ++ [(message, type)];
     gateway := gateway a |}.

(** The gateway is called. *)
Definition call (c : GatewayCall) (a : App) : App :=
  {| snap := snap a; wallets := wallets a; syncState := syncState a;
     sessionVersion := sessionVersion a; isBackingUpRef := isBackingUpRef a;
     isLoggingOutRef := isLoggingOutRef a; storage := storage a;
     notifications := notifications a; gateway := gateway a ++ [c] |}.

(** The persistence effects ([useEffect(() => storage.set(KEY, value),
    [value])]): after a render every fixed key holds the value of its
    state cell. *)
Definition persist (a : App) : App :=
  setStorage (λ st,
    {| k_transactions := Some (transactions (snap a));
       k_accounts := Some (accounts (snap a));
       k_categories := Some (categories (snap a));
       k_budget := Some (budget (snap a));
       k_category_budgets := Some (categoryBudgets (snap a));
       k_settings := Some (settings (snap a));
       k_wallets_list := Some (wallets a);
       k_last_sync := lastSync (syncState a);
       k_unsynced_changes := Some (unsyncedChanges (syncState a));
       k_active_wallet_id := activeWalletId (syncState a);
       k_contexts := k_contexts st |}) a.

(** The [useState] initialisers and [useRef] initial values of a freshly
    mounted provider, over the store [st] and [navigator.onLine]. *)
Definition mount `{Host} (st : Store) (online : bool) : App :=
  {| snap :=
       {| transactions := default [] (k_transactions st);
          accounts := default INITIAL_ACCOUNTS (k_accounts st);
          categories := default INITIAL_CATEGORIES (k_categories st);
          budget := default 0 (k_budget st);
          categoryBudgets := default [] (k_category_budgets st);
          settings :=
            spread DEFAULT_SETTINGS (default DEFAULT_SETTINGS (k_settings st)) |};
     wallets := default [] (k_wallets_list st);
     syncState :=
       {| isLoggedIn := false; user := None;
          lastSync := k_last_sync st;
          backupSize := None; pendingRestoreAvailable := false;
          isOnline := online; pendingActionsCount := 0;
          isSyncing := false; isRealtimeConnected := false;
          unsyncedChanges := default false (k_unsynced_changes st);
          activeWalletId := k_active_wallet_id st;
          syncStatusMessage := None |};
     sessionVersion := 0%nat;
     isBackingUpRef := false;
     isLoggingOutRef := false;
     storage := st;
     notifications := [];
     gateway := [] |}.

(** ** [Map] and [Array.prototype.sort] *)

(** A JS [Map] with string keys: entries in insertion order. *)
Definition JsMap (V : Type) : Type := list (string * V).

Fixpoint map_has {V} (k : string) (m : JsMap V) : bool :=
  match m with
  | [] => false
  | (k', _) :: m' => if String.eqb k k' then true else map_has k m'
  end.

(** [m.set(k, v)]: an existing key keeps its position and takes the new
    value; a new key goes last. *)
Fixpoint map_set {V} (k : string) (v : V) (m : JsMap V) : JsMap V :=
  match m with
  | [] => [(k, v)]
  | (k', v') :: m' =>
      if String.eqb k k' then (k', v) :: m' else (k', v') :: map_set k v m'
  end.

(** [Array.from(m.values())] *)
Definition map_values {V} (m : JsMap V) : list V := snd <$> m.

(** [xs.forEach(x => body)] threading the state the body mutates. *)
Definition forEach {A S} (body : S → A → S) (xs : list A) (init : S) : S :=
  fold_left body xs init.

(** What [Array.prototype.sort] makes of the number its comparator
    returns ([None] being [NaN]): "if v is NaN, return +0". *)
Definition sort_order {A} (compare : A → A → option Z) (x y : A) : Z :=
  default 0 (compare x y).

(** [Array.prototype.sort(compare)] is stable: of two elements that
    compare equal the one that came first stays first. With a comparator
    that is a consistent order, as on dates that all parse, that fixes
    the result, which this insertion sort computes. When a comparison is
    [NaN] the comparator is no consistent order and the standard leaves
    the order of the result to the engine; the insertion sort then leaves
    an element where it is unless a comparison tells it to move, as the
    engines' insertion sorts for short arrays do. *)
Fixpoint sort_insert {A} (compare : A → A → option Z) (x : A) (l : list A)
  : list A :=
  match l with
  | [] => [x]
  | y :: l' =>
      if sort_order compare x y <=? 0 then x :: y :: l'
      else y :: sort_insert compare x l'
  end.

Fixpoint sort {A} (compare : A → A → option Z) (l : list A) : list A :=
  match l with
  | [] => []
  | x :: l' => sort_insert compare x (sort compare l')
  end.

(** The comparator of [restoreBackup]:
    [(a, b) => new Date(b.date).getTime() - new Date(a.date).getTime()],
    [NaN] as soon as one of the two dates does not parse. *)
Definition by_date_desc `{Host} (a b : Transaction) : option Z :=
  match time_of (tx_date b), time_of (tx_date a) with
  | Some tb, Some ta => Some (tb - ta)
  | _, _ => None
  end.

(** ** Strings *)

(** [s.split('T')[0]]: the part of [s] before its first ['T']. *)
Fixpoint before_T (s : string) : string :=
  match s with
  | EmptyString => EmptyString
  | String c s' => if Ascii.eqb c "T" then EmptyString else String c (before_T s')
  end.

(** The string of the bytes [l]. *)
Definition utf8 (l : list Z) : string :=
  fold_right (λ n s, String (ascii_of_nat (Z.to_nat n)) s) EmptyString l.

(** The characters [String.prototype.trim] strips, each in its UTF-8
    encoding: the white space of the language (tab, vertical tab, form
    feed, U+FEFF and the space separators U+0020, U+00A0, U+1680,
    U+2000 to U+200A, U+202F, U+205F, U+3000) and its line terminators
    (line feed, carriage return, U+2028, U+2029). *)
Definition white_space : list string :=
  [utf8 [9]; utf8 [10]; utf8 [11]; utf8 [12]; utf8 [13]; utf8 [32];
   utf8 [194; 160]; utf8 [225; 154; 128];
   utf8 [226; 128; 128]; utf8 [226; 128; 129]; utf8 [226; 128; 130];
   utf8 [226; 128; 131]; utf8 [226; 128; 132]; utf8 [226; 128; 133];
   utf8 [226; 128; 134]; utf8 [226; 128; 135]; utf8 [226; 128; 136];
   utf8 [226; 128; 137]; utf8 [226; 128; 138];
   utf8 [226; 128; 168]; utf8 [226; 128; 169]; utf8 [226; 128; 175];
   utf8 [226; 129; 159]; utf8 [227; 128; 128]; utf8 [239; 187; 191]].

(** [s] without the prefix [p], when it starts with [p]. *)
Fixpoint strip_prefix (p s : string) : option string :=
  match p, s with
  | EmptyString, _ => Some s
  | String a p', String b s' =>
      if Ascii.eqb a b then strip_prefix p' s' else None
  | String _ _, EmptyString => None
  end.

(** [s] without its first character, when that is one of [spaces]. *)
Fixpoint strip_space (spaces : list string) (s : string) : option string :=
  match spaces with
  | [] => None
  | p :: spaces' =>
      match strip_prefix p s with
      | Some s' => Some s'
      | None => strip_space spaces' s
      end
  end.

(** [s] without the characters of [spaces] it starts with; [fuel] bounds
    their number. *)
Fixpoint strip_spaces (spaces : list string) (fuel : nat) (s : string)
  : string :=
  match fuel with
  | O => s
  | S fuel' =>
      match strip_space spaces s with
      | Some s' => strip_spaces spaces fuel' s'
      | None => s
      end
  end.

Definition trim_start (s : string) : string :=
  strip_spaces white_space (String.length s) s.

(** The end of [s] is trimmed as the start of [s] read backwards. *)
Definition trim_end (s : string) : string :=
  String.rev (strip_spaces (String.rev <$> white_space) (String.length s)
                           (String.rev s)).

(** [s.trim()] *)
Definition trim (s : string) : string := trim_end (trim_start s).

(** [o.key === s] for a settings object [o]. *)
Definition key_is (o : JsObject) (key s : string) : bool :=
  match o !! key with
  | Some (VStr x) => String.eqb x s
  | _ => false
  end.

(** [o === s] for [o : string | undefined]. *)
Definition same (o : option string) (s : string) : bool :=
  match o with
  | Some x => String.eqb x s
  | None => false
  end.

(** ** Transactions: [{ ...t, field: v }] *)

Definition with_id (v : string) (t : Transaction) : Transaction :=
  {| tx_id := v; tx_type := tx_type t; tx_amount := tx_amount t;
     tx_date := tx_date t; tx_note := tx_note t;
     tx_accountId := tx_accountId t; tx_fromAccountId := tx_fromAccountId t;
     tx_toAccountId := tx_toAccountId t; tx_categoryId := tx_categoryId t;
     tx_isPendingSync := tx_isPendingSync t |}.

Definition with_isPendingSync (v : bool) (t : Transaction) : Transaction :=
  {| tx_id := tx_id t; tx_type := tx_type t; tx_amount := tx_amount t;
     tx_date := tx_date t; tx_note := tx_note t;
     tx_accountId := tx_accountId t; tx_fromAccountId := tx_fromAccountId t;
     tx_toAccountId := tx_toAccountId t; tx_categoryId := tx_categoryId t;
     tx_isPendingSync := Some v |}.

Definition with_accountId (v : option string) (t : Transaction) : Transaction :=
  {| tx_id := tx_id t; tx_type := tx_type t; tx_amount := tx_amount t;
     tx_date := tx_date t; tx_note := tx_note t;
     tx_accountId := v; tx_fromAccountId := tx_fromAccountId t;
     tx_toAccountId := tx_toAccountId t; tx_categoryId := tx_categoryId t;
     tx_isPendingSync := tx_isPendingSync t |}.

Definition with_fromAccountId (v : option string) (t : Transaction)
  : Transaction :=
  {| tx_id := tx_id t; tx_type := tx_type t; tx_amount := tx_amount t;
     tx_date := tx_date t; tx_note := tx_note t;
     tx_accountId := tx_accountId t; tx_fromAccountId := v;
     tx_toAccountId := tx_toAccountId t; tx_categoryId := tx_categoryId t;
     tx_isPendingSync := tx_isPendingSync t |}.

Definition with_toAccountId (v : option string) (t : Transaction)
  : Transaction :=
  {| tx_id := tx_id t; tx_type := tx_type t; tx_amount := tx_amount t;
     tx_date := tx_date t; tx_note := tx_note t;
     tx_accountId := tx_accountId t; tx_fromAccountId := tx_fromAccountId t;
     tx_toAccountId := v; tx_categoryId := tx_categoryId t;
     tx_isPendingSync := tx_isPendingSync t |}.

Definition with_categoryId (v : option string) (t : Transaction)
  : Transaction :=
  {| tx_id := tx_id t; tx_type := tx_type t; tx_amount := tx_amount t;
     tx_date := tx_date t; tx_note := tx_note t;
     tx_accountId := tx_accountId t; tx_fromAccountId := tx_fromAccountId t;
     tx_toAccountId := tx_toAccountId t; tx_categoryId := v;
     tx_isPendingSync := tx_isPendingSync t |}.

(** ** Dirty tracker *)

(** [markAsDirty]: sets [unsyncedChanges] unless it is set already. *)
Definition markAsDirty (a : App) : App :=
  setSyncState (λ prev,
    if negb (unsyncedChanges prev) then set_unsyncedChanges true prev
    else prev) a.

(** ** CRUD operations *)

(** [addTransaction(data)]; [uuid] is what [safeUUID()] returns. *)
Definition addTransaction (data : Transaction) (uuid : string) (a : App) : App :=
  let nextTx := with_isPendingSync true (with_id uuid data) in
  markAsDirty
    (setSnap (λ s, set_transactions (nextTx :: transactions s) s) a).

(** The duplicate signature of [importTransactions]:
    [`${date ? date.split('T')[0] : ''}-${amount}-${type}-${(note || '').trim()}`] *)
Definition signature (t : Transaction) : string :=
  before_T (tx_date t) +:+ "-" +:+ pretty (tx_amount t) +:+ "-" +:+
  TxType_to_string (tx_type t) +:+ "-" +:+ trim (default "" (tx_note t)).

(** [importTransactions(newTxs)]; [uuid i] is the [safeUUID()] drawn for
    the [i]-th transaction that is kept. *)
Definition importTransactions (newTxs : list Transaction)
  (uuid : nat → string) (a : App) : App :=
  markAsDirty
    (setSnap (λ s,
       let prev := transactions s in
       let existingSigs : gset string :=
         list_to_set (List.map signature prev) in
       let uniqueNew :=
         List.filter (λ t, negb (bool_decide (signature t ∈ existingSigs)))
                     newTxs in
       let safeUniqueNew :=
         imap (λ i t,
                 with_isPendingSync true
                   (with_id (if truthy (Some (tx_id t)) then tx_id t
                             else uuid i) t))
              uniqueNew in
       set_transactions (prev ++ safeUniqueNew) s) a).

Definition updateTransaction (data : Transaction) (a : App) : App :=
  markAsDirty
    (setSnap (λ s,
       set_transactions
         (List.map (λ item,
            if String.eqb (tx_id item) (tx_id data)
            then with_isPendingSync true data else item)
            (transactions s)) s) a).

Definition deleteTransaction (txId : string) (a : App) : App :=
  markAsDirty
    (setSnap (λ s,
       set_transactions
         (List.filter (λ tx, negb (String.eqb (tx_id tx) txId))
                      (transactions s)) s) a).

(** [addAccount(a)]; [now] is [Date.now()]. The [id] of [acct] is not
    read ([Omit<Account, 'id'>]). *)
Definition addAccount (acct : Account) (now : Z) (a : App) : App :=
  markAsDirty
    (setSnap (λ s,
       set_accounts
         (accounts s ++
          [{| acc_id := "acc_" +:+ pretty now; acc_name := acc_name acct;
              acc_extra := acc_extra acct |}]) s) a).

Definition updateAccountName (id name : string) (a : App) : App :=
  markAsDirty
    (setSnap (λ s,
       set_accounts
         (List.map (λ x,
            if String.eqb (acc_id x) id
            then {| acc_id := acc_id x; acc_name := name;
                    acc_extra := acc_extra x |}
            else x) (accounts s)) s) a).

(** The cascade of [deleteAccount] on one transaction. *)
Definition reassign_account (id : string) (fallbackId : option string)
  (t : Transaction) : Transaction :=
  let changed := false in
  let nextT := t in
  let '(nextT, changed) :=
    if same (tx_accountId t) id
    then (with_accountId fallbackId nextT, true) else (nextT, changed) in
  let '(nextT, changed) :=
    if same (tx_fromAccountId t) id
    then (with_fromAccountId fallbackId nextT, true) else (nextT, changed) in
  let '(nextT, changed) :=
    if same (tx_toAccountId t) id
    then (with_toAccountId fallbackId nextT, true) else (nextT, changed) in
  if changed then with_isPendingSync true nextT else nextT.

Definition deleteAccount (id : string) (a : App) : App :=
  let remainingAccounts :=
    List.filter (λ x, negb (String.eqb (acc_id x) id)) (accounts (snap a)) in
  let fallbackId :=
    match remainingAccounts with
    | x :: _ => Some (acc_id x)
    | [] => None
    end in
  let a := setSnap (λ s,
    set_accounts
      (List.filter (λ x, negb (String.eqb (acc_id x) id)) (accounts s)) s) a in
  let a := setSnap (λ s,
    set_transactions
      (List.map (reassign_account id fallbackId) (transactions s)) s) a in
  markAsDirty a.

(** [addCategory(c)]; [now] is [Date.now()]. *)
Definition addCategory (c : Category) (now : Z) (a : App) : App :=
  markAsDirty
    (setSnap (λ s,
       set_categories
         (categories s ++
          [{| cat_id := "cat_" +:+ pretty now; cat_name := cat_name c;
              cat_extra := cat_extra c |}]) s) a).

Definition updateCategory (c : Category) (a : App) : App :=
  markAsDirty
    (setSnap (λ s,
       set_categories
         (List.map (λ cat, if String.eqb (cat_id cat) (cat_id c) then c else cat)
                   (categories s)) s) a).

Definition deleteCategory (id : string) (a : App) : App :=
  let a := setSnap (λ s,
    set_categories
      (List.filter (λ c, negb (String.eqb (cat_id c) id)) (categories s)) s) a in
  let a := setSnap (λ s,
    set_categoryBudgets
      (List.filter (λ b, negb (String.eqb (cb_categoryId b) id))
                   (categoryBudgets s)) s) a in
  let a := setSnap (λ s,
    set_transactions
      (List.map (λ t,
         if same (tx_categoryId t) id
         then with_isPendingSync true (with_categoryId None t) else t)
         (transactions s)) s) a in
  markAsDirty a.

Definition updateBudget (n : Z) (a : App) : App :=
  markAsDirty (setSnap (set_budget n) a).

Definition updateCategoryBudget (cid : string) (n : Z) (a : App) : App :=
  markAsDirty
    (setSnap (λ s,
       set_categoryBudgets
         (List.filter (λ b, negb (String.eqb (cb_categoryId b) cid))
                      (categoryBudgets s) ++
          [{| cb_categoryId := cid; cb_amount := n |}]) s) a).

Definition updateSettings (s : JsObject) (a : App) : App :=
  markAsDirty (setSnap (λ prev, set_settings (spread (settings prev) s) prev) a).

(** [updateUserProfilePhoto(url)] *)
Definition updateUserProfilePhoto (url : string) (a : App) : App :=
  setSyncState (λ prev,
    match user prev with
    | Some u =>
        set_user (Some {| u_id := u_id u; u_email := u_email u;
                          u_name := u_name u; u_createdAt := u_createdAt u;
                          u_emailVerified := u_emailVerified u;
                          u_photoURL := Some url |}) prev
    | None => prev
    end) a.

(** The language and currency helpers of the provider value; each is a
    call of [updateSettings]. The custom dictionaries that
    [installLanguage] and [uninstallLanguage] also edit are a separate
    state cell that no function below reads. *)
Definition installLanguage (code : string) (a : App) : App :=
  updateSettings {[ "language" := VStr code ]} a.

Definition uninstallLanguage (code : string) (a : App) : App :=
  if String.eqb code "en" then a
  else if key_is (settings (snap a)) "language" code
       then updateSettings {[ "language" := VStr "en" ]} a
       else a.

(** [installCurrency(code)]; without a [currencies] array the call
    throws before it changes anything. *)
Definition installCurrency (code : string) (a : App) : App :=
  match settings (snap a) !! "currencies" with
  | Some (VStrs cs) =>
      if negb (existsb (String.eqb code) cs)
      then updateSettings
             (<[ "currencies" := VStrs (cs ++ [code]) ]>
                {[ "currency" := VStr code ]}) a
      else updateSettings {[ "currency" := VStr code ]} a
  | _ => a
  end.

(** [uninstallCurrency(code)]; [currency: settings.currency] writes the
    key back unchanged when [code] is not the current currency. *)
Definition uninstallCurrency (code : string) (a : App) : App :=
  if String.eqb code "$" then a
  else match settings (snap a) !! "currencies" with
       | Some (VStrs cs) =>
           let next := List.filter (λ c, negb (String.eqb c code)) cs in
           let cur : JsObject :=
             if key_is (settings (snap a)) "currency" code
             then {[ "currency" := VStr "$" ]} else ∅ in
           updateSettings (<[ "currencies" := VStrs next ]> cur) a
       | _ => a
       end.

(** ** Asynchronous functions *)

Module Strategy.
(** ['merge' | 'replace' | 'skip'] *)
Inductive t : Type := merge | replace | skip.
End Strategy.

(** What a call returns to its caller, or that it threw. *)
Inductive Outcome : Type :=
| RetVoid
| RetBool (b : bool)
| RetPush (r : PushResult)
| Threw (err : string).

(** A function suspended at an [await], with what its continuation still
    reads of its arguments and of the render it was called in ([render]:
    the provider state when the function was called). *)
Inductive Task : Type :=
| AwaitSyncWalletData
| AwaitBackupUserData
| AwaitSwitchFetch (walletId : string)
| AwaitRestoreWallet (strat : Strategy.t)
| AwaitRestoreBackup (strat : Strategy.t)
| AwaitAuthWallets (currentVersion : nat) (user : AuthUser)
| AwaitAuthBackup (currentVersion : nat)
| AwaitSignOut
| AwaitCreateWallet (render : App)
| AwaitDeleteWallet (walletId : string) (render : App)
| AwaitRefreshWallets.

(** A call either finishes within the tick or suspends on the gateway. *)
Inductive Async : Type :=
| Done (o : Outcome) (a : App)
| Await (t : Task) (a : App).

Definition state_of (r : Async) : App :=
  match r with
  | Done _ a => a
  | Await _ a => a
  end.

(** What the gateway resolves a pending call with. *)
Inductive Reply : Type :=
| NoValue
| WalletData (data : option Payload)
| Backup (result : option BackupEnvelope)
| Pushed (res : PushResult)
| WalletList (list : list Wallet)
| NewWallet (w : Wallet).

Inductive Response : Type :=
| Resolved (v : Reply)
| Rejected (err : string).

(** ** Context switcher *)

(** [saveCurrentContextToStorage(walletId)] in the render [r]. *)
Definition saveCurrentContextToStorage (r : App) (walletId : option string)
  (a : App) : App :=
  let data := payload_of (snap r) in
  let key := context_key walletId in
  setStorage (set_context key data) a.

(** The six setters applied to a stored or fetched payload [data]:
    [setTransactions(data.transactions || [])] ...
    [setSettings(prev => ({ ...prev, ...data.settings }))]. *)
Definition apply_payload `{Host} (data : Payload) (s : Snapshot) : Snapshot :=
  {| transactions := default [] (p_transactions data);
     accounts := default INITIAL_ACCOUNTS (p_accounts data);
     categories := default INITIAL_CATEGORIES (p_categories data);
     budget := default 0 (p_budget data);
     categoryBudgets := default [] (p_category_budgets data);
     settings := spread (settings s) (default ∅ (p_settings data)) |}.

Definition loadContextFromStorage `{Host} (walletId : option string)
  (a : App) : App :=
  let key := context_key walletId in
  let data := k_contexts (storage a) !! key in
  match data with
  | Some data => setSnap (apply_payload data) a
  | None =>
      if truthy walletId then
        setSnap (λ _,
          {| transactions := []; accounts := INITIAL_ACCOUNTS;
             categories := INITIAL_CATEGORIES; budget := 0;
             categoryBudgets := []; settings := DEFAULT_SETTINGS |}) a
      else
        let st := storage a in
        setSnap (λ _,
          {| transactions := default [] (k_transactions st);
             accounts := default INITIAL_ACCOUNTS (k_accounts st);
             categories := default INITIAL_CATEGORIES (k_categories st);
             budget := default 0 (k_budget st);
             categoryBudgets := default [] (k_category_budgets st);
             settings :=
               spread DEFAULT_SETTINGS
                      (default DEFAULT_SETTINGS (k_settings st)) |}) a
  end.

Definition switched_message (walletId : option string) : string :=
  if truthy walletId then "Switched to Shared Wallet"
  else "Switched to Personal Space".

(** [switchWallet(walletId)] up to its [await], called in the render [r]:
    save the outgoing context, move the active id, load the incoming
    context. *)
Definition switchWallet_begin `{Host} (r : App) (walletId : option string)
  (a : App) : App :=
  let a := saveCurrentContextToStorage r (activeWalletId (syncState r)) a in
  let a := setSyncState (λ prev,
             set_unsyncedChanges false (set_activeWalletId walletId prev)) a in
  loadContextFromStorage walletId a.

Definition switchWallet_in `{Host} (r : App) (walletId : option string)
  (a : App) : Async :=
  let a := switchWallet_begin r walletId a in
  match walletId with
  | Some w =>
      if (truthy walletId && isOnline (syncState r))%bool
      then Await (AwaitSwitchFetch w) (call (GetWalletData w) a)
      else Done RetVoid (showNotification (switched_message walletId) success a)
  | None => Done RetVoid (showNotification (switched_message walletId) success a)
  end.

Definition switchWallet `{Host} (walletId : option string) (a : App) : Async :=
  switchWallet_in a walletId a.

(** The rest of [switchWallet] once [getWalletData] has answered. *)
Definition switchWallet_resume `{Host} (walletId : string) (resp : Response)
  (a : App) : option Async :=
  match resp with
  | Resolved (WalletData (Some remoteData)) =>
      Some (Done RetVoid
        (showNotification (switched_message (Some walletId)) success
           (setSnap (apply_payload remoteData) a)))
  | Resolved (WalletData None) | Rejected _ =>
      Some (Done RetVoid
        (showNotification (switched_message (Some walletId)) success a))
  | Resolved _ => None
  end.

(** ** Wallets *)

Definition createWallet (name currency : string) (a : App) : Async :=
  match user (syncState a) with
  | None => Done RetVoid a
  | Some u =>
      Await (AwaitCreateWallet a) (call (CreateWallet (u_id u) name currency) a)
  end.

Definition createWallet_resume `{Host} (r : App) (resp : Response) (a : App)
  : option Async :=
  match resp with
  | Resolved (NewWallet newWallet) =>
      let a := setWallets (λ prev, (prev ++ [newWallet])%list) a in
      Some (switchWallet_in r (Some (w_id newWallet)) a)
  | Rejected e => Some (Done RetVoid (showNotification e error a))
  | Resolved _ => None
  end.

Definition refreshWallets (a : App) : Async :=
  match user (syncState a) with
  | None => Done RetVoid a
  | Some u => Await AwaitRefreshWallets (call (GetMyWallets (u_id u)) a)
  end.

Definition refreshWallets_resume (resp : Response) (a : App) : option Async :=
  match resp with
  | Resolved (WalletList list) => Some (Done RetVoid (setWallets (λ _, list) a))
  | Rejected _ => Some (Done RetVoid a)
  | Resolved _ => None
  end.

Definition deleteWallet (walletId : string) (a : App) : Async :=
  Await (AwaitDeleteWallet walletId a) (call (DeleteWallet walletId) a).

(** After the deletion, [switchWallet(null)] runs in the render of the
    [deleteWallet] call; with a [null] target it never suspends. *)
Definition deleteWallet_resume `{Host} (walletId : string) (r : App)
  (resp : Response) (a : App) : option Async :=
  match resp with
  | Resolved NoValue =>
      let a := setWallets
                 (List.filter (λ w, negb (String.eqb (w_id w) walletId))) a in
      let a :=
        if same (activeWalletId (syncState r)) walletId
        then showNotification (switched_message None) success
               (switchWallet_begin r None a)
        else a in
      Some (Done RetVoid (showNotification "Wallet deleted successfully" success a))
  | Rejected e => Some (Done RetVoid (showNotification e error a))
  | Resolved _ => None
  end.

(** ** Reconciliation engine: push *)

(** [{ skipped: true }] *)
Definition skipped_push : Outcome :=
  RetPush {| skipped := true; timestamp := None |}.

(** The [finally] block of [backupUserData]. *)
Definition backup_finally (a : App) : App :=
  setSyncState (set_isSyncing false) (set_isBackingUpRef false a).

(** [backupUserData(custom)] up to its [await], as the function of the
    render [r]: [syncState] and the six state cells it reads are those of
    [r]; the guard is a ref and the setters act on the provider as it
    is. *)
Definition backupUserData_in (r : App) (custom : option Payload) (a : App)
  : Async :=
  if isBackingUpRef a
  then Done skipped_push a
  else
    let a := set_isBackingUpRef true a in
    let a := setSyncState (set_isSyncing true) a in
    match user (syncState r) with
    | None =>
        Done skipped_push (backup_finally a)
    | Some u =>
        let data := default (payload_of (snap r)) custom in
        match activeWalletId (syncState r) with
        | Some w =>
            if truthy (activeWalletId (syncState r))
            then Await AwaitSyncWalletData
                       (call (SyncWalletData w (u_id u) data) a)
            else Await AwaitBackupUserData
                       (call (BackupUserData (u_id u) data) a)
        | None =>
            Await AwaitBackupUserData (call (BackupUserData (u_id u) data) a)
        end
    end.

(** [backupUserData(custom)] called from the screen, which holds the
    function of the latest render. *)
Definition backupUserData (custom : option Payload) (a : App) : Async :=
  backupUserData_in a custom a.

(** The wallet branch after [syncWalletData]: [lastSync] is the
    [new Date().toISOString()] of the state updater, the returned
    [timestamp] another one. *)
Definition syncWalletData_resume (resp : Response) (now : Clock) (a : App)
  : option Async :=
  match resp with
  | Resolved NoValue =>
      let a := setSyncState (λ p,
                 set_lastSync (Some (first_read now))
                   (set_unsyncedChanges false p)) a in
      Some (Done (RetPush {| skipped := false;
                             timestamp := Some (second_read now) |})
                 (backup_finally a))
  | Rejected err => Some (Done (Threw err) (backup_finally a))
  | Resolved _ => None
  end.

(** The personal branch after [cloudDrive.backupUserData]. *)
Definition backupUserData_resume (resp : Response) (a : App) : option Async :=
  match resp with
  | Resolved (Pushed res) =>
      let a := setSyncState (λ p,
                 set_unsyncedChanges false (set_lastSync (timestamp res) p)) a in
      Some (Done (RetPush res) (backup_finally a))
  | Rejected err => Some (Done (Threw err) (backup_finally a))
  | Resolved _ => None
  end.

(** The dependency list of the effect that arms the auto-backup timer:
    [[syncState.isLoggedIn, syncState.isOnline, settings.autoBackup,
      syncState.unsyncedChanges, transactions, syncState.lastSync]].
    React compares the [transactions] array by identity and the others
    by value; two renders with the same dependencies have them equal in
    value, which is what is compared here. *)
Definition timer_deps (a : App) :=
  (isLoggedIn (syncState a), isOnline (syncState a),
   settings (snap a) !! "autoBackup", unsyncedChanges (syncState a),
   transactions (snap a), lastSync (syncState a)).

(** [checkAutoBackup], the callback of the auto-backup timer, as the
    closure of the render [r] whose effect armed the timer: [syncState],
    [settings] and the [backupUserData] it calls are those of [r], the
    two guards are refs. [now] is [new Date()] as an ISO string. The
    timer ignores what the push returns or throws. *)
Definition checkAutoBackup `{Host} (r : App) (now : string) (a : App)
  : Async :=
  let s := syncState r in
  if (negb (isLoggedIn s) || negb (is_Some_b (user s))
      || negb (isOnline s) || isLoggingOutRef a)%bool then Done RetVoid a
  else if isBackingUpRef a then Done RetVoid a
  else if unsyncedChanges s then backupUserData_in r None a
  else if key_is (settings (snap r)) "autoBackup" "off"
  then Done RetVoid a
  else if negb (truthy (lastSync s)) then backupUserData_in r None a
  else
    let last := getTime (default "" (lastSync s)) in
    let now := getTime now in
    let threshold :=
      if key_is (settings (snap r)) "autoBackup" "daily"
      then 24 else 168 in
    if threshold * (1000 * 60 * 60) <=? now - last
    then backupUserData_in r None a else Done RetVoid a.

(** ** Reconciliation engine: restore *)

(** The updater [restoreBackup] gives [setTransactions] under ['merge']:
    [prevTxs => { const txMap = new Map();
                  cloudTxs.forEach(t => txMap.set(t.id, t));
                  prevTxs.forEach(t => { if (!txMap.has(t.id)) txMap.set(t.id, t); });
                  return Array.from(txMap.values()).sort(...) }] *)
Definition merge_transactions `{Host} (cloudTxs prevTxs : list Transaction)
  : list Transaction :=
  let txMap : JsMap Transaction := [] in
  let txMap := forEach (λ txMap t, map_set (tx_id t) t txMap) cloudTxs txMap in
  let txMap :=
    forEach (λ txMap t,
               if negb (map_has (tx_id t) txMap)
               then map_set (tx_id t) t txMap else txMap)
            prevTxs txMap in
  sort by_date_desc (map_values txMap).

(** [restoreBackup] from [if (!remoteData) return false] on. *)
Definition restore_apply `{Host} (strat : Strategy.t)
  (remoteData : option Payload) (remoteTimestamp : option string) (a : App)
  : Async :=
  match remoteData with
  | None => Done (RetBool false) a
  | Some remoteData =>
      let cloudTxs := default [] (p_transactions remoteData) in
      let cloudAccounts := default INITIAL_ACCOUNTS (p_accounts remoteData) in
      let cloudCats := default INITIAL_CATEGORIES (p_categories remoteData) in
      let cloudBudget := default 0 (p_budget remoteData) in
      let cloudSettings := default DEFAULT_SETTINGS (p_settings remoteData) in
      let cloudCatBudgets := default [] (p_category_budgets remoteData) in
      let a :=
        match strat with
        | Strategy.replace =>
            setSnap (λ _,
              {| transactions := cloudTxs; accounts := cloudAccounts;
                 categories := cloudCats; budget := cloudBudget;
                 categoryBudgets := cloudCatBudgets;
                 settings := cloudSettings |}) a
        | _ =>
            let a := setSnap (λ s,
              set_transactions
                (merge_transactions cloudTxs (transactions s)) s) a in
            let a := setSnap (set_accounts cloudAccounts) a in
            let a := setSnap (set_categories cloudCats) a in
            let a := setSnap (λ prev,
              set_settings (spread (settings prev) cloudSettings) prev) a in
            let a := setSnap (set_budget cloudBudget) a in
            setSnap (set_categoryBudgets cloudCatBudgets) a
        end in
      let a :=
        if truthy remoteTimestamp
        then setSyncState (λ p,
               set_lastSync remoteTimestamp
                 (set_pendingRestoreAvailable false p)) a
        else setSyncState (set_pendingRestoreAvailable false) a in
      Done (RetBool true) a
  end.

(** [restoreBackup(strat)] up to its [await]. *)
Definition restoreBackup (strat : Strategy.t) (a : App) : Async :=
  match user (syncState a) with
  | None => Done (RetBool false) a
  | Some u =>
      match strat with
      | Strategy.skip =>
          Done (RetBool true)
               (setSyncState (set_pendingRestoreAvailable false) a)
      | _ =>
          match activeWalletId (syncState a) with
          | Some w =>
              if truthy (activeWalletId (syncState a))
              then Await (AwaitRestoreWallet strat) (call (GetWalletData w) a)
              else Await (AwaitRestoreBackup strat)
                         (call (RestoreBackup (u_id u)) a)
          | None =>
              Await (AwaitRestoreBackup strat)
                    (call (RestoreBackup (u_id u)) a)
          end
      end
  end.

(** A shared wallet is always "latest": its timestamp is the clock. *)
Definition restoreWallet_resume `{Host} (strat : Strategy.t) (resp : Response)
  (now : Clock) (a : App) : option Async :=
  match resp with
  | Resolved (WalletData remoteData) =>
      Some (restore_apply strat remoteData (Some (first_read now)) a)
  | Rejected _ => Some (Done (RetBool false) a)
  | Resolved _ => None
  end.

Definition restoreBackup_resume `{Host} (strat : Strategy.t) (resp : Response)
  (a : App) : option Async :=
  match resp with
  | Resolved (Backup (Some backupResult)) =>
      Some (restore_apply strat (be_data backupResult)
                          (be_timestamp backupResult) a)
  | Resolved (Backup None) => Some (restore_apply strat None None a)
  | Rejected _ => Some (Done (RetBool false) a)
  | Resolved _ => None
  end.

(** ** Auth handler and session guard *)

(** [a || b || 'User'] on optional strings. *)
Definition first_truthy (a b : option string) (d : string) : string :=
  if truthy a then default d a
  else if truthy b then default d b else d.

Definition profile_of (u : AuthUser) : UserProfile :=
  {| u_id := au_id u;
     u_email := or_null (au_email u);
     u_name := first_truthy (au_full_name u) (au_name u) "User";
     u_createdAt := au_created_at u;
     u_emailVerified := truthy (au_email_confirmed_at u);
     u_photoURL :=
       if truthy (au_photo_url u) then au_photo_url u
       else or_null (au_avatar_url u) |}.

(** [handleAuthStateChange] from [if (!storage.get(ACTIVE_WALLET_ID, null))]
    on. *)
Definition auth_reconcile (currentVersion : nat) (u : AuthUser) (a : App)
  : Async :=
  if negb (truthy (k_active_wallet_id (storage a)))
  then Await (AwaitAuthBackup currentVersion)
             (call (RestoreBackup (au_id u)) a)
  else Done RetVoid a.

(** [handleAuthStateChange(user)] up to its first [await]; [online] is
    [navigator.onLine]. *)
Definition handleAuthStateChange (u : option AuthUser) (online : bool)
  (a : App) : Async :=
  if isLoggingOutRef a then Done RetVoid a
  else
    let currentVersion := S (sessionVersion a) in
    let a := set_sessionVersion currentVersion a in
    match u with
    | None =>
        let a := setSyncState (λ prev,
          set_lastSync None
            (set_activeWalletId None
               (set_unsyncedChanges false
                  (set_isRealtimeConnected false
                     (set_user None (set_isLoggedIn false prev)))))) a in
        Done RetVoid (setWallets (λ _, []) a)
    | Some u =>
        let profile := profile_of u in
        let a := setSyncState (λ prev,
                   set_user (Some profile) (set_isLoggedIn true prev)) a in
        if online
        then Await (AwaitAuthWallets currentVersion u)
                   (call (GetMyWallets (au_id u)) a)
        else auth_reconcile currentVersion u a
    end.

(** After [getMyWallets]: the guard, [setWallets], then on to the
    backup check; a rejection is logged and the backup check still runs. *)
Definition authWallets_resume (currentVersion : nat) (u : AuthUser)
  (resp : Response) (a : App) : option Async :=
  match resp with
  | Resolved (WalletList walletsList) =>
      if negb (Nat.eqb currentVersion (sessionVersion a))
      then Some (Done RetVoid a)
      else Some (auth_reconcile currentVersion u
                   (setWallets (λ _, walletsList) a))
  | Rejected _ => Some (auth_reconcile currentVersion u a)
  | Resolved _ => None
  end.

(** [isNewer]: no local last sync, or a cloud timestamp more than one
    second past it. *)
Definition isNewer `{Host} (localLastSync cloudTimestamp : option string)
  : bool :=
  (negb (truthy localLastSync)
   || (truthy cloudTimestamp
       && (getTime (default "" localLastSync) + 1000
           <? getTime (default "" cloudTimestamp))))%bool.

(** After [cloudDrive.restoreBackup] in the auth handler. *)
Definition authBackup_resume `{Host} (currentVersion : nat) (resp : Response)
  (a : App) : option Async :=
  match resp with
  | Resolved (Backup result) =>
      if negb (Nat.eqb currentVersion (sessionVersion a))
      then Some (Done RetVoid a)
      else
        match result with
        | Some {| be_data := Some _; be_timestamp := cloudTimestamp |} =>
            let localLastSync := k_last_sync (storage a) in
            if isNewer localLastSync cloudTimestamp
            then Some (Done RetVoid (setSyncState (λ prev,
                   set_pendingRestoreAvailable true
                     (set_lastSync (or_null cloudTimestamp) prev)) a))
            else Some (Done RetVoid (setSyncState (λ prev,
                   set_pendingRestoreAvailable false
                     (set_lastSync (or_null cloudTimestamp) prev)) a))
        | _ => Some (Done RetVoid a)
        end
  | Rejected _ => Some (Done RetVoid a)
  | Resolved _ => None
  end.

(** [logout()] up to [await supabase.auth.signOut()]. *)
Definition logout `{Host} (a : App) : Async :=
  if isLoggingOutRef a then Done RetVoid a
  else
    let r := a in
    let a := set_isLoggingOutRef true a in
    let a :=
      if truthy (activeWalletId (syncState r))
      then loadContextFromStorage None
             (saveCurrentContextToStorage r (activeWalletId (syncState r)) a)
      else a in
    Await AwaitSignOut (call SignOut a).

(** The rest of [logout]; a failed sign-out is swallowed. *)
Definition logout_resume (resp : Response) (a : App) : option Async :=
  let a := setSyncState (λ prev,
    set_lastSync None
      (set_isRealtimeConnected false
         (set_unsyncedChanges false
            (set_activeWalletId None
               (set_user None (set_isLoggedIn false prev)))))) a in
  let a := setWallets (λ _, []) a in
  let a := showNotification "Logged out - Switched to Personal Wallet"
                            success a in
  Some (Done RetVoid (set_isLoggingOutRef false a)).

(** ** Network status and the realtime listener *)

Definition handleOnline (a : App) : App :=
  setSyncState (set_isOnline true) a.

Definition handleOffline (a : App) : App :=
  setSyncState (λ prev, set_isRealtimeConnected false (set_isOnline false prev)) a.

(** The subscription callback [status => ...] on ['SUBSCRIBED']. *)
Definition realtime_subscribed (a : App) : App :=
  setSyncState (set_isRealtimeConnected true) a.

(** The clean-up of the realtime effect, and its early exit. *)
Definition realtime_teardown (a : App) : App :=
  setSyncState (set_isRealtimeConnected false) a.

(** A change on the [wallet_data] row of the active wallet; [newRow] is
    [payload.new], absent or with its [updated_by]. *)
Definition realtime_wallet_change (newRow : option (option string)) (a : App)
  : App :=
  match newRow with
  | Some updated_by =>
      if negb (bool_decide (updated_by = u_id <$> user (syncState a)))
      then showNotification "Shared wallet updated" info
             (setSyncState (λ prev,
                set_syncStatusMessage (Some "New wallet data")
                  (set_pendingRestoreAvailable true prev)) a)
      else a
  | None => a
  end.

(** A change on the user's [backups] row, stamped [updated_at]. *)
Definition realtime_backup_change `{Host} (updated_at : string) (a : App) : App :=
  let remoteTime := getTime updated_at in
  let localTime :=
    if truthy (lastSync (syncState a))
    then getTime (default "" (lastSync (syncState a))) else 0 in
  if localTime + 2000 <? remoteTime
  then showNotification "New data received from cloud" info a
  else a.

(** ** The provider as a transition system *)

Module Api.
(** Everything that can run a piece of the provider in its latest
    render: the operations of the context value, the browser's network
    events, the auth provider's callback and the realtime channel's
    callbacks. (The auto-backup timer, which runs in the render that
    armed it, is the event [Tick] below.) [resetPreferences] reloads the
    page and so ends the run; it is not a transition. [login], [signup] and [resetPassword] only
    forward to the auth provider, whose answer comes back through the
    auth callback; [refreshAIInsights] and the custom dictionaries work
    on state cells that nothing here reads; the smart nudges only show
    notifications. *)
Inductive call : Type :=
| AddTransaction (data : Transaction) (uuid : string)
| UpdateTransaction (data : Transaction)
| DeleteTransaction (txId : string)
| ImportTransactions (newTxs : list Transaction) (uuid : nat → string)
| AddAccount (acct : Account) (now : Z)
| UpdateAccountName (id name : string)
| DeleteAccount (id : string)
| AddCategory (c : Category) (now : Z)
| UpdateCategory (c : Category)
| DeleteCategory (id : string)
| UpdateBudget (n : Z)
| UpdateCategoryBudget (cid : string) (n : Z)
| UpdateSettings (s : JsObject)
| InstallLanguage (code : string)
| UninstallLanguage (code : string)
| InstallCurrency (code : string)
| UninstallCurrency (code : string)
| UpdateUserProfilePhoto (url : string)
| ShowNotification (message : string) (type : NotificationType)
| SwitchWallet (walletId : option string)
| CreateWallet (name currency : string)
| RefreshWallets
| DeleteWallet (walletId : string)
| BackupUserData (custom : option Payload)
| RestoreBackup (strat : Strategy.t)
| Logout
| AuthStateChange (user : option AuthUser) (online : bool)
| Online
| Offline
| RealtimeSubscribed
| RealtimeTeardown
| RealtimeWalletChange (newRow : option (option string))
| RealtimeBackupChange (updated_at : string).
End Api.

(** The thirteen mutating operations of the context value. *)
Inductive Mutation : Type :=
| MAddTransaction (data : Transaction) (uuid : string)
| MUpdateTransaction (data : Transaction)
| MDeleteTransaction (txId : string)
| MImportTransactions (newTxs : list Transaction) (uuid : nat → string)
| MAddAccount (acct : Account) (now : Z)
| MUpdateAccountName (id name : string)
| MDeleteAccount (id : string)
| MAddCategory (c : Category) (now : Z)
| MUpdateCategory (c : Category)
| MDeleteCategory (id : string)
| MUpdateBudget (n : Z)
| MUpdateCategoryBudget (cid : string) (n : Z)
| MUpdateSettings (s : JsObject).

Definition mutate (m : Mutation) (a : App) : App :=
  match m with
  | MAddTransaction data uuid => addTransaction data uuid a
  | MUpdateTransaction data => updateTransaction data a
  | MDeleteTransaction txId => deleteTransaction txId a
  | MImportTransactions newTxs uuid => importTransactions newTxs uuid a
  | MAddAccount acct now => addAccount acct now a
  | MUpdateAccountName id name => updateAccountName id name a
  | MDeleteAccount id => deleteAccount id a
  | MAddCategory c now => addCategory c now a
  | MUpdateCategory c => updateCategory c a
  | MDeleteCategory id => deleteCategory id a
  | MUpdateBudget n => updateBudget n a
  | MUpdateCategoryBudget cid n => updateCategoryBudget cid n a
  | MUpdateSettings s => updateSettings s a
  end.

(** The call of the context value that a mutation is. *)
Definition call_of (m : Mutation) : Api.call :=
  match m with
  | MAddTransaction data uuid => Api.AddTransaction data uuid
  | MUpdateTransaction data => Api.UpdateTransaction data
  | MDeleteTransaction txId => Api.DeleteTransaction txId
  | MImportTransactions newTxs uuid => Api.ImportTransactions newTxs uuid
  | MAddAccount acct now => Api.AddAccount acct now
  | MUpdateAccountName id name => Api.UpdateAccountName id name
  | MDeleteAccount id => Api.DeleteAccount id
  | MAddCategory c now => Api.AddCategory c now
  | MUpdateCategory c => Api.UpdateCategory c
  | MDeleteCategory id => Api.DeleteCategory id
  | MUpdateBudget n => Api.UpdateBudget n
  | MUpdateCategoryBudget cid n => Api.UpdateCategoryBudget cid n
  | MUpdateSettings s => Api.UpdateSettings s
  end.

(** Running a call up to its return or its first [await]. *)
Definition invoke `{Host} (c : Api.call) (a : App) : Async :=
  match c with
  | Api.AddTransaction data uuid => Done RetVoid (addTransaction data uuid a)
  | Api.UpdateTransaction data => Done RetVoid (updateTransaction data a)
  | Api.DeleteTransaction txId => Done (RetBool true) (deleteTransaction txId a)
  | Api.ImportTransactions newTxs uuid =>
      Done RetVoid (importTransactions newTxs uuid a)
  | Api.AddAccount acct now => Done RetVoid (addAccount acct now a)
  | Api.UpdateAccountName id name => Done RetVoid (updateAccountName id name a)
  | Api.DeleteAccount id => Done RetVoid (deleteAccount id a)
  | Api.AddCategory c now => Done RetVoid (addCategory c now a)
  | Api.UpdateCategory c => Done RetVoid (updateCategory c a)
  | Api.DeleteCategory id => Done RetVoid (deleteCategory id a)
  | Api.UpdateBudget n => Done RetVoid (updateBudget n a)
  | Api.UpdateCategoryBudget cid n => Done RetVoid (updateCategoryBudget cid n a)
  | Api.UpdateSettings s => Done RetVoid (updateSettings s a)
  | Api.InstallLanguage code => Done RetVoid (installLanguage code a)
  | Api.UninstallLanguage code => Done RetVoid (uninstallLanguage code a)
  | Api.InstallCurrency code => Done RetVoid (installCurrency code a)
  | Api.UninstallCurrency code => Done RetVoid (uninstallCurrency code a)
  | Api.UpdateUserProfilePhoto url => Done RetVoid (updateUserProfilePhoto url a)
  | Api.ShowNotification message type =>
      Done RetVoid (showNotification message type a)
  | Api.SwitchWallet walletId => switchWallet walletId a
  | Api.CreateWallet name currency => createWallet name currency a
  | Api.RefreshWallets => refreshWallets a
  | Api.DeleteWallet walletId => deleteWallet walletId a
  | Api.BackupUserData custom => backupUserData custom a
  | Api.RestoreBackup strat => restoreBackup strat a
  | Api.Logout => logout a
  | Api.AuthStateChange user online => handleAuthStateChange user online a
  | Api.Online => Done RetVoid (handleOnline a)
  | Api.Offline => Done RetVoid (handleOffline a)
  | Api.RealtimeSubscribed => Done RetVoid (realtime_subscribed a)
  | Api.RealtimeTeardown => Done RetVoid (realtime_teardown a)
  | Api.RealtimeWalletChange newRow =>
      Done RetVoid (realtime_wallet_change newRow a)
  | Api.RealtimeBackupChange updated_at =>
      Done RetVoid (realtime_backup_change updated_at a)
  end.

(** Running the continuation of a suspended call on the gateway's
    response; [None] when the response is not of the kind the awaited
    gateway call produces. [now] is the clock at that moment. *)
Definition resume `{Host} (t : Task) (resp : Response) (now : Clock)
  (a : App) : option Async :=
  match t with
  | AwaitSyncWalletData => syncWalletData_resume resp now a
  | AwaitBackupUserData => backupUserData_resume resp a
  | AwaitSwitchFetch walletId => switchWallet_resume walletId resp a
  | AwaitRestoreWallet strat => restoreWallet_resume strat resp now a
  | AwaitRestoreBackup strat => restoreBackup_resume strat resp a
  | AwaitAuthWallets currentVersion user =>
      authWallets_resume currentVersion user resp a
  | AwaitAuthBackup currentVersion => authBackup_resume currentVersion resp a
  | AwaitSignOut => logout_resume resp a
  | AwaitCreateWallet render => createWallet_resume render resp a
  | AwaitDeleteWallet walletId render =>
      deleteWallet_resume walletId render resp a
  | AwaitRefreshWallets => refreshWallets_resume resp a
  end.

(** The provider between two ticks: its state and the calls suspended on
    the gateway. *)
Record World : Type := {
  provider : App;
  pending : list Task
}.

(** What happens to the provider: a call in its latest render; the
    gateway's answer to the [i]-th pending call; the auto-backup timer
    firing. The timer runs the closure of the render [r] that armed it.
    React arms the timer anew whenever one of the effect's dependencies
    changes, so [r] has the dependencies of the latest render; what else
    it holds (the budget, the accounts, the categories, the user, the
    active wallet) may be older, and nothing is assumed of it. Nor is
    anything assumed of when the timer fires, which in the code is once,
    four seconds after it was armed. *)
Inductive Event : Type :=
| Invoke (c : Api.call)
| Settle (i : nat) (resp : Response) (now : Clock)
| Tick (r : App) (now : string).

(** The end of a tick: React renders, the persistence effects run, and a
    call that suspended joins the pending ones. (The render reads
    [settings.currencies] when it builds the provider value, and throws
    when the settings hold no such array, as after a ['replace'] restore
    of a backup whose settings lack it; the provider is then unmounted
    and its run ends. The transition system goes on from such a state:
    its runs include those of the provider.) *)
Definition commit (r : Async) (tasks : list Task) : World :=
  match r with
  | Done _ a => {| provider := persist a; pending := tasks |}
  | Await t a => {| provider := persist a; pending := tasks ++ [t] |}
  end.

Definition step `{Host} (e : Event) (w : World) : option World :=
  match e with
  | Invoke c => Some (commit (invoke c (provider w)) (pending w))
  | Settle i resp now =>
      match pending w !! i with
      | Some t =>
          match resume t resp now (provider w) with
          | Some r => Some (commit r (delete i (pending w)))
          | None => None
          end
      | None => None
      end
  | Tick r now =>
      if bool_decide (timer_deps r = timer_deps (provider w))
      then Some (commit (checkAutoBackup r now (provider w)) (pending w))
      else None
  end.

Fixpoint run `{Host} (es : list Event) (w : World) : option World :=
  match es with
  | [] => Some w
  | e :: es' =>
      match step e w with
      | Some w' => run es' w'
      | None => None
      end
  end.

(** A freshly mounted provider: nothing pending, first render persisted. *)
Definition boot `{Host} (st : Store) (online : bool) : World :=
  {| provider := persist (mount st online); pending := [] |}.

(** A world some run of the provider can be in. *)
Definition reachable `{Host} (w : World) : Prop :=
  ∃ st online es, run es (boot st online) = Some w.

(** Is the task a push in flight? *)
Definition is_push_task (t : Task) : bool :=
  match t with
  | AwaitSyncWalletData | AwaitBackupUserData => true
  | _ => false
  end.

Definition pushes_in_flight (w : World) : nat :=
  length (List.filter is_push_task (pending w)).

Definition pushes_made (a : App) : nat :=
  length (List.filter is_push (gateway a)).

(** ** A concrete host

    Used to run the provider on examples: a small set of initial accounts
    and categories, default settings without the optional
    [enableRealtime] key, and dates in the UTC form [toISOString] writes,
    [YYYY-MM-DDTHH:mm:ss.sssZ]. A string that is not a date of that form
    is taken not to parse, as the empty string and free text do not in
    any engine; the other date formats an engine reads are outside this
    host and the examples use none. *)

(** The decimal number at the head of [s], [acc] being the digits read. *)
Fixpoint read_digits (s : string) (acc : Z) : Z :=
  match s with
  | EmptyString => acc
  | String c s' =>
      let d := Z.of_nat (nat_of_ascii c) - 48 in
      if (0 <=? d) && (d <=? 9) then read_digits s' (10 * acc + d) else acc
  end.

Definition number_at (s : string) (start len : nat) : Z :=
  read_digits (String.substring start len s) 0.

(** Days from 1970-01-01 to the civil date [y]-[m]-[d]. *)
Definition days_from_civil (y m d : Z) : Z :=
  let y := if m <=? 2 then y - 1 else y in
  let era := y / 400 in
  let yoe := y - era * 400 in
  let doy := (153 * (if 2 <? m then m - 3 else m + 9) + 2) / 5 + d - 1 in
  let doe := yoe * 365 + yoe / 4 - yoe / 100 + doy in
  era * 146097 + doe - 719468.

(** Milliseconds since the epoch of a UTC ISO-8601 instant. *)
Definition iso_getTime (s : string) : Z :=
  days_from_civil (number_at s 0 4) (number_at s 5 2) (number_at s 8 2)
    * 86400000
  + number_at s 11 2 * 3600000
  + number_at s 14 2 * 60000
  + number_at s 17 2 * 1000
  + number_at s 20 3.

Definition is_digit (c : ascii) : bool :=
  let n := nat_of_ascii c in (Nat.leb 48 n && Nat.leb n 57)%bool.

(** Does [s] have the shape [pattern], in which [d] stands for a digit
    and every other character for itself? *)
Fixpoint has_shape (pattern s : string) : bool :=
  match pattern, s with
  | EmptyString, EmptyString => true
  | String p pattern', String c s' =>
      ((if Ascii.eqb p "d" then is_digit c else Ascii.eqb p c)
       && has_shape pattern' s')%bool
  | _, _ => false
  end.

Definition days_in_month (y m : Z) : Z :=
  if m =? 2 then
    if ((y mod 4 =? 0) && negb (y mod 100 =? 0) || (y mod 400 =? 0))%bool
    then 29 else 28
  else if ((m =? 4) || (m =? 6) || (m =? 9) || (m =? 11))%bool then 30
  else 31.

(** Is [s] a UTC ISO-8601 instant, with every field in its range? *)
Definition iso_valid (s : string) : bool :=
  (has_shape "dddd-dd-ddTdd:dd:dd.dddZ" s
   && (1 <=? number_at s 5 2) && (number_at s 5 2 <=? 12)
   && (1 <=? number_at s 8 2)
   && (number_at s 8 2 <=? days_in_month (number_at s 0 4) (number_at s 5 2))
   && (number_at s 11 2 <=? 23) && (number_at s 14 2 <=? 59)
   && (number_at s 17 2 <=? 59))%bool.

Definition cash : Account :=
  {| acc_id := "acc_cash"; acc_name := "Cash"; acc_extra := ∅ |}.

Definition bank : Account :=
  {| acc_id := "acc_bank"; acc_name := "Bank"; acc_extra := ∅ |}.

Definition food : Category :=
  {| cat_id := "cat_food"; cat_name := "Food"; cat_extra := ∅ |}.

Definition iso_host : Host :=
  {| INITIAL_ACCOUNTS := [cash; bank];
     INITIAL_CATEGORIES := [food];
     DEFAULT_SETTINGS :=
       <[ "language" := VStr "en" ]>
         (<[ "currency" := VStr "$" ]>
            (<[ "currencies" := VStrs ["$"] ]>
               {[ "autoBackup" := VStr "daily" ]}));
     getTime := iso_getTime;
     valid_date := iso_valid |}.

(** A transaction of the examples: an expense with an id and a date. *)
Definition tx (id date : string) (amount : Z) : Transaction :=
  {| tx_id := id; tx_type := expense; tx_amount := amount; tx_date := date;
     tx_note := None; tx_accountId := Some "acc_cash";
     tx_fromAccountId := None; tx_toAccountId := None;
     tx_categoryId := Some "cat_food"; tx_isPendingSync := None |}.

Definition alice : AuthUser :=
  {| au_id := "u-alice"; au_email := Some "alice@example.org";
     au_full_name := Some "Alice"; au_name := None;
     au_created_at := "2023-05-01T08:00:00.000Z";
     au_email_confirmed_at := Some "2023-05-01T08:05:00.000Z";
     au_photo_url := None; au_avatar_url := None |}.

Definition bob : AuthUser :=
  {| au_id := "u-bob"; au_email := Some "bob@example.org";
     au_full_name := None; au_name := Some "Bob";
     au_created_at := "2023-06-01T08:00:00.000Z";
     au_email_confirmed_at := None;
     au_photo_url := None; au_avatar_url := None |}.

(** A provider mounted on an empty store, online. *)
Definition fresh_world : World := boot (H := iso_host) empty_store true.

(** A sequence of mutating operations, applied in order. *)
Definition mutate_all (ms : list Mutation) (a : App) : App :=
  fold_left (λ a m, mutate m a) ms a.

(** A list of transactions read as a dictionary keyed by id; of two
    entries with one id the first stands. *)
Definition keyed (l : list Transaction) : gmap string Transaction :=
  list_to_map ((λ t, (tx_id t, t)) <$> l).

(** The union by id in the words of the specification: what the remote
    list has under an id takes precedence, and what only the local list
    has is kept. (Within the remote list a later entry replaces an
    earlier one with the same id.) *)
Definition union_by_id (L R : list Transaction) : gmap string Transaction :=
  keyed (reverse R) ∪ keyed L.

(** Descending by date: no later date after an earlier one. A
    transaction whose date does not parse has no place in the order and
    is taken to be in order with every other. *)
Definition newest_first `{Host} (x y : Transaction) : Prop :=
  match time_of (tx_date x), time_of (tx_date y) with
  | Some tx, Some ty => ty ≤ tx
  | _, _ => True
  end.

(** The date of the transaction parses. *)
Definition dated `{Host} (t : Transaction) : Prop :=
  valid_date (tx_date t) = true.

(** Does the call leave a push suspended on the gateway? *)
Definition starts_push (r : Async) : bool :=
  match r with
  | Await t _ => is_push_task t
  | Done _ _ => false
  end.

(** Alice signs in, edits her budget, and a push is started. *)
Definition pushing_world : World :=
  default fresh_world
    (run (H := iso_host)
       [Invoke (Api.AuthStateChange (Some alice) false);
        Invoke (Api.UpdateBudget 500);
        Invoke (Api.BackupUserData None)] fresh_world).

(** Alice signs in on a device with no backup yet, edits her budget,
    pushes, and the push succeeds at midnight; later the auth callback
    fires for her again and the engine asks the gateway for her backup. *)
Definition synced_world : World :=
  default fresh_world
    (run (H := iso_host)
       [Invoke (Api.AuthStateChange (Some alice) false);
        Settle 0 (Resolved (Backup None)) (instant "2023-12-31T23:59:00.000Z");
        Invoke (Api.UpdateBudget 500);
        Invoke (Api.BackupUserData None);
        Settle 0 (Resolved (Pushed
                 {| skipped := false;
                    timestamp := Some "2024-01-01T00:00:00.000Z" |}))
               (instant "2024-01-01T00:00:00.020Z");
        Invoke (Api.AuthStateChange (Some alice) false)] fresh_world).

(** Every entry of the map sits under the id of its transaction. *)
Definition tagged (m : JsMap Transaction) : Prop :=
  Forall (λ p, p.1 = tx_id p.2) m.

(** The guard flag as a number of pushes. *)
Definition ref_count (a : App) : nat := if isBackingUpRef a then 1 else 0.

(** A provider mounted on an empty store with the network down. *)
Definition offline_app : App :=
  persist (mount (H := iso_host) empty_store false).

(** Alice, signed in on a device without a backup, sets an overall
    budget of 500, budgets 100 for food, and asks for a ['merge']
    restore, which is now waiting for the gateway. *)
Definition budgeted_world : World :=
  default fresh_world
    (run (H := iso_host)
       [Invoke (Api.AuthStateChange (Some alice) false);
        Settle 0 (Resolved (Backup None)) (instant "2024-01-01T09:00:00.000Z");
        Invoke (Api.UpdateBudget 500);
        Invoke (Api.UpdateCategoryBudget "cat_food" 100);
        Invoke (Api.RestoreBackup Strategy.merge)] fresh_world).

(** A remote payload with a budget entry for rent only, and neither an
    overall budget nor settings. *)
Definition rent_payload : Payload :=
  {| p_transactions := None; p_accounts := None; p_categories := None;
     p_budget := None;
     p_category_budgets :=
       Some [{| cb_categoryId := "cat_rent"; cb_amount := 50 |}];
     p_settings := None |}.

(** A remote payload with a French-language setting, a budget of 300 and
    a budget entry for rent. *)
Definition full_payload : Payload :=
  {| p_transactions := None; p_accounts := None; p_categories := None;
     p_budget := Some 300;
     p_category_budgets :=
       Some [{| cb_categoryId := "cat_rent"; cb_amount := 50 |}];
     p_settings := Some {[ "language" := VStr "fr" ]} |}.

(** The Snapshot after switching, offline, to a wallet ["w1"] the store
    knows nothing of. *)
Definition w1_snapshot : Snapshot :=
  snap (state_of (switchWallet (H := iso_host) (Some "w1") offline_app)).

(** Three mutations, two of them cascading. *)
Definition three_mutations : list Mutation :=
  [MDeleteAccount "acc_cash";
   MAddTransaction (tx "" "2024-01-01T00:00:00.000Z" 12) "t-1";
   MDeleteCategory "cat_food"].

(** The world once the gateway has answered the restore with the
    backup [rd]. *)
Definition merged_world (rd : Payload) : World :=
  default fresh_world
    (step (H := iso_host)
       (Settle 0 (Resolved (Backup (Some
                  {| be_data := Some rd;
                     be_timestamp := Some "2024-01-02T00:00:00.000Z" |})))
               (instant "2024-01-02T00:00:05.000Z")) budgeted_world).

(** The same restore as the function the continuation runs. *)
Definition merged_app (rd : Payload) : App :=
  state_of (restore_apply (H := iso_host) Strategy.merge (Some rd)
              (Some "2024-01-02T00:00:00.000Z") (provider budgeted_world)).

(** From the personal context, offline: switch to wallet ["w1"], switch
    the realtime listener off there, and switch back. *)
Definition in_w1_app : App :=
  mutate_all [MUpdateSettings {[ "enableRealtime" := VBool false ]}]
    (state_of (switchWallet (H := iso_host) (Some "w1") offline_app)).

Definition back_home_app : App :=
  state_of (switchWallet (H := iso_host) None in_w1_app).

(** The events that reset [unsyncedChanges]: a push that succeeded; a
    context switch, called directly or run by [createWallet] on its new
    wallet or by [deleteWallet] after deleting; the end of [logout]; the
    auth callback firing without a user. *)
Inductive Clears (w : World) : Event → Prop :=
| clears_push i t v now :
    pending w !! i = Some t → is_push_task t = true →
    Clears w (Settle i (Resolved v) now)
| clears_switch walletId :
    Clears w (Invoke (Api.SwitchWallet walletId))
| clears_create i render v now :
    pending w !! i = Some (AwaitCreateWallet render) →
    Clears w (Settle i (Resolved v) now)
| clears_delete i walletId render v now :
    pending w !! i = Some (AwaitDeleteWallet walletId render) →
    Clears w (Settle i (Resolved v) now)
| clears_logout i resp now :
    pending w !! i = Some AwaitSignOut →
    Clears w (Settle i resp now)
| clears_signed_out online :
    Clears w (Invoke (Api.AuthStateChange None online)).

(** A provider with an unpushed edit, offline. *)
Definition dirty_world : World :=
  default fresh_world
    (run (H := iso_host)
       [Invoke Api.Offline; Invoke (Api.UpdateBudget 500)] fresh_world).

(** The login session a suspended continuation of the auth handler
    belongs to: the value of the generation counter it captured. *)
Definition session_of (t : Task) : option nat :=
  match t with
  | AwaitAuthWallets currentVersion _ | AwaitAuthBackup currentVersion =>
      Some currentVersion
  | _ => None
  end.

(** The shared state: everything of the provider but the record of the
    gateway calls made. *)
Definition shared (a : App) :=
  (snap a, wallets a, syncState a, storage a, notifications a,
   (sessionVersion a, isBackingUpRef a, isLoggingOutRef a)).

(** Alice's login is waiting for her wallet list when Bob signs in. *)
Definition two_logins_world : World :=
  default fresh_world
    (run (H := iso_host)
       [Invoke (Api.AuthStateChange (Some alice) true);
        Invoke (Api.AuthStateChange (Some bob) true)] fresh_world).

(** Local transactions [t1], [t2]; remote [t2'] (the id of [t2], a
    newer date and another amount) and [t3]. *)
Definition t1 : Transaction := tx "t1" "2024-01-05T10:00:00.000Z" 10.
Definition t2 : Transaction := tx "t2" "2024-01-03T10:00:00.000Z" 20.
Definition t2' : Transaction := tx "t2" "2024-01-07T10:00:00.000Z" 25.
Definition t3 : Transaction := tx "t3" "2024-01-06T10:00:00.000Z" 30.

(** Three accounts, and three transactions on the second of them: one
    by [accountId], one as the source and one as the target of a
    transfer. *)
Definition savings : Account :=
  {| acc_id := "acc_savings"; acc_name := "Savings"; acc_extra := ∅ |}.

Definition on_bank : list Transaction :=
  [with_accountId (Some "acc_bank") (tx "b1" "2024-02-01T09:00:00.000Z" 5);
   with_fromAccountId (Some "acc_bank")
     (tx "b2" "2024-02-02T09:00:00.000Z" 6);
   with_toAccountId (Some "acc_bank") (tx "b3" "2024-02-03T09:00:00.000Z" 7)].

Definition three_accounts_app : App :=
  setSnap (λ s, set_transactions on_bank
                  (set_accounts [bank; cash; savings] s)) offline_app.

(** Alice signs in; while her backup is being fetched she logs out and
    the sign-out completes. *)
Definition logged_out_world : World :=
  default fresh_world
    (run (H := iso_host)
       [Invoke (Api.AuthStateChange (Some alice) false);
        Invoke Api.Logout;
        Invoke (Api.AuthStateChange None false);
        Settle 1 (Resolved NoValue) (instant "2024-01-01T00:00:00.000Z")] fresh_world).

(** ** Reading the Snapshot *)

(** [getAccountBalance(id)]: the [reduce] over the transactions, from 0.
    Amounts are integers here, as everywhere in the embedding; the code
    adds and subtracts doubles, with which this sum agrees as long as
    every amount and every partial sum is an integer below 2^53 in
    magnitude. *)
Definition getAccountBalance (id : string) (a : App) : Z :=
  fold_left (λ bal tx,
    if same (tx_accountId tx) id then
      match tx_type tx with
      | income => bal + tx_amount tx
      | expense => bal - tx_amount tx
      | transfer => bal
      end
    else
      match tx_type tx with
      | transfer =>
          if same (tx_fromAccountId tx) id then bal - tx_amount tx
          else if same (tx_toAccountId tx) id then bal + tx_amount tx
          else bal
      | _ => bal
      end) (transactions (snap a)) 0.

(** Does the transaction name the account, in any of its three
    references? *)
Definition refers_to (id : string) (t : Transaction) : bool :=
  same (tx_accountId t) id || same (tx_fromAccountId t) id
  || same (tx_toAccountId t) id.

(** The signatures of a list of transactions. *)
Definition signatures (l : list Transaction) : gset string :=
  list_to_set (List.map signature l).

(** Settings in which the current currency is one of the installed ones
    and ["$"] is installed. *)
Definition currency_ok (s : JsObject) : Prop :=
  ∃ cs c, s !! "currencies" = Some (VStrs cs)
          ∧ s !! "currency" = Some (VStr c)
          ∧ c ∈ cs ∧ "$" ∈ cs.

(** Is the task a sign-out in flight? *)
Definition is_signout_task (t : Task) : bool :=
  match t with
  | AwaitSignOut => true
  | _ => false
  end.

Definition signouts_pending (w : World) : nat :=
  length (List.filter is_signout_task (pending w)).

(** Does the call leave a sign-out suspended on the gateway? *)
Definition starts_signout (r : Async) : bool :=
  match r with
  | Await t _ => is_signout_task t
  | Done _ _ => false
  end.

(** The backup-write call a push makes: to the wallet-scoped store when
    a wallet is active, to the user's backup otherwise. *)
Definition push_call (scope : option string) (userId : string)
  (data : Payload) : GatewayCall :=
  match scope with
  | Some w => if truthy scope then SyncWalletData w userId data
              else BackupUserData userId data
  | None => BackupUserData userId data
  end.

(** Alice has signed in and asked to log out; the sign-out is under
    way. *)
Definition logging_out_world : World :=
  default fresh_world
    (run (H := iso_host)
       [Invoke (Api.AuthStateChange (Some alice) false);
        Invoke Api.Logout] fresh_world).

(** The Local Store keeps the personal Snapshot whenever [active] is a
    wallet. *)
Definition personal_kept (st : Store) (active : option string) : Prop :=
  truthy active = true → is_Some (k_contexts st !! "sb_personal_data").

(** The render a suspended wallet operation will run [switchWallet] in. *)
Definition render_of (t : Task) : option App :=
  match t with
  | AwaitCreateWallet render | AwaitDeleteWallet _ render => Some render
  | _ => None
  end.

(** The invariant of [personal_kept] on a world: it holds of the active
    wallet, and of the active wallet of every render a pending wallet
    operation carries. *)
Definition keeps_personal (w : World) : Prop :=
  personal_kept (storage (provider w))
                (activeWalletId (syncState (provider w)))
  ∧ Forall (λ t, ∀ r, render_of t = Some r →
                      personal_kept (storage (provider w))
                                    (activeWalletId (syncState r)))
           (pending w).

(** Alice signs in, asks for a new wallet, edits her budget while the
    gateway creates it, and is switched to it when it answers. *)
Definition in_wallet_world : World :=
  default fresh_world
    (run (H := iso_host)
       [Invoke (Api.AuthStateChange (Some alice) false);
        Invoke (Api.CreateWallet "Home" "EUR");
        Invoke (Api.UpdateBudget 700);
        Settle 1 (Resolved (NewWallet {| w_id := "w1"; w_name := "Home";
                                         w_currency := "EUR" |}))
               (instant "2024-01-01T00:00:00.000Z")] fresh_world).

(** Every key of the per-context store [st] is still a key of [st']. *)
Definition grows (st st' : Store) : Prop :=
  ∀ k, is_Some (k_contexts st !! k) → is_Some (k_contexts st' !! k).

(** Alice's wallet. *)
Definition home : Wallet :=
  {| w_id := "w1"; w_name := "Home"; w_currency := "EUR" |}.

(** Alice signs in online; while her wallet list is being fetched she
    logs out; the auth provider's sign-out callback fires while [logout]
    runs; then the sign-out completes. *)
Definition signed_out_world : World :=
  default fresh_world
    (run (H := iso_host)
       [Invoke (Api.AuthStateChange (Some alice) true);
        Invoke Api.Logout;
        Invoke (Api.AuthStateChange None true);
        Settle 1 (Resolved NoValue) (instant "2024-01-02T09:00:00.000Z")]
       fresh_world).

(** What the gateway still delivers to the login that was left behind:
    Alice's wallet list, and then her backup. *)
Definition late_answers : list Event :=
  [Settle 0 (Resolved (WalletList [home]))
          (instant "2024-01-02T09:00:01.000Z");
   Settle 0 (Resolved (Backup (Some
             {| be_data := Some full_payload;
                be_timestamp := Some "2024-01-02T00:00:00.000Z" |})))
          (instant "2024-01-02T09:00:02.000Z")].

(** The provider is in context [B], having left context [A] when it
    held Snapshot [SA], with the network as it was then: [SA] is stored
    under [A]'s key. *)
Definition away (A : option string) (SA : Snapshot) (B : option string)
  (online : bool) (a : App) : Prop :=
  k_contexts (storage a) !! context_key A = Some (payload_of SA)
  ∧ activeWalletId (syncState a) = B
  ∧ isOnline (syncState a) = online.

(** From the personal context, online: switch to wallet ["w1"], whose
    remote data (a French-language setting, a budget of 300, a budget
    entry for rent) the gateway then delivers, and set the budget to 42
    there. *)
Definition visiting_world : World :=
  default fresh_world
    (run (H := iso_host)
       [Invoke (Api.SwitchWallet (Some "w1"));
        Settle 0 (Resolved (WalletData (Some full_payload)))
               (instant "2024-01-01T00:00:00.000Z");
        Invoke (Api.UpdateBudget 42)] fresh_world).

(** Alice, signed in, has set her budget to 500; the change raised the
    dirty flag, a dependency of the auto-backup timer, which this render
    arms. *)
Definition armed_world : World :=
  default fresh_world
    (run (H := iso_host)
       [Invoke (Api.AuthStateChange (Some alice) false);
        Invoke (Api.UpdateBudget 500)] fresh_world).

(** She then sets the budget to 700, which changes no dependency of the
    timer. *)
Definition edited_world : World :=
  default fresh_world
    (run (H := iso_host) [Invoke (Api.UpdateBudget 700)] armed_world).

(** A provider holding the transactions [l], otherwise as mounted
    offline on an empty store. *)
Definition holding (l : list Transaction) : App :=
  setSnap (set_transactions l) offline_app.

(** A remote payload with the transactions [l] and nothing else. *)
Definition txs_payload (l : list Transaction) : Payload :=
  {| p_transactions := Some l; p_accounts := None; p_categories := None;
     p_budget := None; p_category_budgets := None; p_settings := None |}.

(** A transaction imported from a file that had no date for it. *)
Definition undated : Transaction := tx "t4" "" 15.

(** ** Proof automation *)

Create HintDb provider discriminated.

#[local] Hint Unfold
  invoke resume mutate commit
  addTransaction updateTransaction deleteTransaction importTransactions
  addAccount updateAccountName deleteAccount addCategory updateCategory
  deleteCategory updateBudget updateCategoryBudget updateSettings
  installLanguage uninstallLanguage installCurrency uninstallCurrency
  updateUserProfilePhoto markAsDirty
  switchWallet switchWallet_in switchWallet_begin switchWallet_resume
  saveCurrentContextToStorage loadContextFromStorage
  createWallet createWallet_resume refreshWallets refreshWallets_resume
  deleteWallet deleteWallet_resume
  backupUserData backupUserData_in backup_finally syncWalletData_resume
  backupUserData_resume
  checkAutoBackup restoreBackup restore_apply restoreWallet_resume
  restoreBackup_resume
  handleAuthStateChange auth_reconcile authWallets_resume authBackup_resume
  logout logout_resume
  handleOnline handleOffline realtime_subscribed realtime_teardown
  realtime_wallet_change realtime_backup_change
  skipped_push : provider.

(** Unfold the operation at hand and split on every test it makes. *)
Ltac run_op :=
  autounfold with provider in *; simpl in *; simplify_eq; simpl in *;
  repeat (case_match; simpl in *; simplify_eq; simpl in *; try reflexivity).

(** ** Properties *)

(** *** Dirty tracker *)

Lemma markAsDirty_unsynced a :
  unsyncedChanges (syncState (markAsDirty a)) = true.
Proof.
  unfold markAsDirty; simpl.
  destruct (unsyncedChanges (syncState a)) eqn:E; simpl; auto.
Qed.

Lemma mutate_unsynced m a :
  unsyncedChanges (syncState (mutate m a)) = true.
Proof. destruct m; apply markAsDirty_unsynced. Qed.

(** Deleting an account three transactions refer to, with two accounts
    left: each reference moves to the first account left, each of the
    three is marked pending, and the flag is set. *)
Example deleteAccount_cascade :
  transactions (snap (deleteAccount "acc_bank" three_accounts_app))
  = List.map (with_isPendingSync true)
      [with_accountId (Some "acc_cash") (tx "b1" "2024-02-01T09:00:00.000Z" 5);
       with_fromAccountId (Some "acc_cash")
         (tx "b2" "2024-02-02T09:00:00.000Z" 6);
       with_toAccountId (Some "acc_cash")
         (tx "b3" "2024-02-03T09:00:00.000Z" 7)]
  ∧ unsyncedChanges (syncState (deleteAccount "acc_bank" three_accounts_app))
    = true.
Proof. vm_compute. split; reflexivity. Qed.

Lemma invoke_mutation `{Host} m a :
  ∃ o, invoke (call_of m) a = Done o (mutate m a).
Proof. destruct m; simpl; eauto. Qed.

Lemma step_mutation `{Host} m w :
  step (Invoke (call_of m)) w
  = Some {| provider := persist (mutate m (provider w));
            pending := pending w |}.
Proof.
  simpl. destruct (invoke_mutation m (provider w)) as [o ->]. reflexivity.
Qed.

Lemma mutate_all_snoc ms m a :
  mutate_all (ms ++ [m]) a = mutate m (mutate_all ms a).
Proof. unfold mutate_all. rewrite fold_left_app. reflexivity. Qed.

Lemma run_mutations `{Host} ms :
  ∀ w, ∃ w',
    run (List.map (λ m, Invoke (call_of m)) ms) w = Some w'
    ∧ pending w' = pending w
    ∧ (ms ≠ [] → unsyncedChanges (syncState (provider w')) = true).
Proof.
  induction ms as [|m ms IH]; intros w.
  - exists w. split; [reflexivity|]. split; [reflexivity|]. congruence.
  - cbn [List.map run]. rewrite step_mutation.
    destruct (IH {| provider := persist (mutate m (provider w));
                    pending := pending w |}) as (w' & Hrun & Hpend & Hflag).
    exists w'. split; [exact Hrun|]. split; [exact Hpend|].
    intros _. destruct ms as [|m' ms'].
    + simpl in Hrun. injection Hrun as <-. simpl. apply mutate_unsynced.
    + apply Hflag. discriminate.
Qed.

(** C1. Each of the thirteen mutating operations returns within the tick
    it was called in, with its in-memory change applied and
    [unsyncedChanges] set; so after any non-empty sequence of them, with
    nothing else in between, the flag is set, both in the state the
    operations computed and in the world the run ends in, and no call is
    left pending. *)
Theorem mutations_mark_dirty `{Host} (ms : list Mutation) (w : World) :
  ms ≠ [] →
  (∀ m a, ∃ o,
     invoke (call_of m) a = Done o (mutate m a)
     ∧ unsyncedChanges (syncState (mutate m a)) = true)
  ∧ unsyncedChanges (syncState (mutate_all ms (provider w))) = true
  ∧ ∃ w',
      run (List.map (λ m, Invoke (call_of m)) ms) w = Some w'
      ∧ pending w' = pending w
      ∧ unsyncedChanges (syncState (provider w')) = true.
Proof.
  intros Hne. split; [|split].
  - intros m a. destruct (invoke_mutation m a) as [o Ho].
    exists o. split; [exact Ho | apply mutate_unsynced].
  - destruct (exists_last Hne) as (ms' & m & ->).
    rewrite mutate_all_snoc. apply mutate_unsynced.
  - destruct (run_mutations ms w) as (w' & Hrun & Hpend & Hflag).
    exists w'. auto.
Qed.

Lemma mutations_mark_dirty_witness :
  three_mutations ≠ []
  ∧ unsyncedChanges
      (syncState (mutate_all three_mutations (provider fresh_world))) = true.
Proof.
  split; [discriminate|].
  apply (mutations_mark_dirty (H := iso_host) three_mutations fresh_world).
  discriminate.
Defined.

(** *** [Map] and [sort] *)

Section JsMapFacts.
Context {V : Type}.
Implicit Types (m : JsMap V) (k : string) (v : V).

Lemma map_has_false k m : map_has k m = false ↔ k ∉ m.*1.
Proof.
  induction m as [|[k' v'] m IH]; simpl.
  - split; [intros _; apply not_elem_of_nil | reflexivity].
  - rewrite not_elem_of_cons.
    destruct (String.eqb_spec k k') as [->|Hne]; [|tauto].
    split; [discriminate | intros [? _]; congruence].
Qed.

Lemma map_has_lookup k m :
  map_has k m = false ↔ (list_to_map m : gmap string V) !! k = None.
Proof. rewrite map_has_false. apply not_elem_of_list_to_map. Qed.

Lemma map_set_keys k v m :
  (map_set k v m).*1 = if map_has k m then m.*1 else m.*1 ++ [k].
Proof.
  induction m as [|[k' v'] m IH]; [reflexivity|].
  cbn [map_set map_has].
  destruct (String.eqb_spec k k') as [->|Hne]; [reflexivity|].
  rewrite fmap_cons, IH. destruct (map_has k m); reflexivity.
Qed.

Lemma map_set_NoDup k v m : NoDup m.*1 → NoDup (map_set k v m).*1.
Proof.
  intros Hnd. rewrite map_set_keys.
  destruct (map_has k m) eqn:E; [exact Hnd|].
  apply NoDup_app. split; [exact Hnd|]. split.
  - intros x Hx ->%list_elem_of_singleton.
    apply map_has_false in E. contradiction.
  - apply NoDup_singleton.
Qed.

Lemma list_to_map_map_set k v m :
  (list_to_map (map_set k v m) : gmap string V) = <[k:=v]> (list_to_map m).
Proof.
  induction m as [|[k' v'] m IH]; simpl; [reflexivity|].
  destruct (String.eqb_spec k k') as [->|Hne].
  - rewrite list_to_map_cons, insert_insert_eq. reflexivity.
  - rewrite list_to_map_cons, IH. apply insert_insert_ne. congruence.
Qed.
End JsMapFacts.

Section SortFacts.
Context {A : Type} (compare : A → A → option Z) (ok : A → Prop).
Hypothesis compare_total :
  ∀ x y, ok x → ok y →
    0 < sort_order compare x y → sort_order compare y x ≤ 0.
Hypothesis compare_trans :
  ∀ x y z, ok x → ok y → ok z →
    sort_order compare x y ≤ 0 → sort_order compare y z ≤ 0 →
    sort_order compare x z ≤ 0.

Lemma sort_insert_perm x l : sort_insert compare x l ≡ₚ x :: l.
Proof using Type.
  induction l as [|y l IH]; simpl; [reflexivity|].
  destruct (sort_order compare x y <=? 0); [reflexivity|].
  rewrite IH. apply Permutation_swap.
Qed.

Lemma sort_perm l : sort compare l ≡ₚ l.
Proof using Type.
  induction l as [|x l IH]; simpl; [reflexivity|].
  rewrite sort_insert_perm, IH. reflexivity.
Qed.

Lemma sort_insert_sorted x l :
  ok x → Forall ok l →
  StronglySorted (λ x y, sort_order compare x y ≤ 0) l →
  StronglySorted (λ x y, sort_order compare x y ≤ 0)
                 (sort_insert compare x l).
Proof using compare_total compare_trans.
  intros Hx Hok Hs. induction Hs as [|y l Hl IH Hy]; simpl.
  - repeat constructor.
  - apply Forall_cons in Hok as [Hoky Hokl].
    destruct (Z.leb_spec (sort_order compare x y) 0) as [Hle|Hgt].
    + constructor; [constructor; assumption|].
      constructor; [exact Hle|].
      rewrite Forall_forall in Hy, Hokl. apply Forall_forall.
      intros z Hz. apply (compare_trans x y z); auto.
    + constructor; [apply IH; exact Hokl|].
      rewrite sort_insert_perm. constructor; [|exact Hy].
      apply compare_total; [exact Hx | exact Hoky | lia].
Qed.

Lemma sort_sorted l :
  Forall ok l →
  StronglySorted (λ x y, sort_order compare x y ≤ 0) (sort compare l).
Proof using compare_total compare_trans.
  induction l as [|x l IH]; simpl; [constructor|].
  intros [Hx Hl]%Forall_cons.
  apply sort_insert_sorted; [exact Hx | | apply IH; exact Hl].
  rewrite sort_perm. exact Hl.
Qed.
End SortFacts.

(** *** Merge restore: transactions *)

Lemma tagged_map_set t m : tagged m → tagged (map_set (tx_id t) t m).
Proof.
  unfold tagged. induction 1 as [|[k v] m Hk Hm IH]; simpl.
  - repeat constructor.
  - destruct (String.eqb_spec (tx_id t) k) as [<-|Hne];
      constructor; auto.
Qed.

Lemma tagged_values m :
  tagged m → (λ t, (tx_id t, t)) <$> map_values m = m.
Proof.
  unfold tagged, map_values. induction 1 as [|[k v] m Hk Hm IH]; [reflexivity|].
  rewrite !fmap_cons, IH. simpl in *. congruence.
Qed.

Lemma tagged_ids m : tagged m → tx_id <$> map_values m = m.*1.
Proof.
  intros Hm. rewrite <- (tagged_values m Hm) at 2.
  rewrite <- list_fmap_compose. reflexivity.
Qed.

Lemma keyed_snoc l t : keyed (l ++ [t]) = keyed l ∪ {[ tx_id t := t ]}.
Proof.
  unfold keyed. rewrite fmap_app, list_to_map_app. simpl.
  rewrite insert_empty. reflexivity.
Qed.

Lemma keyed_cons t l : keyed (t :: l) = <[ tx_id t := t ]> (keyed l).
Proof. reflexivity. Qed.

(** The first loop: every cloud transaction is set under its id. *)
Lemma set_all_cloud (cloudTxs : list Transaction) :
  ∀ m, tagged m → NoDup m.*1 →
    let m' := forEach (λ txMap t, map_set (tx_id t) t txMap) cloudTxs m in
    tagged m' ∧ NoDup m'.*1
    ∧ (list_to_map m' : gmap string Transaction)
      = keyed (reverse cloudTxs) ∪ list_to_map m.
Proof.
  induction cloudTxs as [|t R IH]; intros m Ht Hnd; cbn [forEach fold_left].
  - split; [exact Ht|]. split; [exact Hnd|].
    unfold keyed. simpl. rewrite (left_id_L ∅ (∪)). reflexivity.
  - destruct (IH (map_set (tx_id t) t m)) as (Ht' & Hnd' & Heq).
    { apply tagged_map_set, Ht. }
    { apply map_set_NoDup, Hnd. }
    split; [exact Ht'|]. split; [exact Hnd'|].
    unfold forEach in Heq. rewrite Heq, list_to_map_map_set.
    rewrite reverse_cons, keyed_snoc, <- (assoc_L (∪)).
    rewrite <- insert_union_singleton_l. reflexivity.
Qed.

(** The second loop: a local transaction is set only under a free id. *)
Lemma set_local_only (prevTxs : list Transaction) :
  ∀ m, tagged m → NoDup m.*1 →
    let m' := forEach (λ txMap t,
                 if negb (map_has (tx_id t) txMap)
                 then map_set (tx_id t) t txMap else txMap) prevTxs m in
    tagged m' ∧ NoDup m'.*1
    ∧ (list_to_map m' : gmap string Transaction)
      = list_to_map m ∪ keyed prevTxs.
Proof.
  induction prevTxs as [|t L IH]; intros m Ht Hnd; cbn [forEach fold_left].
  - split; [exact Ht|]. split; [exact Hnd|].
    unfold keyed. simpl. rewrite (right_id_L ∅ (∪)). reflexivity.
  - destruct (map_has (tx_id t) m) eqn:Ehas; cbn [negb].
    + destruct (IH m Ht Hnd) as (Ht' & Hnd' & Heq).
      split; [exact Ht'|]. split; [exact Hnd'|].
      unfold forEach in Heq. rewrite Heq, keyed_cons.
      apply map_eq. intros i. rewrite !lookup_union.
      destruct (decide (i = tx_id t)) as [->|Hne].
      * destruct (list_to_map m !! tx_id t) eqn:El.
        -- simpl. destruct (keyed L !! tx_id t);
             rewrite lookup_insert_eq; reflexivity.
        -- apply map_has_lookup in El. congruence.
      * rewrite lookup_insert_ne by congruence. reflexivity.
    + destruct (IH (map_set (tx_id t) t m)) as (Ht' & Hnd' & Heq).
      { apply tagged_map_set, Ht. }
      { apply map_set_NoDup, Hnd. }
      split; [exact Ht'|]. split; [exact Hnd'|].
      unfold forEach in Heq. rewrite Heq, list_to_map_map_set, keyed_cons.
      rewrite <- insert_union_l. apply insert_union_r.
      apply map_has_lookup, Ehas.
Qed.

Lemma StronglySorted_weaken {A} (P Q : A → A → Prop) l :
  (∀ x y, P x y → Q x y) → StronglySorted P l → StronglySorted Q l.
Proof.
  intros HPQ. induction 1 as [|x l Hl IH Hx]; constructor; [exact IH|].
  eapply Forall_impl; [exact Hx|]. intros y. apply HPQ.
Qed.

Lemma sort_order_dated `{Host} x y :
  dated x → dated y →
  sort_order by_date_desc x y = getTime (tx_date y) - getTime (tx_date x).
Proof.
  unfold dated, sort_order, by_date_desc, time_of. intros -> ->. reflexivity.
Qed.

Lemma by_date_desc_total `{Host} x y :
  dated x → dated y →
  0 < sort_order by_date_desc x y → sort_order by_date_desc y x ≤ 0.
Proof. intros Hx Hy. rewrite !sort_order_dated by assumption. lia. Qed.

Lemma by_date_desc_trans `{Host} x y z :
  dated x → dated y → dated z →
  sort_order by_date_desc x y ≤ 0 → sort_order by_date_desc y z ≤ 0 →
  sort_order by_date_desc x z ≤ 0.
Proof. intros Hx Hy Hz. rewrite !sort_order_dated by assumption. lia. Qed.

Lemma newest_first_dated `{Host} x y :
  dated x → dated y →
  newest_first x y ↔ getTime (tx_date y) ≤ getTime (tx_date x).
Proof.
  unfold dated, newest_first, time_of. intros -> ->. reflexivity.
Qed.

Lemma merge_transactions_spec `{Host} (cloudTxs prevTxs : list Transaction) :
  let M := merge_transactions cloudTxs prevTxs in
  keyed M = union_by_id prevTxs cloudTxs
  ∧ NoDup (tx_id <$> M)
  ∧ (Forall dated M → StronglySorted newest_first M).
Proof.
  unfold merge_transactions. cbv zeta.
  destruct (set_all_cloud cloudTxs []) as (Ht1 & Hnd1 & Heq1);
    [constructor | constructor |].
  cbv zeta in Ht1, Hnd1, Heq1.
  set (m1 := forEach (λ txMap t, map_set (tx_id t) t txMap) cloudTxs [])
    in *.
  destruct (set_local_only prevTxs m1 Ht1 Hnd1) as (Ht2 & Hnd2 & Heq2).
  cbv zeta in Ht2, Hnd2, Heq2.
  set (m2 := forEach (λ txMap t,
                 if negb (map_has (tx_id t) txMap)
                 then map_set (tx_id t) t txMap else txMap) prevTxs m1) in *.
  assert (Hperm : sort by_date_desc (map_values m2) ≡ₚ map_values m2)
    by apply sort_perm.
  assert (Hids : NoDup (tx_id <$> map_values m2))
    by (rewrite tagged_ids; assumption).
  split; [|split].
  - unfold keyed, union_by_id.
    rewrite (list_to_map_proper _ ((λ t, (tx_id t, t)) <$> map_values m2)).
    + rewrite tagged_values by assumption.
      rewrite Heq2, Heq1. simpl. rewrite (right_id_L ∅ (∪)). reflexivity.
    + rewrite <- list_fmap_compose. rewrite Hperm. exact Hids.
    + rewrite Hperm. reflexivity.
  - rewrite Hperm. exact Hids.
  - intros Hdated.
    assert (Hs : StronglySorted (λ x y, sort_order by_date_desc x y ≤ 0)
                   (sort by_date_desc (map_values m2))).
    { apply (sort_sorted by_date_desc dated);
        [apply by_date_desc_total | apply by_date_desc_trans |].
      rewrite <- Hperm. exact Hdated. }
    clear Hperm. revert Hdated Hs.
    generalize (sort by_date_desc (map_values m2)). intros l Hdated Hs.
    induction Hs as [|x l Hl IH Hx]; constructor.
    + apply IH. apply Forall_cons in Hdated. apply Hdated.
    + apply Forall_cons in Hdated as [Hdx Hdl].
      rewrite Forall_forall in Hx, Hdl. apply Forall_forall. intros y Hy.
      apply newest_first_dated; [exact Hdx | apply Hdl, Hy |].
      specialize (Hx y Hy). simpl in Hx.
      rewrite sort_order_dated in Hx by (auto using Hdl). lia.
Qed.

(** The example of the specification: local [{t1, t2}] and remote
    [{t2', t3}] merge to [t2'], [t3], [t1], newest first. *)
Example merge_restore_example :
  merge_transactions (H := iso_host) [t2'; t3] [t1; t2] = [t2'; t3; t1].
Proof. vm_compute. reflexivity. Qed.

(** C3. Under ['merge'] the restore puts in place of the live
    transaction list [L], given the remote list [R], exactly the union of
    the two keyed by id: read as a dictionary the result is
    [union_by_id L R], in which the remote entry stands wherever an id
    occurs on both sides and a local entry stands where the id is absent
    remotely; no id occurs twice in the result; a transaction is in the
    result exactly when the union holds it under its id; and, when the
    date of every transaction of the union parses, the result is in
    descending order of date. *)
Theorem merge_restore_unions_by_id `{Host} (remoteData : Payload)
  (remoteTimestamp : option string) (a : App) :
  let L := transactions (snap a) in
  let R := default [] (p_transactions remoteData) in
  let M := transactions (snap (state_of
             (restore_apply Strategy.merge (Some remoteData)
                            remoteTimestamp a))) in
  keyed M = union_by_id L R
  ∧ NoDup (tx_id <$> M)
  ∧ (∀ t, t ∈ M ↔ union_by_id L R !! tx_id t = Some t)
  ∧ (Forall dated M → StronglySorted newest_first M).
Proof.
  intros L R M.
  assert (HM : M = merge_transactions R L).
  { unfold M, restore_apply. destruct (truthy remoteTimestamp); reflexivity. }
  destruct (merge_transactions_spec R L) as (Hk & Hnd & Hs).
  rewrite <- HM in Hk, Hnd, Hs.
  split; [exact Hk|]. split; [exact Hnd|]. split; [|exact Hs].
  intros t. rewrite <- Hk. unfold keyed.
  rewrite <- elem_of_list_to_map.
  - rewrite list_elem_of_fmap. split.
    + intros Ht. exists t. auto.
    + intros (t' & [= _ ->] & Ht'). exact Ht'.
  - rewrite <- list_fmap_compose. exact Hnd.
Qed.

Lemma merge_restore_unions_by_id_witness :
  let M := transactions (snap (state_of
             (restore_apply (H := iso_host) Strategy.merge
                (Some (txs_payload [t2'; t3])) None (holding [t1; t2])))) in
  M = [t2'; t3; t1]
  ∧ Forall (dated (H := iso_host)) M
  ∧ StronglySorted (newest_first (H := iso_host)) M.
Proof.
  cbv zeta.
  destruct (merge_restore_unions_by_id (H := iso_host)
              (txs_payload [t2'; t3]) None (holding [t1; t2]))
    as (_ & _ & _ & Hs).
  assert (Hd : Forall (dated (H := iso_host))
                 (transactions (snap (state_of
                    (restore_apply (H := iso_host) Strategy.merge
                       (Some (txs_payload [t2'; t3])) None
                       (holding [t1; t2])))))).
  { repeat (apply Forall_cons; split; [reflexivity|]). apply Forall_nil.
    exact I. }
  split; [vm_compute; reflexivity|]. split; [exact Hd|]. exact (Hs Hd).
Defined.

(** The remote backup holds [t1], of January 5; the device holds a
    transaction without a date and [t3], of January 6. Every comparison
    with the undated one is [NaN], the sort moves nothing, and the merged
    list has [t1] before the later [t3]. *)
Lemma merge_restore_not_sorted :
  let M := transactions (snap (state_of
             (restore_apply (H := iso_host) Strategy.merge
                (Some (txs_payload [t1])) None (holding [undated; t3])))) in
  M = [t1; undated; t3]
  ∧ ¬ StronglySorted (newest_first (H := iso_host)) M.
Proof.
  cbv zeta.
  assert (HM : transactions (snap (state_of
             (restore_apply (H := iso_host) Strategy.merge
                (Some (txs_payload [t1])) None (holding [undated; t3]))))
               = [t1; undated; t3]) by (vm_compute; reflexivity).
  rewrite HM. split; [reflexivity|].
  intros Hs. apply StronglySorted_inv in Hs as [_ Hall].
  apply Forall_cons in Hall as [_ Hall].
  apply Forall_cons in Hall as [Hlate _].
  vm_compute in Hlate. apply Hlate. reflexivity.
Qed.

(** *** Reasoning about runs *)

Lemma reachable_ind `{Host} (P : World → Prop) :
  (∀ st online, P (boot st online)) →
  (∀ e w w', P w → step e w = Some w' → P w') →
  ∀ w, reachable w → P w.
Proof.
  intros Hboot Hstep w (st & online & es & Hrun).
  assert (G : ∀ es w0, P w0 → run es w0 = Some w → P w).
  { clear es Hrun. induction es as [|e es IH]; intros w0 Hw0 Hrun;
      simpl in Hrun.
    - injection Hrun as <-. exact Hw0.
    - destruct (step e w0) as [w1|] eqn:E; [|discriminate].
      eapply IH; [|exact Hrun]. eapply Hstep; eauto. }
  eapply G; [apply Hboot | exact Hrun].
Qed.

Lemma reachable_step `{Host} e w w' :
  reachable w → step e w = Some w' → reachable w'.
Proof.
  intros (st & online & es & Hrun) Hstep.
  exists st, online, (es ++ [e]).
  revert Hrun. generalize (boot st online).
  induction es as [|e0 es IH]; intros w0 Hrun; simpl in *.
  - injection Hrun as ->. rewrite Hstep. reflexivity.
  - destruct (step e0 w0); [auto | discriminate].
Qed.

Lemma persist_idem a : persist (persist a) = persist a.
Proof. reflexivity. Qed.

Lemma reachable_persisted `{Host} w :
  reachable w → persist (provider w) = provider w.
Proof.
  revert w.
  apply (reachable_ind (λ w, persist (provider w) = provider w)).
  - reflexivity.
  - intros e w0 w' _ Hstep. destruct e as [c|i resp now|r now];
      simpl in Hstep.
    + injection Hstep as <-. destruct (invoke c (provider w0)); reflexivity.
    + destruct (pending w0 !! i); [|discriminate].
      destruct (resume _ _ _ _) as [r|]; [|discriminate].
      injection Hstep as <-. destruct r; reflexivity.
    + destruct (bool_decide _); [|discriminate].
      injection Hstep as <-.
      destruct (checkAutoBackup r now (provider w0)); reflexivity.
Qed.

(** *** Single-flight push *)

Lemma invoke_ref_count `{Host} c a :
  ref_count (state_of (invoke c a))
  = (ref_count a + if starts_push (invoke c a) then 1 else 0)%nat.
Proof.
  unfold ref_count.
  destruct c; run_op; congruence.
Qed.

Lemma tick_ref_count `{Host} r now a :
  ref_count (state_of (checkAutoBackup r now a))
  = (ref_count a + if starts_push (checkAutoBackup r now a) then 1 else 0)%nat.
Proof.
  unfold ref_count. run_op; congruence.
Qed.

(** The timer either does nothing or starts a push: it leaves the
    Snapshot, the store, the wallets, the session counter, the logout
    guard, the dirty flag, the last sync and the active wallet alone. *)
Lemma tick_frame `{Host} r now a :
  let a' := state_of (checkAutoBackup r now a) in
  snap a' = snap a ∧ storage a' = storage a ∧ wallets a' = wallets a
  ∧ sessionVersion a' = sessionVersion a
  ∧ isLoggingOutRef a' = isLoggingOutRef a
  ∧ unsyncedChanges (syncState a') = unsyncedChanges (syncState a)
  ∧ lastSync (syncState a') = lastSync (syncState a)
  ∧ activeWalletId (syncState a') = activeWalletId (syncState a)
  ∧ ∀ t a'', checkAutoBackup r now a = Await t a'' → is_push_task t = true.
Proof.
  cbv zeta.
  assert (Hpush : ∀ x,
            x = Done RetVoid a ∨ x = backupUserData_in r None a →
            isBackingUpRef a = false ∨ x = Done RetVoid a →
            snap (state_of x) = snap a ∧ storage (state_of x) = storage a
            ∧ wallets (state_of x) = wallets a
            ∧ sessionVersion (state_of x) = sessionVersion a
            ∧ isLoggingOutRef (state_of x) = isLoggingOutRef a
            ∧ unsyncedChanges (syncState (state_of x))
              = unsyncedChanges (syncState a)
            ∧ lastSync (syncState (state_of x)) = lastSync (syncState a)
            ∧ activeWalletId (syncState (state_of x))
              = activeWalletId (syncState a)
            ∧ ∀ t a'', x = Await t a'' → is_push_task t = true).
  { intros x [->| ->].
    - simpl. repeat split. discriminate.
    - unfold backupUserData_in.
      destruct (isBackingUpRef a);
        [|destruct (user (syncState r)) as [u|];
           [destruct (activeWalletId (syncState r)) as [wid|];
              [destruct (truthy (Some wid))|]|]];
        simpl; repeat split;
        try discriminate; try (intros ? ? [= <- _]; reflexivity). }
  apply Hpush; unfold checkAutoBackup;
    repeat (match goal with
            | |- context [if ?b then _ else _] => destruct b eqn:?
            end; auto).
Qed.

Lemma resume_ref_count `{Host} t resp now a r :
  resume t resp now a = Some r →
  starts_push r = false
  ∧ isBackingUpRef (state_of r)
    = if is_push_task t then false else isBackingUpRef a.
Proof.
  intros Hr. destruct t; run_op; auto.
Qed.

Lemma count_snoc {A} (f : A → bool) l x :
  length (List.filter f (l ++ [x]))
  = (length (List.filter f l) + if f x then 1 else 0)%nat.
Proof.
  rewrite List.filter_app, length_app. simpl. destruct (f x); reflexivity.
Qed.

Lemma count_delete {A} (f : A → bool) (l : list A) i x :
  l !! i = Some x →
  (length (List.filter f (delete i l)) + if f x then 1 else 0)%nat
  = length (List.filter f l).
Proof.
  revert i. induction l as [|y l IH]; intros [|i] Hi; simpl in *;
    try discriminate.
  - injection Hi as ->. destruct (f x); simpl; lia.
  - specialize (IH i Hi). destruct (f y); simpl; lia.
Qed.

Lemma commit_in_flight r tasks :
  pushes_in_flight (commit r tasks)
  = (length (List.filter is_push_task tasks)
     + if starts_push r then 1 else 0)%nat.
Proof.
  unfold pushes_in_flight. destruct r as [o a|t a]; simpl.
  - lia.
  - apply count_snoc.
Qed.

Lemma commit_provider r tasks : provider (commit r tasks) = persist (state_of r).
Proof. destruct r; reflexivity. Qed.

(** In every reachable world the guard flag counts the pushes in flight. *)
Lemma in_flight_is_guard `{Host} w :
  reachable w → pushes_in_flight w = ref_count (provider w).
Proof.
  revert w.
  apply (reachable_ind (λ w, pushes_in_flight w = ref_count (provider w))).
  - reflexivity.
  - intros e w w' IH Hstep. destruct e as [c|i resp now|r now];
      simpl in Hstep.
    + injection Hstep as <-.
      rewrite commit_in_flight, commit_provider.
      change (ref_count (persist ?a)) with (ref_count a).
      rewrite invoke_ref_count. unfold pushes_in_flight in IH. lia.
    + destruct (pending w !! i) as [t|] eqn:Ei; [|discriminate].
      destruct (resume t resp now (provider w)) as [r|] eqn:Er; [|discriminate].
      injection Hstep as <-.
      rewrite commit_in_flight, commit_provider.
      change (ref_count (persist ?a)) with (ref_count a).
      destruct (resume_ref_count _ _ _ _ _ Er) as [-> Href].
      pose proof (count_delete is_push_task _ _ _ Ei) as Hc.
      unfold pushes_in_flight in IH. unfold ref_count in *.
      rewrite Href. destruct (is_push_task t), (isBackingUpRef (provider w)); lia.
    + destruct (bool_decide _); [|discriminate].
      injection Hstep as <-.
      rewrite commit_in_flight, commit_provider.
      change (ref_count (persist ?a)) with (ref_count a).
      rewrite tick_ref_count. unfold pushes_in_flight in IH. lia.
Qed.

Lemma pushes_made_persist a : pushes_made (persist a) = pushes_made a.
Proof. reflexivity. Qed.

(** C4. In every world a run can reach at most one push is in flight.
    While one is, a further [backupUserData] returns [{ skipped: true }],
    not an error, and leaves the provider as it was: no gateway call, no
    change of the sync state, nothing left pending. And when none is in
    flight and a user is signed in, two calls back to back start exactly
    one push: the first suspends on the gateway with one backup-write
    call made, the second is skipped. *)
Theorem push_single_flight `{Host} (w : World) :
  reachable w →
  (pushes_in_flight w ≤ 1)%nat
  ∧ (pushes_in_flight w = 1%nat → ∀ custom,
       invoke (Api.BackupUserData custom) (provider w)
       = Done skipped_push (provider w)
       ∧ step (Invoke (Api.BackupUserData custom)) w = Some w)
  ∧ (pushes_in_flight w = 0%nat →
     is_Some (user (syncState (provider w))) →
     ∀ custom custom', ∃ w1,
       step (Invoke (Api.BackupUserData custom)) w = Some w1
       ∧ pushes_in_flight w1 = 1%nat
       ∧ pushes_made (provider w1) = S (pushes_made (provider w))
       ∧ step (Invoke (Api.BackupUserData custom')) w1 = Some w1).
Proof.
  intros Hw. pose proof (in_flight_is_guard w Hw) as Hg.
  assert (Hskip : ∀ w0, reachable w0 → pushes_in_flight w0 = 1%nat →
            ∀ custom,
              invoke (Api.BackupUserData custom) (provider w0)
              = Done skipped_push (provider w0)
              ∧ step (Invoke (Api.BackupUserData custom)) w0 = Some w0).
  { intros w0 Hw0 H1 custom.
    pose proof (in_flight_is_guard w0 Hw0) as Hg0.
    unfold ref_count in Hg0.
    assert (Hinv : invoke (Api.BackupUserData custom) (provider w0)
                   = Done skipped_push (provider w0)).
    { simpl. unfold backupUserData, backupUserData_in.
      destruct (isBackingUpRef (provider w0)); [reflexivity | lia]. }
    split; [exact Hinv|].
    unfold step. rewrite Hinv. simpl.
    rewrite (reachable_persisted w0 Hw0). destruct w0; reflexivity. }
  split; [|split].
  - rewrite Hg. unfold ref_count. destruct (isBackingUpRef _); lia.
  - apply Hskip, Hw.
  - intros H0 [u Hu] custom custom'.
    destruct (step (Invoke (Api.BackupUserData custom)) w) as [w1|] eqn:E1;
      [|discriminate].
    exists w1. split; [reflexivity|].
    assert (Hw1 : reachable w1) by (eapply reachable_step; eauto).
    assert (H1 : pushes_in_flight w1 = 1%nat
                 ∧ pushes_made (provider w1) = S (pushes_made (provider w))).
    { unfold ref_count in Hg. simpl in E1. injection E1 as <-.
      unfold pushes_in_flight in *. unfold backupUserData, backupUserData_in.
      destruct (isBackingUpRef (provider w)); [lia|].
      rewrite Hu. unfold pushes_made.
      destruct (activeWalletId (syncState (provider w))) as [wid|];
        [destruct (truthy (Some wid))|]; simpl;
        rewrite ?List.filter_app, ?length_app; simpl; split; lia. }
    destruct H1 as [H1 Hm]. split; [exact H1|]. split; [exact Hm|].
    apply (Hskip w1 Hw1 H1 custom').
Qed.

Lemma push_single_flight_witness :
  reachable (H := iso_host) pushing_world
  ∧ pushes_in_flight pushing_world = 1%nat
  ∧ step (H := iso_host) (Invoke (Api.BackupUserData None)) pushing_world
    = Some pushing_world.
Proof.
  assert (Hr : reachable (H := iso_host) pushing_world).
  { exists empty_store, true,
      [Invoke (Api.AuthStateChange (Some alice) false);
       Invoke (Api.UpdateBudget 500);
       Invoke (Api.BackupUserData None)].
    vm_compute. reflexivity. }
  split; [exact Hr|]. split; [vm_compute; reflexivity|].
  apply (push_single_flight (H := iso_host) pushing_world Hr).
  vm_compute. reflexivity.
Defined.

(** *** Failed push *)

(** C6. When the gateway rejects a push, the [backupUserData] that
    awaited it throws the same error to its caller; [unsyncedChanges] and
    [lastSync] are what they were, so a flag that was set stays set; the
    guard is released; and the auto-backup timer, firing later for a
    signed-in user who is online, sees the pending changes and starts a
    push again, whichever render armed it. *)
Theorem push_failure_keeps_dirty `{Host} (t : Task) (err : string)
  (now : Clock) (a : App) :
  is_push_task t = true →
  ∃ a',
    resume t (Rejected err) now a = Some (Done (Threw err) a')
    ∧ unsyncedChanges (syncState a') = unsyncedChanges (syncState a)
    ∧ lastSync (syncState a') = lastSync (syncState a)
    ∧ snap a' = snap a
    ∧ isBackingUpRef a' = false
    ∧ (unsyncedChanges (syncState a) = true →
       isLoggedIn (syncState a) = true →
       isOnline (syncState a) = true →
       isLoggingOutRef a = false →
       ∀ r now', timer_deps r = timer_deps a' →
                 is_Some (user (syncState r)) →
                 starts_push (checkAutoBackup r now' a') = true).
Proof.
  intros Ht. exists (backup_finally a).
  split; [destruct t; try discriminate; reflexivity|].
  do 4 (split; [reflexivity|]).
  intros Hdirty Hin Hon Hout r now' Hdeps [u Hu].
  unfold timer_deps in Hdeps. simpl in Hdeps.
  injection Hdeps as Hrin Hron _ Hrdirty _ _.
  unfold checkAutoBackup, backupUserData_in. simpl.
  rewrite Hrin, Hin, Hu, Hron, Hon, Hout, Hrdirty, Hdirty. simpl.
  destruct (activeWalletId (syncState r)) as [wid|];
    [destruct (truthy (Some wid))|]; reflexivity.
Qed.

Lemma push_failure_keeps_dirty_witness :
  is_push_task AwaitBackupUserData = true
  ∧ ∃ a',
      resume (H := iso_host) AwaitBackupUserData (Rejected "Failed to fetch")
             (instant "2024-01-01T00:00:00.000Z") (provider pushing_world)
      = Some (Done (Threw "Failed to fetch") a')
      ∧ unsyncedChanges (syncState a') = true
      ∧ starts_push
          (checkAutoBackup (H := iso_host) (provider pushing_world)
             "2024-01-01T00:05:00.000Z" a') = true.
Proof.
  split; [reflexivity|].
  destruct (push_failure_keeps_dirty (H := iso_host) AwaitBackupUserData
              "Failed to fetch" (instant "2024-01-01T00:00:00.000Z")
              (provider pushing_world) eq_refl)
    as (a' & Hres & Hflag & _ & _ & _ & Htimer).
  exists a'. split; [exact Hres|].
  split; [rewrite Hflag; vm_compute; reflexivity|].
  vm_compute in Hres.
  injection Hres as Ha'.
  assert (H5 : timer_deps (provider pushing_world) = timer_deps a')
    by (rewrite <- Ha'; vm_compute; reflexivity).
  assert (H1 : unsyncedChanges (syncState (provider pushing_world)) = true)
    by (vm_compute; reflexivity).
  assert (H2 : isLoggedIn (syncState (provider pushing_world)) = true)
    by (vm_compute; reflexivity).
  assert (H3 : isOnline (syncState (provider pushing_world)) = true)
    by (vm_compute; reflexivity).
  assert (H4 : isLoggingOutRef (provider pushing_world) = false)
    by (vm_compute; reflexivity).
  assert (H6 : is_Some (user (syncState (provider pushing_world))))
    by (vm_compute; eexists; reflexivity).
  exact (Htimer H1 H2 H3 H4 (provider pushing_world) _ H5 H6).
Defined.

(** *** Login reconciliation *)

Lemma truthy_Some s : s ≠ "" → truthy (Some s) = true.
Proof.
  intros Hs. simpl. destruct (String.eqb_spec s ""); [contradiction|reflexivity].
Qed.

(** C5. With no active wallet recorded in the store the auth handler
    asks the gateway for the user's backup. When the answer, a backup with
    data stamped [cloudTimestamp], reaches the session that asked, the
    Snapshot is left alone, [lastSync] takes the cloud timestamp, and
    [pendingRestoreAvailable] is set exactly when the stored last sync is
    absent or the cloud timestamp is more than 1000 ms past it. So a cloud
    timestamp 500 ms past the last sync does not raise the flag and is
    adopted as the new last sync, and one 1500 ms past it raises the
    flag. *)
Theorem login_staleness_window `{Host} (currentVersion : nat)
  (data : Payload) (cloudTimestamp : option string) (a : App) :
  currentVersion = sessionVersion a →
  let localLastSync := k_last_sync (storage a) in
  let result :=
    Some {| be_data := Some data; be_timestamp := cloudTimestamp |} in
  (∀ u, truthy (k_active_wallet_id (storage a)) = false →
        auth_reconcile currentVersion u a
        = Await (AwaitAuthBackup currentVersion)
                (call (RestoreBackup (au_id u)) a))
  ∧ ∃ a',
      authBackup_resume currentVersion (Resolved (Backup result)) a
      = Some (Done RetVoid a')
      ∧ snap a' = snap a
      ∧ lastSync (syncState a') = or_null cloudTimestamp
      ∧ (pendingRestoreAvailable (syncState a') = true
         ↔ truthy localLastSync = false
           ∨ (truthy cloudTimestamp = true
              ∧ getTime (default "" localLastSync) + 1000
                < getTime (default "" cloudTimestamp)))
      ∧ (∀ T c, localLastSync = Some T → cloudTimestamp = Some c →
           T ≠ "" → c ≠ "" →
           (getTime c = getTime T + 500 →
              pendingRestoreAvailable (syncState a') = false
              ∧ lastSync (syncState a') = Some c)
           ∧ (getTime c = getTime T + 1500 →
              pendingRestoreAvailable (syncState a') = true)).
Proof.
  intros Hv localLastSync result. split.
  { intros u Hw. unfold auth_reconcile. rewrite Hw. reflexivity. }
  assert (Hpend : ∀ b : bool, ∃ a',
    (if b
     then Some (Done RetVoid (setSyncState (λ prev,
            set_pendingRestoreAvailable true
              (set_lastSync (or_null cloudTimestamp) prev)) a))
     else Some (Done RetVoid (setSyncState (λ prev,
            set_pendingRestoreAvailable false
              (set_lastSync (or_null cloudTimestamp) prev)) a)))
    = Some (Done RetVoid a')
    ∧ snap a' = snap a
    ∧ lastSync (syncState a') = or_null cloudTimestamp
    ∧ pendingRestoreAvailable (syncState a') = b).
  { intros [|]; eexists; (split; [reflexivity|]); auto. }
  destruct (Hpend (isNewer localLastSync cloudTimestamp))
    as (a' & Hres & Hsnap & Hls & Hp).
  exists a'. split.
  { unfold authBackup_resume. rewrite Hv, Nat.eqb_refl. simpl. exact Hres. }
  split; [exact Hsnap|]. split; [exact Hls|].
  assert (Hiff : isNewer localLastSync cloudTimestamp = true
                 ↔ truthy localLastSync = false
                   ∨ (truthy cloudTimestamp = true
                      ∧ getTime (default "" localLastSync) + 1000
                        < getTime (default "" cloudTimestamp))).
  { unfold isNewer.
    rewrite orb_true_iff, negb_true_iff, andb_true_iff, Z.ltb_lt.
    reflexivity. }
  split; [rewrite Hp; exact Hiff|].
  intros T c HT Hc HTne Hcne. rewrite Hp, Hls, Hc.
  rewrite HT, Hc in Hiff. rewrite HT. simpl default in Hiff.
  rewrite (truthy_Some T HTne), (truthy_Some c Hcne) in Hiff.
  split.
  - intros Hd. split.
    + destruct (isNewer (Some T) (Some c)); [|reflexivity].
      destruct Hiff as [[?|[_ ?]] _]; [reflexivity | discriminate | lia].
    + unfold or_null. rewrite (truthy_Some c Hcne). reflexivity.
  - intros Hd. apply Hiff. right. split; [reflexivity|lia].
Qed.

Lemma login_staleness_window_witness :
  ∃ a',
    authBackup_resume (H := iso_host) 2
      (Resolved (Backup (Some {| be_data := Some (payload_of (snap (provider synced_world)));
                                 be_timestamp := Some "2024-01-01T00:00:00.500Z" |})))
      (provider synced_world)
    = Some (Done RetVoid a')
    ∧ pendingRestoreAvailable (syncState a') = false
    ∧ lastSync (syncState a') = Some "2024-01-01T00:00:00.500Z".
Proof.
  destruct (login_staleness_window (H := iso_host) 2
              (payload_of (snap (provider synced_world)))
              (Some "2024-01-01T00:00:00.500Z") (provider synced_world)
              eq_refl)
    as (_ & a' & Hres & _ & _ & _ & Hwin).
  exists a'. split; [exact Hres|].
  apply (Hwin "2024-01-01T00:00:00.000Z" "2024-01-01T00:00:00.500Z");
    [reflexivity | reflexivity | discriminate | discriminate | reflexivity].
Defined.

(** *** Context keys *)

Lemma length_append (x y : string) :
  String.length (x +:+ y) = (String.length x + String.length y)%nat.
Proof. induction x as [|c x IH]; simpl; [reflexivity | rewrite IH; reflexivity]. Qed.

Lemma append_inj_r (s x y : string) : x +:+ s = y +:+ s → x = y.
Proof.
  revert y. induction x as [|c x IH]; intros [|d y] Heq.
  - reflexivity.
  - apply (f_equal String.length) in Heq.
    rewrite !length_append in Heq. simpl in Heq. lia.
  - apply (f_equal String.length) in Heq.
    rewrite !length_append in Heq. simpl in Heq. lia.
  - simpl in Heq. injection Heq as -> Heq. f_equal. apply IH, Heq.
Qed.

Lemma context_key_truthy w :
  truthy (Some w) = true → context_key (Some w) = "sb_wallet_" +:+ w +:+ "_data".
Proof. intros Hw. unfold context_key. rewrite Hw. reflexivity. Qed.

Lemma context_key_falsy o : truthy o = false → context_key o = "sb_personal_data".
Proof. intros Ho. destruct o; unfold context_key; [rewrite Ho|]; reflexivity. Qed.

(** A wallet's key is the key of no other context. *)
Lemma context_key_wallet_inj o w :
  truthy (Some w) = true → context_key o = context_key (Some w) → o = Some w.
Proof.
  intros Hw. rewrite (context_key_truthy w Hw).
  destruct (truthy o) eqn:Ho.
  - destruct o as [w'|]; [|discriminate].
    rewrite (context_key_truthy w' Ho). simpl. intros Heq.
    injection Heq as Heq. change ("" +:+ ?x) with x in Heq.
    apply append_inj_r in Heq. congruence.
  - rewrite (context_key_falsy o Ho). simpl. discriminate.
Qed.

(** *** Switching to a wallet without a stored snapshot *)

(** C7, as the code has it. When [switchWallet] targets a wallet other
    than the active one and the store holds no snapshot under its key, the
    live Snapshot becomes: no transactions, a zero budget, no per-category
    budgets, the default settings, and for accounts and categories the
    sets [INITIAL_ACCOUNTS] and [INITIAL_CATEGORIES], the same a personal
    context starts from on an empty store. *)
Theorem absent_wallet_gets_initial_sets `{Host} (w : string) (a : App) :
  truthy (Some w) = true →
  activeWalletId (syncState a) ≠ Some w →
  k_contexts (storage a) !! context_key (Some w) = None →
  let s := snap (state_of (switchWallet (Some w) a)) in
  s = {| transactions := []; accounts := INITIAL_ACCOUNTS;
         categories := INITIAL_CATEGORIES; budget := 0;
         categoryBudgets := []; settings := DEFAULT_SETTINGS |}
  ∧ ∀ online,
      accounts s = accounts (snap (mount empty_store online))
      ∧ categories s = categories (snap (mount empty_store online)).
Proof.
  intros Hw Hact Habs s.
  assert (Hs : s = {| transactions := []; accounts := INITIAL_ACCOUNTS;
                      categories := INITIAL_CATEGORIES; budget := 0;
                      categoryBudgets := []; settings := DEFAULT_SETTINGS |}).
  { unfold s, switchWallet, switchWallet_in.
    assert (Hb : snap (switchWallet_begin a (Some w) a)
                 = {| transactions := []; accounts := INITIAL_ACCOUNTS;
                      categories := INITIAL_CATEGORIES; budget := 0;
                      categoryBudgets := []; settings := DEFAULT_SETTINGS |}).
    { unfold switchWallet_begin, loadContextFromStorage,
        saveCurrentContextToStorage. simpl k_contexts.
      rewrite lookup_insert_ne, Habs, Hw; [reflexivity|].
      intros Heq. apply Hact. eapply context_key_wallet_inj; eauto. }
    destruct (truthy (Some w) && isOnline (syncState a))%bool; exact Hb. }
  split; [exact Hs|]. intros online. rewrite Hs. split; reflexivity.
Qed.

Lemma absent_wallet_gets_initial_sets_witness :
  accounts w1_snapshot = [cash; bank]
  ∧ categories w1_snapshot = [food]
  ∧ transactions w1_snapshot = [].
Proof.
  destruct (absent_wallet_gets_initial_sets (H := iso_host) "w1" offline_app)
    as [Hs _]; [reflexivity | discriminate | reflexivity |].
  unfold w1_snapshot. rewrite Hs. repeat split.
Defined.

(** C7, as stated, fails: on the concrete host a wallet with no stored
    snapshot starts with the two initial accounts and the initial
    category, which are the personal initial sets and not empty. *)
Lemma absent_wallet_not_empty :
  k_contexts (storage offline_app) !! context_key (Some "w1") = None
  ∧ accounts w1_snapshot = accounts (snap offline_app)
  ∧ categories w1_snapshot = categories (snap offline_app)
  ∧ accounts w1_snapshot ≠ []
  ∧ categories w1_snapshot ≠ [].
Proof. vm_compute. repeat split; discriminate. Qed.

(** *** Merge restore: settings and budgets *)

Lemma lookup_spread (a b : JsObject) k :
  spread a b !! k = match b !! k with Some v => Some v | None => a !! k end.
Proof.
  unfold spread. rewrite lookup_union.
  destruct (b !! k), (a !! k); reflexivity.
Qed.

(** C8, as the code has it. Under ['merge'] only the settings are
    merged: with a settings object in the remote payload the live
    settings become the local ones with the remote ones spread over them,
    so each remote key overrides and each local key the remote object
    lacks is kept. The overall budget takes the remote payload's value,
    and the per-category budgets become the remote payload's list as a
    whole. *)
Theorem merge_restore_settings_and_budgets `{Host} (remoteData : Payload)
  (remoteTimestamp : option string) (a : App) :
  let a' := state_of (restore_apply Strategy.merge (Some remoteData)
                                    remoteTimestamp a) in
  (∀ cloudSettings, p_settings remoteData = Some cloudSettings →
     settings (snap a') = spread (settings (snap a)) cloudSettings
     ∧ ∀ k, settings (snap a') !! k
            = match cloudSettings !! k with
              | Some v => Some v
              | None => settings (snap a) !! k
              end)
  ∧ (∀ cloudBudget, p_budget remoteData = Some cloudBudget →
       budget (snap a') = cloudBudget)
  ∧ (∀ cloudCatBudgets, p_category_budgets remoteData = Some cloudCatBudgets →
       categoryBudgets (snap a') = cloudCatBudgets).
Proof.
  intros a'.
  assert (Ha : snap a'
    = {| transactions :=
           merge_transactions (default [] (p_transactions remoteData))
                              (transactions (snap a));
         accounts := default INITIAL_ACCOUNTS (p_accounts remoteData);
         categories := default INITIAL_CATEGORIES (p_categories remoteData);
         budget := default 0 (p_budget remoteData);
         categoryBudgets := default [] (p_category_budgets remoteData);
         settings :=
           spread (settings (snap a))
                  (default DEFAULT_SETTINGS (p_settings remoteData)) |}).
  { unfold a', restore_apply. destruct (truthy remoteTimestamp); reflexivity. }
  rewrite Ha. simpl. split; [|split].
  - intros cloudSettings ->. split; [reflexivity|].
    intros k. apply lookup_spread.
  - intros cloudBudget ->. reflexivity.
  - intros cloudCatBudgets ->. reflexivity.
Qed.

Lemma merge_restore_settings_and_budgets_witness :
  settings (snap (merged_app full_payload)) !! "language" = Some (VStr "fr")
  ∧ settings (snap (merged_app full_payload)) !! "currency" = Some (VStr "$")
  ∧ budget (snap (merged_app full_payload)) = 300
  ∧ categoryBudgets (snap (merged_app full_payload))
    = [{| cb_categoryId := "cat_rent"; cb_amount := 50 |}].
Proof.
  destruct (merge_restore_settings_and_budgets (H := iso_host) full_payload
              (Some "2024-01-02T00:00:00.000Z") (provider budgeted_world))
    as (Hs & Hb & Hc).
  destruct (Hs {[ "language" := VStr "fr" ]} eq_refl) as [_ Hk].
  split; [|split; [|split]].
  - unfold merged_app. rewrite Hk. reflexivity.
  - unfold merged_app. rewrite Hk. reflexivity.
  - apply Hb. reflexivity.
  - apply Hc. reflexivity.
Defined.

(** C8, as stated, fails: the local budget entry for food has no remote
    counterpart and the local budget of 500 has no remote value, yet after
    the merge the entry is gone and the budget is 0. *)
Lemma merge_restore_drops_local_budgets :
  pending budgeted_world = [AwaitRestoreBackup Strategy.merge]
  ∧ budget (snap (provider budgeted_world)) = 500
  ∧ categoryBudgets (snap (provider budgeted_world))
    = [{| cb_categoryId := "cat_food"; cb_amount := 100 |}]
  ∧ p_budget rent_payload = None
  ∧ pending (merged_world rent_payload) = []
  ∧ budget (snap (provider (merged_world rent_payload))) = 0
  ∧ categoryBudgets (snap (provider (merged_world rent_payload)))
    = [{| cb_categoryId := "cat_rent"; cb_amount := 50 |}]
  ∧ ¬ In {| cb_categoryId := "cat_food"; cb_amount := 100 |}
         (categoryBudgets (snap (provider (merged_world rent_payload)))).
Proof.
  vm_compute. repeat split. intros [Hin|[]]. discriminate Hin.
Qed.

(** *** Context switch round trip *)

Lemma mutate_frame m a :
  storage (mutate m a) = storage a
  ∧ activeWalletId (syncState (mutate m a)) = activeWalletId (syncState a)
  ∧ isOnline (syncState (mutate m a)) = isOnline (syncState a).
Proof. destruct m; run_op; auto. Qed.

Lemma mutate_all_frame ms a :
  storage (mutate_all ms a) = storage a
  ∧ activeWalletId (syncState (mutate_all ms a)) = activeWalletId (syncState a)
  ∧ isOnline (syncState (mutate_all ms a)) = isOnline (syncState a).
Proof.
  revert a. induction ms as [|m ms IH]; intros a; [auto|].
  change (mutate_all (m :: ms) a) with (mutate_all ms (mutate m a)).
  destruct (IH (mutate m a)) as (-> & -> & ->). apply mutate_frame.
Qed.

Lemma switchWallet_state `{Host} walletId a :
  storage (state_of (switchWallet walletId a))
  = set_context (context_key (activeWalletId (syncState a)))
                (payload_of (snap a)) (storage a)
  ∧ activeWalletId (syncState (state_of (switchWallet walletId a))) = walletId
  ∧ isOnline (syncState (state_of (switchWallet walletId a)))
    = isOnline (syncState a).
Proof. run_op; auto. Qed.

Lemma spread_covered (a b : JsObject) : dom a ⊆ dom b → spread a b = b.
Proof.
  intros Hdom. apply map_eq. intros k. rewrite lookup_spread.
  destruct (b !! k) eqn:Eb; [reflexivity|].
  apply not_elem_of_dom. apply not_elem_of_dom in Eb. set_solver.
Qed.

Lemma run_app `{Host} es1 es2 w :
  run (es1 ++ es2) w
  = match run es1 w with
    | Some w' => run es2 w'
    | None => None
    end.
Proof.
  revert w. induction es1 as [|e es1 IH]; intros w; simpl; [reflexivity|].
  destruct (step e w); [apply IH | reflexivity].
Qed.

Lemma away_persist A SA B online a :
  away A SA B online a → away A SA B online (persist a).
Proof. intros H0. exact H0. Qed.

Lemma away_commit A SA B online r tasks :
  away A SA B online (state_of r) →
  away A SA B online (provider (commit r tasks)).
Proof. rewrite commit_provider. apply away_persist. Qed.

Lemma away_mutations `{Host} A SA B online ms :
  ∀ w w', away A SA B online (provider w) →
    run (List.map (λ m, Invoke (call_of m)) ms) w = Some w' →
    away A SA B online (provider w') ∧ pending w' = pending w.
Proof.
  induction ms as [|m ms IH]; intros w w' Hw Hrun.
  - injection Hrun as <-. auto.
  - cbn [List.map run] in Hrun. rewrite step_mutation in Hrun.
    apply (IH _ w') in Hrun as [Ha Hp]; [auto|].
    destruct Hw as (Hk & Hact & Hon).
    destruct (mutate_frame m (provider w)) as (Hst & Hact' & Hon').
    split; [|split]; simpl; [rewrite Hst; exact Hk | congruence | congruence].
Qed.

(** The first switch of the round trip, and the gateway's answer to its
    fetch if one was made and has come. *)
Lemma away_after_switch `{Host} (w w2 : World) (B : option string)
  (answer : list Event) :
  context_key B ≠ context_key (activeWalletId (syncState (provider w))) →
  answer = []
  ∨ (∃ resp now, answer = [Settle (length (pending w)) resp now]) →
  run (Invoke (Api.SwitchWallet B) :: answer) w = Some w2 →
  away (activeWalletId (syncState (provider w))) (snap (provider w)) B
       (isOnline (syncState (provider w))) (provider w2).
Proof.
  intros Hkey Hans Hrun. cbn [run step] in Hrun.
  destruct (switchWallet_state B (provider w)) as (Hst & Hact & Hon).
  assert (H1 : away (activeWalletId (syncState (provider w)))
                 (snap (provider w)) B (isOnline (syncState (provider w)))
                 (state_of (invoke (Api.SwitchWallet B) (provider w)))).
  { simpl. split; [|split; assumption].
    rewrite Hst. simpl. apply lookup_insert_eq. }
  destruct Hans as [-> | (resp & now & ->)].
  - simpl in Hrun. injection Hrun as <-. apply away_commit, H1.
  - cbn [run step] in Hrun.
    destruct (pending (commit (invoke (Api.SwitchWallet B) (provider w))
                              (pending w)) !! length (pending w))
      as [t|] eqn:Et; [|discriminate].
    destruct (resume t resp now _) as [r|] eqn:Er; [|discriminate].
    injection Hrun as <-. apply away_commit.
    rewrite commit_provider in Er.
    apply away_persist in H1.
    revert Et Er H1. simpl invoke.
    unfold switchWallet, switchWallet_in.
    destruct B as [wid|];
      [destruct (truthy (Some wid) && isOnline (syncState (provider w)))%bool|];
      simpl; intros Et Er H1;
      try (rewrite lookup_ge_None_2 in Et by lia; discriminate).
    rewrite lookup_app_r, Nat.sub_diag in Et by lia.
    injection Et as <-. simpl in Er. unfold switchWallet_resume in Er.
    destruct resp as [[| [rd|] | | | |]|err]; try discriminate;
      injection Er as <-; exact H1.
Qed.

(** C9, as the code has it. Leave context [A] holding Snapshot [SA] for
    a different context [B]; let the gateway answer the fetch of [B]'s
    data, if the switch made one and whatever the answer is, or let it
    still be pending; edit in [B]; and switch back, with [A] personal or
    the device offline so that the switch back fetches nothing. The
    first switch stores [SA] under [A]'s key before anything else, and it
    is still there at the switch back; the switch back returns at once
    and restores the transactions, accounts, categories, budget and
    per-category budgets of [SA] exactly. The settings come back as the
    settings of [SA] spread over those live in [B] at the switch back:
    they are those of [SA], and the whole Snapshot is [SA], when every
    settings key live in [B] is also a key of [SA]'s settings. *)
Theorem switch_roundtrip `{Host} (w w3 : World) (B : option string)
  (answer : list Event) (ms : list Mutation) :
  let A := activeWalletId (syncState (provider w)) in
  let SA := snap (provider w) in
  context_key B ≠ context_key A →
  truthy A = false ∨ isOnline (syncState (provider w)) = false →
  answer = []
  ∨ (∃ resp now, answer = [Settle (length (pending w)) resp now]) →
  run ((Invoke (Api.SwitchWallet B) :: answer)
       ++ List.map (λ m, Invoke (call_of m)) ms) w = Some w3 →
  k_contexts (storage (provider w3)) !! context_key A = Some (payload_of SA)
  ∧ ∃ w4,
      step (Invoke (Api.SwitchWallet A)) w3 = Some w4
      ∧ pending w4 = pending w3
      ∧ activeWalletId (syncState (provider w4)) = A
      ∧ transactions (snap (provider w4)) = transactions SA
      ∧ accounts (snap (provider w4)) = accounts SA
      ∧ categories (snap (provider w4)) = categories SA
      ∧ budget (snap (provider w4)) = budget SA
      ∧ categoryBudgets (snap (provider w4)) = categoryBudgets SA
      ∧ settings (snap (provider w4))
        = spread (settings (snap (provider w3))) (settings SA)
      ∧ (dom (settings (snap (provider w3))) ⊆ dom (settings SA) →
         snap (provider w4) = SA).
Proof.
  intros A SA Hkey Hquiet Hans Hrun.
  rewrite run_app in Hrun.
  destruct (run (Invoke (Api.SwitchWallet B) :: answer) w) as [w2|] eqn:E2;
    [|discriminate].
  pose proof (away_after_switch w w2 B answer Hkey Hans E2) as H2.
  destruct (away_mutations _ _ _ _ ms w2 w3 H2 Hrun) as [(Hk & Hact & Hon) _].
  fold A SA in Hk, Hact, Hon.
  split; [exact Hk|].
  set (a3 := provider w3) in *.
  assert (Hload : snap (switchWallet_begin a3 A a3)
                  = apply_payload (payload_of SA) (snap a3)).
  { unfold switchWallet_begin, loadContextFromStorage,
      saveCurrentContextToStorage. simpl k_contexts.
    rewrite Hact, lookup_insert_ne by exact Hkey.
    rewrite Hk. reflexivity. }
  assert (Hdone : switchWallet A a3
                  = Done RetVoid (showNotification (switched_message A) success
                                    (switchWallet_begin a3 A a3))).
  { unfold switchWallet, switchWallet_in.
    destruct A as [wid|]; [|reflexivity].
    rewrite Hon.
    destruct Hquiet as [-> | ->]; [reflexivity|].
    rewrite andb_false_r. reflexivity. }
  destruct (switchWallet_state A a3) as (_ & Hact3 & _).
  rewrite Hdone in Hact3. simpl state_of in Hact3.
  eexists. split; [simpl; fold a3; rewrite Hdone; reflexivity|].
  split; [reflexivity|]. split; [exact Hact3|].
  rewrite !commit_provider. cbn [state_of].
  change (snap (persist ?x)) with (snap x).
  change (snap (showNotification ?m ?t ?x)) with (snap x).
  rewrite Hload.
  do 6 (split; [reflexivity|]).
  intros Hdom. apply spread_covered in Hdom.
  unfold apply_payload. simpl. rewrite Hdom. destruct SA; reflexivity.
Qed.

Lemma switch_roundtrip_witness :
  activeWalletId (syncState (provider fresh_world)) = None
  ∧ isOnline (syncState (provider fresh_world)) = true
  ∧ run (H := iso_host)
      [Invoke (Api.SwitchWallet (Some "w1"));
       Settle 0 (Resolved (WalletData (Some full_payload)))
              (instant "2024-01-01T00:00:00.000Z");
       Invoke (Api.UpdateBudget 42)] fresh_world
    = Some visiting_world
  ∧ activeWalletId (syncState (provider visiting_world)) = Some "w1"
  ∧ budget (snap (provider visiting_world)) = 42
  ∧ ∃ w4,
      step (H := iso_host) (Invoke (Api.SwitchWallet None)) visiting_world
      = Some w4
      ∧ snap (provider w4) = snap (provider fresh_world).
Proof.
  assert (Hrun : run (H := iso_host)
            [Invoke (Api.SwitchWallet (Some "w1"));
             Settle 0 (Resolved (WalletData (Some full_payload)))
                    (instant "2024-01-01T00:00:00.000Z");
             Invoke (Api.UpdateBudget 42)] fresh_world
          = Some visiting_world) by (vm_compute; reflexivity).
  do 2 (split; [reflexivity|]). split; [exact Hrun|].
  do 2 (split; [vm_compute; reflexivity|]).
  destruct (switch_roundtrip (H := iso_host) fresh_world visiting_world
              (Some "w1")
              [Settle 0 (Resolved (WalletData (Some full_payload)))
                      (instant "2024-01-01T00:00:00.000Z")]
              [MUpdateBudget 42])
    as (_ & w4 & Hstep & _ & _ & _ & _ & _ & _ & _ & _ & Hsnap).
  - vm_compute. discriminate.
  - left. reflexivity.
  - right. eexists _, _. reflexivity.
  - exact Hrun.
  - exists w4. split; [exact Hstep|].
    apply Hsnap. apply (bool_decide_unpack _). vm_compute. exact I.
Defined.

(** C9, as stated, fails: the personal settings had no [enableRealtime]
    key when the personal context was left; the key was set while in
    wallet ["w1"]; back in the personal context it is there, so the
    Snapshot is not the one that was left. *)
Lemma switch_roundtrip_leaks_settings :
  activeWalletId (syncState offline_app) = None
  ∧ isOnline (syncState offline_app) = false
  ∧ settings (snap offline_app) !! "enableRealtime" = None
  ∧ activeWalletId (syncState back_home_app) = None
  ∧ settings (snap back_home_app) !! "enableRealtime" = Some (VBool false)
  ∧ snap back_home_app ≠ snap offline_app.
Proof.
  do 5 (split; [vm_compute; reflexivity|]).
  intros Heq.
  assert (Hk : settings (snap back_home_app) !! "enableRealtime"
               = settings (snap offline_app) !! "enableRealtime")
    by (rewrite Heq; reflexivity).
  vm_compute in Hk. discriminate Hk.
Qed.

(** *** What resets the dirty flag *)

Lemma invoke_keeps_unsynced `{Host} c a :
  unsyncedChanges (syncState a) = true →
  unsyncedChanges (syncState (state_of (invoke c a))) = false →
  (∃ walletId, c = Api.SwitchWallet walletId)
  ∨ (∃ online, c = Api.AuthStateChange None online).
Proof.
  intros Hd Hc. destruct c; try (exfalso; run_op; congruence).
  - left. eauto.
  - right.
    match goal with
    | |- context [Api.AuthStateChange ?u _] => destruct u as [u|]
    end; [exfalso; run_op; congruence | eauto].
Qed.

Lemma resume_keeps_unsynced `{Host} t resp now a r :
  resume t resp now a = Some r →
  unsyncedChanges (syncState a) = true →
  unsyncedChanges (syncState (state_of r)) = false →
  (is_push_task t = true ∧ ∃ v, resp = Resolved v)
  ∨ (∃ render v, t = AwaitCreateWallet render ∧ resp = Resolved v)
  ∨ (∃ walletId render v,
       t = AwaitDeleteWallet walletId render ∧ resp = Resolved v)
  ∨ t = AwaitSignOut.
Proof.
  intros Hr Hd Hc.
  destruct t; try (exfalso; run_op; congruence);
    try (right; right; right; reflexivity);
    (destruct resp as [v|err]; [|exfalso; run_op; congruence]).
  - left. eauto.
  - left. eauto.
  - right. left. eauto.
  - right. right. left. eauto 6.
Qed.

(** C2, as the code has it. In every step of every run, if
    [unsyncedChanges] is set before the step and clear after it, the step
    is one of: the completion of a push that succeeded, a context switch
    ([switchWallet], also as run by [createWallet] and [deleteWallet]),
    the completion of [logout], or the auth callback firing without a
    user. No other operation clears the flag. *)
Theorem unsynced_cleared_only_by `{Host} (e : Event) (w w' : World) :
  step e w = Some w' →
  unsyncedChanges (syncState (provider w)) = true →
  unsyncedChanges (syncState (provider w')) = false →
  Clears w e.
Proof.
  intros Hstep Hd Hc. destruct e as [c|i resp now|r now]; simpl in Hstep;
    [| |exfalso; destruct (bool_decide _); [|discriminate];
        injection Hstep as <-; rewrite commit_provider in Hc;
        change (syncState (persist ?a)) with (syncState a) in Hc;
        destruct (tick_frame r now (provider w))
          as (_ & _ & _ & _ & _ & Hsame & _);
        congruence].
  - injection Hstep as <-. rewrite commit_provider in Hc.
    change (syncState (persist ?a)) with (syncState a) in Hc.
    destruct (invoke_keeps_unsynced c _ Hd Hc) as [[wid ->]|[online ->]];
      constructor.
  - destruct (pending w !! i) as [t|] eqn:Ei; [|discriminate].
    destruct (resume t resp now (provider w)) as [r|] eqn:Er; [|discriminate].
    injection Hstep as <-. rewrite commit_provider in Hc.
    change (syncState (persist ?a)) with (syncState a) in Hc.
    destruct (resume_keeps_unsynced _ _ _ _ _ Er Hd Hc)
      as [[Ht [v ->]]|[(render & v & -> & ->)|[(wid & render & v & -> & ->)| ->]]].
    + eapply clears_push; eauto.
    + eapply clears_create; eauto.
    + eapply clears_delete; eauto.
    + eapply clears_logout; eauto.
Qed.

Lemma unsynced_cleared_only_by_witness :
  ∃ w',
    step (H := iso_host) (Invoke (Api.SwitchWallet (Some "w1"))) dirty_world
    = Some w'
    ∧ Clears dirty_world (Invoke (Api.SwitchWallet (Some "w1"))).
Proof.
  eexists. split; [reflexivity|].
  eapply (unsynced_cleared_only_by (H := iso_host)).
  - reflexivity.
  - vm_compute. reflexivity.
  - vm_compute. reflexivity.
Defined.

(** C2, as stated, fails: with an unpushed edit and no push at all, a
    context switch, a logout brought to its end, and a signed-out auth
    callback each leave [unsyncedChanges] clear. *)
Lemma unsynced_cleared_without_push :
  unsyncedChanges (syncState (provider dirty_world)) = true
  ∧ pushes_made (provider dirty_world) = 0%nat
  ∧ (unsyncedChanges ∘ syncState ∘ provider)
      <$> step (H := iso_host) (Invoke (Api.SwitchWallet (Some "w1")))
               dirty_world
    = Some false
  ∧ (unsyncedChanges ∘ syncState ∘ provider)
      <$> run (H := iso_host)
              [Invoke Api.Logout;
               Settle 0 (Resolved NoValue) (instant "2024-01-01T00:00:00.000Z")]
              dirty_world
    = Some false
  ∧ (unsyncedChanges ∘ syncState ∘ provider)
      <$> step (H := iso_host) (Invoke (Api.AuthStateChange None false))
               dirty_world
    = Some false.
Proof. vm_compute. repeat split. Qed.

(** *** Session guard *)

Lemma stale_resume `{Host} t v resp now a r :
  session_of t = Some v →
  v ≠ sessionVersion a →
  resume t resp now a = Some r →
  shared (state_of r) = shared a
  ∧ (∀ reply, resp = Resolved reply → r = Done RetVoid a).
Proof.
  intros Ht Hv Hr. apply Nat.eqb_neq in Hv.
  destruct t; try discriminate; injection Ht as ->;
    destruct resp as [reply|err]; simpl in Hr.
  - unfold authWallets_resume in Hr. destruct reply; try discriminate.
    rewrite Hv in Hr. injection Hr as <-. split; [reflexivity|]. auto.
  - unfold authWallets_resume, auth_reconcile in Hr. injection Hr as <-.
    split; [|discriminate]. destruct (negb _); reflexivity.
  - unfold authBackup_resume in Hr. destruct reply; try discriminate.
    rewrite Hv in Hr. injection Hr as <-. split; [reflexivity|]. auto.
  - unfold authBackup_resume in Hr. injection Hr as <-.
    split; [reflexivity | discriminate].
Qed.

(** A call never lowers the counter, and a continuation it leaves
    pending for a login session carries the counter's new value. *)
Lemma invoke_version `{Host} c a :
  (sessionVersion a ≤ sessionVersion (state_of (invoke c a)))%nat
  ∧ ∀ t a' v, invoke c a = Await t a' → session_of t = Some v →
      v = sessionVersion a'.
Proof.
  split.
  - destruct c; run_op; lia.
  - intros t a' v Hi Hs. destruct c; run_op; congruence.
Qed.

(** A continuation leaves the counter alone, and what it leaves pending
    belongs to its own session. *)
Lemma resume_version `{Host} t resp now a r :
  resume t resp now a = Some r →
  sessionVersion (state_of r) = sessionVersion a
  ∧ ∀ t' a' v, r = Await t' a' → session_of t' = Some v →
      session_of t = Some v.
Proof.
  intros Hr. split.
  - destruct t; run_op; reflexivity.
  - intros t' a' v -> Hs. destruct t; run_op; congruence.
Qed.

Lemma step_version `{Host} e w w' :
  step e w = Some w' →
  (sessionVersion (provider w) ≤ sessionVersion (provider w'))%nat.
Proof.
  intros Hstep. destruct e as [c|i resp now|r now]; simpl in Hstep.
  - injection Hstep as <-. rewrite commit_provider.
    apply (invoke_version c (provider w)).
  - destruct (pending w !! i) as [t|]; [|discriminate].
    destruct (resume t resp now (provider w)) as [r|] eqn:Er; [|discriminate].
    injection Hstep as <-. rewrite commit_provider.
    destruct (resume_version _ _ _ _ _ Er) as [Hv _].
    change (sessionVersion (persist ?a)) with (sessionVersion a).
    rewrite Hv. reflexivity.
  - destruct (bool_decide _); [|discriminate].
    injection Hstep as <-. rewrite commit_provider.
    change (sessionVersion (persist ?a)) with (sessionVersion a).
    destruct (tick_frame r now (provider w)) as (_ & _ & _ & -> & _).
    reflexivity.
Qed.

Lemma run_version `{Host} es :
  ∀ w w', run es w = Some w' →
    (sessionVersion (provider w) ≤ sessionVersion (provider w'))%nat.
Proof.
  induction es as [|e es IH]; intros w w' Hrun; simpl in Hrun.
  - injection Hrun as <-. reflexivity.
  - destruct (step e w) as [w1|] eqn:E; [|discriminate].
    pose proof (step_version _ _ _ E). pose proof (IH _ _ Hrun). lia.
Qed.

(** No pending continuation is ahead of the counter. *)
Lemma pending_sessions_bounded `{Host} w :
  reachable w →
  Forall (λ t, ∀ v, session_of t = Some v →
                    (v ≤ sessionVersion (provider w))%nat) (pending w).
Proof.
  revert w.
  apply (reachable_ind (λ w,
    Forall (λ t, ∀ v, session_of t = Some v →
                      (v ≤ sessionVersion (provider w))%nat) (pending w))).
  - constructor.
  - intros e w w' IH Hstep.
    pose proof (step_version _ _ _ Hstep) as Hmono.
    assert (IH' : ∀ l, l ⊆ pending w →
              Forall (λ t, ∀ v, session_of t = Some v →
                (v ≤ sessionVersion (provider w'))%nat) l).
    { intros l Hl. apply Forall_forall. intros t Ht v Hs.
      rewrite Forall_forall in IH. specialize (IH t (Hl t Ht) v Hs). lia. }
    destruct e as [c|i resp now|r now]; simpl in Hstep;
      [| |destruct (bool_decide _); [|discriminate];
          injection Hstep as <-;
          destruct (tick_frame r now (provider w))
            as (_ & _ & _ & _ & _ & _ & _ & _ & Hpush);
          destruct (checkAutoBackup r now (provider w)) as [o a'|t a'];
            simpl;
            [apply IH'; reflexivity
            |apply Forall_app; split; [apply IH'; reflexivity|];
             repeat constructor; intros v Hs;
             specialize (Hpush t a' eq_refl);
             destruct t; discriminate]].
    + injection Hstep as <-.
      destruct (invoke c (provider w)) as [o a'|t a'] eqn:Ei; simpl.
      * apply IH'. reflexivity.
      * apply Forall_app. split; [apply IH'; reflexivity|].
        repeat constructor. intros v Hs.
        destruct (invoke_version c (provider w)) as [_ Hcap].
        rewrite (Hcap _ _ _ Ei Hs). reflexivity.
    + destruct (pending w !! i) as [t|] eqn:Et; [|discriminate].
      destruct (resume t resp now (provider w)) as [r|] eqn:Er; [|discriminate].
      injection Hstep as <-.
      assert (Hsub : delete i (pending w) ⊆ pending w).
      { apply sublist_subseteq, sublist_delete. }
      destruct (resume_version _ _ _ _ _ Er) as [Hv Hcap].
      destruct r as [o a'|t' a']; simpl in *.
      * apply IH'. exact Hsub.
      * apply Forall_app. split; [apply IH'; exact Hsub|].
        repeat constructor. intros v Hs.
        specialize (Hcap t' a' v eq_refl Hs).
        rewrite Forall_forall in IH.
        assert (Hin : t ∈ pending w) by (eapply list_elem_of_lookup_2; eauto).
        specialize (IH t Hin v Hcap). lia.
Qed.

(** X27. What the session guard does. A continuation of the auth
    handler, waiting for the wallet list or for the backup envelope,
    carries the value the generation counter had when its login began,
    which the handler had just incremented. In every reachable world that
    value is at most the counter. When the continuation runs with a
    value that differs from the counter, the shared state after it is the
    shared state before it, notifications included, and a result the
    gateway delivered is dropped with nothing done. And once a later auth
    callback has got past the logout guard, every continuation of the
    earlier login differs from the counter in all that follows, so
    whenever it runs it changes nothing. (A [logout] is no such event:
    it leaves the counter as it is.) *)
Theorem stale_login_discarded `{Host} (w : World) (i : nat) (t : Task)
  (v : nat) :
  reachable w →
  pending w !! i = Some t →
  session_of t = Some v →
  (∀ u online a t' a' v',
     handleAuthStateChange u online a = Await t' a' →
     session_of t' = Some v' →
     v' = sessionVersion a' ∧ sessionVersion a' = S (sessionVersion a))
  ∧ (v ≤ sessionVersion (provider w))%nat
  ∧ (∀ resp now r,
       v ≠ sessionVersion (provider w) →
       resume t resp now (provider w) = Some r →
       shared (state_of r) = shared (provider w)
       ∧ (∀ reply, resp = Resolved reply → r = Done RetVoid (provider w)))
  ∧ (∀ u online w1 es w2,
       isLoggingOutRef (provider w) = false →
       step (Invoke (Api.AuthStateChange u online)) w = Some w1 →
       run es w1 = Some w2 →
       (v < sessionVersion (provider w2))%nat
       ∧ ∀ resp now r,
           resume t resp now (provider w2) = Some r →
           shared (state_of r) = shared (provider w2)).
Proof.
  intros Hw Hi Hs.
  assert (Hle : (v ≤ sessionVersion (provider w))%nat).
  { pose proof (pending_sessions_bounded w Hw) as Hb.
    rewrite Forall_forall in Hb. apply (Hb t); [|exact Hs].
    eapply list_elem_of_lookup_2; eauto. }
  split; [|split; [exact Hle|split]].
  - intros u online a t' a' v' Ha Hs'.
    unfold handleAuthStateChange in Ha.
    destruct (isLoggingOutRef a); [discriminate|].
    destruct u as [u|]; [|discriminate].
    destruct online.
    + injection Ha as <- <-. injection Hs' as <-. split; reflexivity.
    + unfold auth_reconcile in Ha. destruct (negb _); [|discriminate].
      injection Ha as <- <-. injection Hs' as <-. split; reflexivity.
  - intros resp now r Hne Hr. eapply stale_resume; eauto.
  - intros u online w1 es w2 Hout Hstep Hrun.
    assert (H1 : sessionVersion (provider w1) = S (sessionVersion (provider w))).
    { simpl in Hstep. injection Hstep as <-. rewrite commit_provider.
      unfold handleAuthStateChange. rewrite Hout.
      destruct u as [u|]; [|reflexivity].
      destruct online; [reflexivity|].
      unfold auth_reconcile. destruct (negb _); reflexivity. }
    pose proof (run_version es w1 w2 Hrun) as Hmono.
    assert (Hlt : (v < sessionVersion (provider w2))%nat) by lia.
    split; [exact Hlt|]. intros resp now r Hr.
    eapply stale_resume; eauto. lia.
Qed.

Lemma stale_login_discarded_witness :
  reachable (H := iso_host) two_logins_world
  ∧ pending two_logins_world !! 0%nat = Some (AwaitAuthWallets 1 alice)
  ∧ resume (H := iso_host) (AwaitAuthWallets 1 alice)
      (Resolved (WalletList [{| w_id := "w1"; w_name := "Home";
                                w_currency := "EUR" |}]))
      (instant "2024-01-01T00:00:00.000Z") (provider two_logins_world)
    = Some (Done RetVoid (provider two_logins_world)).
Proof.
  assert (Hr : reachable (H := iso_host) two_logins_world).
  { exists empty_store, true,
      [Invoke (Api.AuthStateChange (Some alice) true);
       Invoke (Api.AuthStateChange (Some bob) true)].
    vm_compute. reflexivity. }
  split; [exact Hr|]. split; [reflexivity|].
  destruct (stale_login_discarded (H := iso_host) two_logins_world 0
              (AwaitAuthWallets 1 alice) 1 Hr eq_refl eq_refl)
    as (_ & _ & Hstale & _).
  destruct (resume (H := iso_host) (AwaitAuthWallets 1 alice)
              (Resolved (WalletList [{| w_id := "w1"; w_name := "Home";
                                        w_currency := "EUR" |}]))
              (instant "2024-01-01T00:00:00.000Z") (provider two_logins_world))
    as [r|] eqn:Er; [|vm_compute in Er; discriminate Er].
  destruct (Hstale _ _ r ltac:(vm_compute; discriminate) Er) as [_ Hdrop].
  rewrite (Hdrop _ eq_refl). reflexivity.
Defined.

(** The counter moves only in the auth callback, and the callback is
    suppressed while [logout] runs: after a logout the continuation of the
    login before it still carries the current value. *)
Example logout_keeps_counter :
  pending logged_out_world = [AwaitAuthBackup 1]
  ∧ sessionVersion (provider logged_out_world) = 1%nat
  ∧ isLoggedIn (syncState (provider logged_out_world)) = false.
Proof. vm_compute. repeat split. Qed.

(** [logout], from its call to its end, leaves the session counter as it
    is, whatever the gateway answers; the sign-out callback of the auth
    provider, which would advance it, returns at once while [logout]
    runs. *)
Lemma logout_leaves_counter `{Host} (a : App) (resp : Response)
  (now : Clock) (r : Async) :
  sessionVersion (state_of (logout a)) = sessionVersion a
  ∧ (resume AwaitSignOut resp now a = Some r →
     sessionVersion (state_of r) = sessionVersion a)
  ∧ (isLoggingOutRef a = true →
     ∀ online, handleAuthStateChange None online a = Done RetVoid a).
Proof.
  split; [|split].
  - unfold logout. destruct (isLoggingOutRef a); [reflexivity|].
    destruct (truthy (activeWalletId (syncState a))); [|reflexivity].
    unfold loadContextFromStorage. repeat case_match; reflexivity.
  - simpl. unfold logout_resume. intros [= <-]. reflexivity.
  - intros Hout online. unfold handleAuthStateChange. rewrite Hout.
    reflexivity.
Qed.

(** C10. The guard compares counters, and [logout] does not advance
    the counter. Alice signs in and logs out while her wallet list is
    still being fetched. After the logout the provider is signed out,
    with no wallets and no last sync, and the counter is still the 1 her
    login captured. The wallet list and then her backup arrive: both pass
    the guard, and the signed-out provider ends up showing her wallet,
    with a last sync taken from her backup, the restore prompt raised,
    and her backup fetched from the gateway after she had logged out. *)
Theorem stale_login_outlives_logout :
  pending signed_out_world = [AwaitAuthWallets 1 alice]
  ∧ sessionVersion (provider signed_out_world) = 1%nat
  ∧ isLoggedIn (syncState (provider signed_out_world)) = false
  ∧ user (syncState (provider signed_out_world)) = None
  ∧ wallets (provider signed_out_world) = []
  ∧ lastSync (syncState (provider signed_out_world)) = None
  ∧ gateway (provider signed_out_world) = [GetMyWallets "u-alice"; SignOut]
  ∧ ∃ w,
      run (H := iso_host) late_answers signed_out_world = Some w
      ∧ pending w = []
      ∧ isLoggedIn (syncState (provider w)) = false
      ∧ user (syncState (provider w)) = None
      ∧ wallets (provider w) = [home]
      ∧ lastSync (syncState (provider w)) = Some "2024-01-02T00:00:00.000Z"
      ∧ pendingRestoreAvailable (syncState (provider w)) = true
      ∧ gateway (provider w)
        = [GetMyWallets "u-alice"; SignOut; RestoreBackup "u-alice"].
Proof.
  do 7 (split; [vm_compute; reflexivity|]).
  eexists. split; [vm_compute; reflexivity|].
  vm_compute. repeat split.
Qed.

(** ** Further properties of the state manager *)

(** *** Deleting an account or a category *)

Lemma same_false_ne o id : same o id = false → o ≠ Some id.
Proof.
  intros Hs ->. simpl in Hs. rewrite String.eqb_refl in Hs. discriminate.
Qed.

Lemma filter_ne_head {A} (f : A → string) id (l : list A) x l' :
  List.filter (λ y, negb (String.eqb (f y) id)) l = x :: l' → f x ≠ id.
Proof.
  intros Hf Heq.
  assert (Hin : In x (List.filter (λ y, negb (String.eqb (f y) id)) l))
    by (rewrite Hf; left; reflexivity).
  apply filter_In in Hin. destruct Hin as [_ Hx].
  rewrite Heq, String.eqb_refl in Hx. discriminate.
Qed.

Lemma reassign_account_spec id fallbackId t :
  same fallbackId id = false →
  refers_to id (reassign_account id fallbackId t) = false
  ∧ (if refers_to id t
     then tx_isPendingSync (reassign_account id fallbackId t) = Some true
          ∧ tx_id (reassign_account id fallbackId t) = tx_id t
          ∧ tx_amount (reassign_account id fallbackId t) = tx_amount t
          ∧ tx_date (reassign_account id fallbackId t) = tx_date t
          ∧ tx_categoryId (reassign_account id fallbackId t) = tx_categoryId t
     else reassign_account id fallbackId t = t).
Proof.
  intros Hf. unfold reassign_account, refers_to.
  destruct (same (tx_accountId t) id) eqn:E1,
           (same (tx_fromAccountId t) id) eqn:E2,
           (same (tx_toAccountId t) id) eqn:E3; simpl;
    rewrite ?Hf, ?E1, ?E2, ?E3; simpl; auto 10.
Qed.

Lemma deleteAccount_spec (id : string) (a : App) :
  let a' := deleteAccount id a in
  Forall (λ x, acc_id x ≠ id) (accounts (snap a'))
  ∧ Forall (λ t, refers_to id t = false) (transactions (snap a'))
  ∧ Forall2 (λ t t',
       if refers_to id t
       then tx_isPendingSync t' = Some true ∧ tx_id t' = tx_id t
            ∧ tx_amount t' = tx_amount t ∧ tx_date t' = tx_date t
            ∧ tx_categoryId t' = tx_categoryId t
       else t' = t)
      (transactions (snap a)) (transactions (snap a')).
Proof.
  intros a'. unfold a', deleteAccount. simpl.
  set (remaining := List.filter (λ x, negb (String.eqb (acc_id x) id))
                                (accounts (snap a))).
  set (fallbackId := match remaining with x :: _ => Some (acc_id x) | [] => None end).
  assert (Hf : same fallbackId id = false).
  { unfold fallbackId. destruct remaining as [|x l'] eqn:E; [reflexivity|].
    simpl. apply String.eqb_neq. eapply (filter_ne_head acc_id); exact E. }
  split; [|split].
  - apply Forall_forall. intros x Hx. apply list_elem_of_In, filter_In in Hx.
    destruct Hx as [_ Hx]. apply negb_true_iff, String.eqb_neq in Hx. exact Hx.
  - apply Forall_forall. intros t Ht.
    apply list_elem_of_In, in_map_iff in Ht. destruct Ht as (t0 & <- & _).
    apply reassign_account_spec, Hf.
  - induction (transactions (snap a)) as [|t l IH]; simpl; constructor.
    + apply reassign_account_spec, Hf.
    + exact IH.
Qed.


(** X1. [deleteAccount(id)] leaves no account with that id and no
    transaction that names it in [accountId], [fromAccountId] or
    [toAccountId]; a transaction that named it is marked pending and keeps
    its id, amount, date and category; every other transaction is left
    exactly as it was. *)
Theorem deleteAccount_leaves_no_reference (id : string) (a : App) :
  let a' := deleteAccount id a in
  Forall (λ x, acc_id x ≠ id) (accounts (snap a'))
  ∧ Forall (λ t, refers_to id t = false) (transactions (snap a'))
  ∧ Forall2 (λ t t',
       if refers_to id t
       then tx_isPendingSync t' = Some true ∧ tx_id t' = tx_id t
            ∧ tx_amount t' = tx_amount t ∧ tx_date t' = tx_date t
            ∧ tx_categoryId t' = tx_categoryId t
       else t' = t)
      (transactions (snap a)) (transactions (snap a')).
Proof. apply deleteAccount_spec. Qed.

Lemma balance_unreferenced id (l : list Transaction) bal :
  Forall (λ t, refers_to id t = false) l →
  fold_left (λ bal tx,
    if same (tx_accountId tx) id then
      match tx_type tx with
      | income => bal + tx_amount tx
      | expense => bal - tx_amount tx
      | transfer => bal
      end
    else
      match tx_type tx with
      | transfer =>
          if same (tx_fromAccountId tx) id then bal - tx_amount tx
          else if same (tx_toAccountId tx) id then bal + tx_amount tx
          else bal
      | _ => bal
      end) l bal = bal.
Proof.
  intros Hl. revert bal. induction Hl as [|t l Ht Hl IH]; intros bal;
    [reflexivity|].
  simpl. unfold refers_to in Ht.
  apply orb_false_iff in Ht. destruct Ht as [Ht E3].
  apply orb_false_iff in Ht. destruct Ht as [E1 E2].
  rewrite E1, E2, E3. destruct (tx_type t); apply IH.
Qed.

(** X2. After [deleteAccount(id)] the balance [getAccountBalance(id)] of
    the deleted account is 0, whatever was booked on it before. *)
Theorem deleted_account_has_no_balance (id : string) (a : App) :
  getAccountBalance id (deleteAccount id a) = 0.
Proof.
  unfold getAccountBalance. apply balance_unreferenced.
  apply (deleteAccount_spec id a).
Qed.

(** X3. [deleteCategory(id)] leaves no category with that id, no
    per-category budget for it and no transaction in it; a transaction
    that was in it is marked pending and otherwise only loses its
    category; every other transaction, and the accounts, are left exactly
    as they were. *)
Theorem deleteCategory_leaves_no_reference (id : string) (a : App) :
  let a' := deleteCategory id a in
  Forall (λ c, cat_id c ≠ id) (categories (snap a'))
  ∧ Forall (λ b, cb_categoryId b ≠ id) (categoryBudgets (snap a'))
  ∧ Forall (λ t, tx_categoryId t ≠ Some id) (transactions (snap a'))
  ∧ Forall2 (λ t t',
       if same (tx_categoryId t) id
       then t' = with_isPendingSync true (with_categoryId None t)
       else t' = t)
      (transactions (snap a)) (transactions (snap a'))
  ∧ accounts (snap a') = accounts (snap a).
Proof.
  intros a'. unfold a', deleteCategory. simpl.
  split; [|split; [|split; [|split]]].
  - apply Forall_forall. intros x Hx. apply list_elem_of_In, filter_In in Hx.
    destruct Hx as [_ Hx]. apply negb_true_iff, String.eqb_neq in Hx. exact Hx.
  - apply Forall_forall. intros x Hx. apply list_elem_of_In, filter_In in Hx.
    destruct Hx as [_ Hx]. apply negb_true_iff, String.eqb_neq in Hx. exact Hx.
  - apply Forall_forall. intros t Ht.
    apply list_elem_of_In, in_map_iff in Ht. destruct Ht as (t0 & <- & _).
    destruct (same (tx_categoryId t0) id) eqn:E.
    + simpl. discriminate.
    + apply same_false_ne, E.
  - induction (transactions (snap a)) as [|t l IH]; simpl; constructor.
    + destruct (same (tx_categoryId t) id); reflexivity.
    + exact IH.
  - reflexivity.
Qed.

(** *** Per-category budgets *)

Lemma filter_filter_neg {A} (f : A → bool) (l : list A) :
  List.filter f (List.filter (λ x, negb (f x)) l) = [].
Proof.
  induction l as [|x l IH]; simpl; [reflexivity|].
  destruct (f x) eqn:E; simpl; [exact IH|]. rewrite E. exact IH.
Qed.

Lemma filter_idem {A} (f : A → bool) (l : list A) :
  List.filter f (List.filter f l) = List.filter f l.
Proof.
  induction l as [|x l IH]; simpl; [reflexivity|].
  destruct (f x) eqn:E; simpl; [rewrite E, IH; reflexivity | exact IH].
Qed.

(** X4. After [updateCategoryBudget(cid, n)] the list holds exactly one
    entry for [cid], with amount [n], whatever it held for [cid] before;
    the entries of the other categories are the same, in the same order;
    and a list with at most one entry per category stays one. *)
Theorem updateCategoryBudget_single_entry (cid : string) (n : Z) (a : App) :
  let old := categoryBudgets (snap a) in
  let new := categoryBudgets (snap (updateCategoryBudget cid n a)) in
  List.filter (λ b, String.eqb (cb_categoryId b) cid) new
  = [{| cb_categoryId := cid; cb_amount := n |}]
  ∧ List.filter (λ b, negb (String.eqb (cb_categoryId b) cid)) new
    = List.filter (λ b, negb (String.eqb (cb_categoryId b) cid)) old
  ∧ (NoDup (cb_categoryId <$> old) → NoDup (cb_categoryId <$> new)).
Proof.
  intros old new. unfold new, updateCategoryBudget. simpl. fold old.
  split; [|split].
  - rewrite List.filter_app. simpl. rewrite String.eqb_refl.
    rewrite (filter_filter_neg (λ b, String.eqb (cb_categoryId b) cid)).
    reflexivity.
  - rewrite List.filter_app. simpl. rewrite String.eqb_refl. simpl.
    rewrite app_nil_r. apply filter_idem.
  - intros Hnd. rewrite fmap_app. apply NoDup_app. split; [|split].
    + clear -Hnd. induction old as [|b l IH]; simpl; [constructor|].
      apply NoDup_cons in Hnd. destruct Hnd as [Hb Hl].
      destruct (negb (String.eqb (cb_categoryId b) cid)); [|auto].
      rewrite fmap_cons. apply NoDup_cons. split; [|auto].
      intros Hin. apply Hb. apply list_elem_of_fmap in Hin.
      destruct Hin as (b' & -> & Hb').
      apply list_elem_of_fmap. exists b'. split; [reflexivity|].
      apply list_elem_of_In. apply list_elem_of_In, filter_In in Hb'. tauto.
    + intros x Hx Hx'. apply list_elem_of_fmap in Hx.
      destruct Hx as (b & -> & Hb).
      apply list_elem_of_In, filter_In in Hb. destruct Hb as [_ Hb].
      apply negb_true_iff, String.eqb_neq in Hb.
      simpl in Hx'. apply list_elem_of_singleton in Hx'. contradiction.
    + simpl. apply NoDup_singleton.
Qed.

Lemma updateCategoryBudget_single_entry_witness :
  NoDup (cb_categoryId <$> categoryBudgets (snap (provider budgeted_world)))
  ∧ NoDup (cb_categoryId <$>
           categoryBudgets
             (snap (updateCategoryBudget "cat_food" 120
                      (provider budgeted_world)))).
Proof.
  assert (Hnd : NoDup (cb_categoryId <$>
                       categoryBudgets (snap (provider budgeted_world)))).
  { vm_compute. apply NoDup_singleton. }
  split; [exact Hnd|].
  apply (updateCategoryBudget_single_entry "cat_food" 120
           (provider budgeted_world)), Hnd.
Defined.

(** *** Importing transactions *)

Lemma signature_stamped id t :
  signature (with_isPendingSync true (with_id id t)) = signature t.
Proof. reflexivity. Qed.

Lemma imap_signatures (f : nat → Transaction → Transaction) l :
  (∀ i t, signature (f i t) = signature t) →
  List.map signature (imap f l) = List.map signature l.
Proof.
  revert f. induction l as [|t l IH]; intros f Hf; [reflexivity|].
  simpl. rewrite Hf. f_equal. apply IH. intros i t'. apply Hf.
Qed.

Lemma filter_none {A} (f : A → bool) (l : list A) :
  (∀ x, In x l → f x = false) → List.filter f l = [].
Proof.
  induction l as [|x l IH]; intros Hl; simpl; [reflexivity|].
  rewrite (Hl x) by (left; reflexivity). apply IH.
  intros y Hy. apply Hl. right. exact Hy.
Qed.

Lemma in_signatures t l : signature t ∈ signatures l ↔ In (signature t) (List.map signature l).
Proof. unfold signatures. rewrite elem_of_list_to_set, list_elem_of_In. reflexivity. Qed.

(** What [importTransactions] appends: the new transactions whose
    signature is not among the existing ones, stamped. *)
Lemma importTransactions_appends newTxs uuid a :
  transactions (snap (importTransactions newTxs uuid a))
  = transactions (snap a)
    ++ imap (λ i t, with_isPendingSync true
                      (with_id (if truthy (Some (tx_id t)) then tx_id t
                                else uuid i) t))
         (List.filter (λ t, negb (bool_decide
                                    (signature t ∈ signatures (transactions (snap a)))))
                      newTxs).
Proof. reflexivity. Qed.

(** X5. Importing the same transactions a second time adds nothing:
    after [importTransactions(txs)] a further [importTransactions(txs)]
    leaves the transaction list as it is, whatever ids are drawn. *)
Theorem importTransactions_idempotent (newTxs : list Transaction)
  (uuid uuid' : nat → string) (a : App) :
  transactions (snap (importTransactions newTxs uuid'
                        (importTransactions newTxs uuid a)))
  = transactions (snap (importTransactions newTxs uuid a)).
Proof.
  rewrite (importTransactions_appends newTxs uuid').
  rewrite filter_none; [simpl; apply app_nil_r|].
  intros t Ht. apply negb_false_iff. apply bool_decide_eq_true.
  apply in_signatures.
  rewrite importTransactions_appends, List.map_app, imap_signatures
    by (intros; apply signature_stamped).
  apply in_or_app.
  destruct (bool_decide (signature t ∈ signatures (transactions (snap a))))
    eqn:E.
  - left. apply bool_decide_eq_true in E. apply in_signatures in E. exact E.
  - right. apply in_map. apply filter_In. split; [exact Ht|].
    rewrite E. reflexivity.
Qed.

Lemma imap_Forall {A B} (f : nat → A → B) (P : A → Prop) (Q : B → Prop) l :
  (∀ i x, P x → Q (f i x)) → Forall P l → Forall Q (imap f l).
Proof.
  revert f. induction l as [|x l IH]; intros f Hf Hl; [constructor|].
  apply Forall_cons in Hl. destruct Hl as [Hx Hl]. simpl. constructor.
  - apply Hf, Hx.
  - apply IH; [|exact Hl]. intros i y. apply Hf.
Qed.

(** X6. [importTransactions] keeps the existing transactions, in order,
    and appends at most as many as it was given; each one appended is
    marked pending, has a signature (day, amount, type, trimmed note) that
    no existing transaction had, and, the generated ids being non-empty,
    has a non-empty id. *)
Theorem importTransactions_adds_only_new (newTxs : list Transaction)
  (uuid : nat → string) (a : App) :
  (∀ i, uuid i ≠ "") →
  ∃ added,
    transactions (snap (importTransactions newTxs uuid a))
    = transactions (snap a) ++ added
    ∧ (length added ≤ length newTxs)%nat
    ∧ Forall (λ t, tx_isPendingSync t = Some true
                   ∧ (signature t ∉ signatures (transactions (snap a)))
                   ∧ tx_id t ≠ "") added.
Proof.
  intros Huuid. eexists. split; [apply importTransactions_appends|]. split.
  - rewrite length_imap. apply List.filter_length_le.
  - eapply imap_Forall
      with (P := λ t, signature t ∉ signatures (transactions (snap a))).
    + intros i t Ht. split; [reflexivity|]. split; [exact Ht|].
      simpl. destruct (String.eqb_spec (tx_id t) ""); simpl; auto.
    + apply Forall_forall. intros t Ht.
      apply list_elem_of_In, filter_In in Ht. destruct Ht as [_ Ht].
      apply negb_true_iff, bool_decide_eq_false in Ht. exact Ht.
Qed.

Lemma importTransactions_adds_only_new_witness :
  ∃ added,
    transactions (snap (importTransactions [t1; t2] (λ _, "generated")
                          three_accounts_app))
    = transactions (snap three_accounts_app) ++ added
    ∧ (length added ≤ 2)%nat.
Proof.
  destruct (importTransactions_adds_only_new [t1; t2] (λ _, "generated")
              three_accounts_app) as (added & Heq & Hlen & _).
  - intros _. discriminate.
  - exists added. split; [exact Heq | exact Hlen].
Defined.

(** *** Adding, updating and deleting a transaction *)

(** X7. With an id that no transaction has, [deleteTransaction(id)]
    leaves the list as it is, and it undoes the [addTransaction] that drew
    this id: the list is again what it was before the two calls. *)
Theorem add_then_delete_transaction (data : Transaction) (uuid : string)
  (a : App) :
  Forall (λ t, tx_id t ≠ uuid) (transactions (snap a)) →
  transactions (snap (deleteTransaction uuid a)) = transactions (snap a)
  ∧ transactions (snap (deleteTransaction uuid (addTransaction data uuid a)))
    = transactions (snap a).
Proof.
  intros Hfresh.
  assert (Hkeep : List.filter (λ tx, negb (String.eqb (tx_id tx) uuid))
                              (transactions (snap a))
                  = transactions (snap a)).
  { induction Hfresh as [|t l Ht Hl IH]; simpl; [reflexivity|].
    apply String.eqb_neq in Ht. rewrite Ht. simpl. f_equal. exact IH. }
  split; [exact Hkeep|].
  unfold deleteTransaction, addTransaction. simpl.
  rewrite String.eqb_refl. simpl. exact Hkeep.
Qed.

Lemma add_then_delete_transaction_witness :
  transactions (snap (deleteTransaction "t-9"
                        (addTransaction t1 "t-9" three_accounts_app)))
  = transactions (snap three_accounts_app).
Proof.
  apply (add_then_delete_transaction t1 "t-9" three_accounts_app).
  vm_compute. repeat constructor; discriminate.
Defined.

(** X8. [updateTransaction(data)] keeps the length and the ids of the
    list; every transaction with the id of [data] becomes [data] marked
    pending, every other one is untouched; with an id that no transaction
    has, the list is left as it is. *)
Theorem updateTransaction_by_id (data : Transaction) (a : App) :
  let old := transactions (snap a) in
  let new := transactions (snap (updateTransaction data a)) in
  tx_id <$> new = tx_id <$> old
  ∧ Forall2 (λ t t',
       if String.eqb (tx_id t) (tx_id data)
       then t' = with_isPendingSync true data else t' = t) old new
  ∧ (Forall (λ t, tx_id t ≠ tx_id data) old → new = old).
Proof.
  intros old new. unfold new, updateTransaction. simpl. fold old.
  split; [|split].
  - induction old as [|t l IH]; [reflexivity|].
    cbn [List.map]. rewrite !fmap_cons. f_equal; [|exact IH].
    destruct (String.eqb_spec (tx_id t) (tx_id data)); simpl; congruence.
  - induction old as [|t l IH]; simpl; constructor; [|exact IH].
    destruct (String.eqb (tx_id t) (tx_id data)); reflexivity.
  - induction 1 as [|t l Ht Hl IH]; simpl; [reflexivity|].
    apply String.eqb_neq in Ht. rewrite Ht. f_equal. exact IH.
Qed.

Lemma updateTransaction_by_id_witness :
  transactions (snap (updateTransaction t1 three_accounts_app))
  = transactions (snap three_accounts_app).
Proof.
  apply (updateTransaction_by_id t1 three_accounts_app).
  vm_compute. repeat constructor; discriminate.
Defined.

(** *** Settings *)

Lemma spread_assoc (p s1 s2 : JsObject) :
  spread (spread p s1) s2 = spread p (spread s1 s2).
Proof. unfold spread. apply (assoc_L (∪)). Qed.

(** X9. Two [updateSettings] calls in a row leave the settings that one
    call with the two partial objects merged, the later over the earlier,
    leaves; after a call each key of the partial object has its new value
    and every other key the value it had; an empty partial object changes
    no setting. *)
Theorem updateSettings_composes (s1 s2 : JsObject) (a : App) :
  settings (snap (updateSettings s2 (updateSettings s1 a)))
  = settings (snap (updateSettings (spread s1 s2) a))
  ∧ (∀ k, settings (snap (updateSettings s1 a)) !! k
          = match s1 !! k with
            | Some v => Some v
            | None => settings (snap a) !! k
            end)
  ∧ settings (snap (updateSettings ∅ a)) = settings (snap a).
Proof.
  split; [|split].
  - unfold updateSettings. simpl. apply spread_assoc.
  - intros k. unfold updateSettings. simpl. apply lookup_spread.
  - unfold updateSettings, spread. simpl. apply (left_id_L ∅ (∪)).
Qed.

Lemma updateSettings_lookup (p : JsObject) a k :
  settings (snap (updateSettings p a)) !! k
  = match p !! k with Some v => Some v | None => settings (snap a) !! k end.
Proof. unfold updateSettings. simpl. apply lookup_spread. Qed.

(** X10. The currency helpers keep the settings consistent: when the
    current currency is one of the installed ones and ["$"] is installed,
    the same holds after [installCurrency(code)] and after
    [uninstallCurrency(code)]. After installing, [code] is installed and
    current; after uninstalling a code other than ["$"] it is installed
    no more; ["$"] cannot be uninstalled. *)
Theorem currency_helpers_keep_consistency (code : string) (a : App) :
  currency_ok (settings (snap a)) →
  currency_ok (settings (snap (installCurrency code a)))
  ∧ currency_ok (settings (snap (uninstallCurrency code a)))
  ∧ (∃ cs, settings (snap (installCurrency code a)) !! "currencies"
           = Some (VStrs cs) ∧ code ∈ cs)
  ∧ settings (snap (installCurrency code a)) !! "currency" = Some (VStr code)
  ∧ (code ≠ "$" →
     ∃ cs, settings (snap (uninstallCurrency code a)) !! "currencies"
           = Some (VStrs cs) ∧ code ∉ cs)
  ∧ uninstallCurrency "$" a = a.
Proof.
  intros (cs & c & Hcs & Hc & Hin & Hdollar).
  assert (Hex : existsb (String.eqb code) cs = true ↔ code ∈ cs).
  { rewrite existsb_exists. split.
    - intros (x & Hx & ->%String.eqb_eq). apply list_elem_of_In, Hx.
    - intros Hx. exists code. split; [apply list_elem_of_In, Hx|].
      apply String.eqb_refl. }
  assert (Hinst : currency_ok (settings (snap (installCurrency code a)))
    ∧ (∃ cs', settings (snap (installCurrency code a)) !! "currencies"
              = Some (VStrs cs') ∧ code ∈ cs')
    ∧ settings (snap (installCurrency code a)) !! "currency"
      = Some (VStr code)).
  { unfold installCurrency. rewrite Hcs.
    destruct (existsb (String.eqb code) cs) eqn:E; simpl.
    - assert (Hcode : code ∈ cs) by (apply Hex; reflexivity).
      assert (H1 : settings (snap (updateSettings {[ "currency" := VStr code ]} a))
                   !! "currencies" = Some (VStrs cs)).
      { rewrite updateSettings_lookup, lookup_singleton_ne by done. exact Hcs. }
      assert (H2 : settings (snap (updateSettings {[ "currency" := VStr code ]} a))
                   !! "currency" = Some (VStr code)).
      { rewrite updateSettings_lookup, lookup_singleton_eq. reflexivity. }
      split; [exists cs, code; auto|]. split; [exists cs; auto | exact H2].
    - assert (H1 : settings (snap (updateSettings
                     (<[ "currencies" := VStrs (cs ++ [code]) ]>
                        {[ "currency" := VStr code ]}) a))
                   !! "currencies" = Some (VStrs (cs ++ [code]))).
      { rewrite updateSettings_lookup, lookup_insert_eq. reflexivity. }
      assert (H2 : settings (snap (updateSettings
                     (<[ "currencies" := VStrs (cs ++ [code]) ]>
                        {[ "currency" := VStr code ]}) a))
                   !! "currency" = Some (VStr code)).
      { rewrite updateSettings_lookup, lookup_insert_ne by done.
        rewrite lookup_singleton_eq. reflexivity. }
      assert (Hc' : code ∈ cs ++ [code])
        by (apply elem_of_app; right; apply list_elem_of_singleton;
            reflexivity).
      split; [exists (cs ++ [code]), code; split; [exact H1|];
              split; [exact H2|]; split;
              [exact Hc' | apply elem_of_app; left; exact Hdollar]|].
      split; [exists (cs ++ [code]); auto | exact H2]. }
  destruct Hinst as (Hi1 & Hi2 & Hi3).
  split; [exact Hi1|]. split; [|split; [exact Hi2|split; [exact Hi3|split]]].
  - unfold uninstallCurrency.
    destruct (String.eqb_spec code "$") as [->|Hne]; [exists cs, c; auto|].
    rewrite Hcs. unfold key_is. rewrite Hc.
    set (next := List.filter (λ x, negb (String.eqb x code)) cs).
    assert (Hnext : ∀ x, x ∈ next ↔ x ∈ cs ∧ x ≠ code).
    { intros x. unfold next. rewrite !list_elem_of_In, filter_In.
      rewrite negb_true_iff, String.eqb_neq. reflexivity. }
    destruct (String.eqb_spec c code) as [->|Hcne].
    + exists next, "$". rewrite !updateSettings_lookup.
      rewrite lookup_insert_eq, lookup_insert_ne by done.
      rewrite lookup_singleton_eq.
      split; [reflexivity|]. split; [reflexivity|].
      split; apply Hnext; split; auto; congruence.
    + exists next, c. rewrite !updateSettings_lookup.
      rewrite lookup_insert_eq, lookup_insert_ne by done.
      rewrite lookup_empty.
      split; [reflexivity|]. split; [exact Hc|].
      split; apply Hnext; split; auto; congruence.
  - intros Hne. unfold uninstallCurrency.
    destruct (String.eqb_spec code "$") as [->|_]; [contradiction|].
    rewrite Hcs. eexists. rewrite updateSettings_lookup, lookup_insert_eq.
    split; [reflexivity|].
    rewrite list_elem_of_In, filter_In, negb_true_iff, String.eqb_neq. tauto.
  - reflexivity.
Qed.

Lemma currency_helpers_keep_consistency_witness :
  currency_ok (settings (snap offline_app))
  ∧ currency_ok (settings (snap (uninstallCurrency "EUR" offline_app))).
Proof.
  assert (H0 : currency_ok (settings (snap offline_app))).
  { exists ["$"], "$". split; [reflexivity|]. split; [reflexivity|].
    split; apply list_elem_of_singleton; reflexivity. }
  split; [exact H0|].
  destruct (currency_helpers_keep_consistency "EUR" offline_app H0)
    as (_ & Hun & _).
  exact Hun.
Defined.

(** *** What a mutation leaves alone *)

Lemma set_unsynced_true_id p :
  unsyncedChanges p = true → set_unsyncedChanges true p = p.
Proof. intros Hp. destruct p. simpl in *. subst. reflexivity. Qed.

Lemma markAsDirty_sets a :
  markAsDirty a = setSyncState (set_unsyncedChanges true) a.
Proof.
  unfold markAsDirty, setSyncState.
  destruct (unsyncedChanges (syncState a)) eqn:E; simpl; [|reflexivity].
  rewrite (set_unsynced_true_id _ E). reflexivity.
Qed.

(** X11. A mutating operation changes nothing but the Snapshot and the
    dirty flag: it makes no gateway call, writes nothing to the Local
    Store, shows no notification, and leaves the wallets, the three guard
    cells and every other field of the sync state ([lastSync],
    [pendingRestoreAvailable], [activeWalletId], the login) as they
    were. *)
Theorem mutation_touches_only_snapshot (m : Mutation) (a : App) :
  mutate m a
  = setSyncState (set_unsyncedChanges true)
      (setSnap (λ _, snap (mutate m a)) a).
Proof.
  destruct m; unfold mutate; cbv beta delta
    [addTransaction updateTransaction deleteTransaction importTransactions
     addAccount updateAccountName deleteAccount addCategory updateCategory
     deleteCategory updateBudget updateCategoryBudget updateSettings];
    cbv zeta; rewrite !markAsDirty_sets; reflexivity.
Qed.

(** *** The auto-backup timer *)

Lemma backupUserData_in_starts (r : App) (custom : option Payload) (a : App)
  (u : UserProfile) :
  isBackingUpRef a = false → user (syncState r) = Some u →
  starts_push (backupUserData_in r custom a) = true
  ∧ gateway (state_of (backupUserData_in r custom a))
    = gateway a ++ [push_call (activeWalletId (syncState r)) (u_id u)
                      (default (payload_of (snap r)) custom)].
Proof.
  intros Hb Hu. unfold backupUserData_in, push_call. rewrite Hb, Hu.
  destruct (activeWalletId (syncState r)) as [w|];
    [destruct (truthy (Some w))|]; split; reflexivity.
Qed.

(** X12. The auto-backup timer runs the closure of the render [r] that
    armed it; [r] has the dependencies of the live render. The timer
    starts a push exactly when the user is signed in and online, [r]
    holds a user, no logout and no push is under way, and either there
    are unsynced changes (whatever the auto-backup setting), or
    auto-backup is not ['off'] and the last sync is absent or at least 24
    hours (['daily']) or 168 hours (any other setting) old. The push it
    starts is the [backupUserData()] of [r]: one backup-write call, for
    the user and the active wallet of [r], that carries the live
    transactions (a dependency) together with the accounts, categories,
    budget, per-category budgets and settings of [r], which are no
    dependencies and may be older than the live ones. When it starts no
    push, nothing changes. *)
Theorem checkAutoBackup_decision `{Host} (r : App) (now : string) (a : App) :
  timer_deps r = timer_deps a →
  let s := syncState a in
  let threshold :=
    if key_is (settings (snap a)) "autoBackup" "daily" then 24 else 168 in
  (starts_push (checkAutoBackup r now a) = true
   ↔ isLoggedIn s = true ∧ is_Some (user (syncState r))
     ∧ isOnline s = true
     ∧ isLoggingOutRef a = false ∧ isBackingUpRef a = false
     ∧ (unsyncedChanges s = true
        ∨ (key_is (settings (snap a)) "autoBackup" "off" = false
           ∧ (truthy (lastSync s) = false
              ∨ threshold * 3600000
                ≤ getTime now - getTime (default "" (lastSync s))))))
  ∧ (starts_push (checkAutoBackup r now a) = true →
     checkAutoBackup r now a = backupUserData_in r None a
     ∧ ∃ u, user (syncState r) = Some u
            ∧ gateway (state_of (checkAutoBackup r now a))
              = gateway a
                ++ [push_call (activeWalletId (syncState r)) (u_id u)
                      (payload_of (set_transactions (transactions (snap a))
                                                    (snap r)))])
  ∧ (starts_push (checkAutoBackup r now a) = false →
     checkAutoBackup r now a = Done RetVoid a).
Proof.
  intros Hdeps s threshold.
  unfold timer_deps in Hdeps. injection Hdeps as Hin Hon Hab Hd Htx Hls.
  assert (Hkey : ∀ v, key_is (settings (snap r)) "autoBackup" v
                      = key_is (settings (snap a)) "autoBackup" v).
  { intros v. unfold key_is. rewrite Hab. reflexivity. }
  assert (Hpay : payload_of (snap r)
                 = payload_of (set_transactions (transactions (snap a))
                                                (snap r))).
  { unfold payload_of. simpl. rewrite Htx. reflexivity. }
  assert (Hpush : ∀ u, user (syncState r) = Some u →
            isBackingUpRef a = false →
            starts_push (backupUserData_in r None a) = true
            ∧ (backupUserData_in r None a = backupUserData_in r None a
               ∧ ∃ u, user (syncState r) = Some u
                   ∧ gateway (state_of (backupUserData_in r None a))
                     = gateway a
                       ++ [push_call (activeWalletId (syncState r)) (u_id u)
                             (payload_of
                                (set_transactions (transactions (snap a))
                                                  (snap r)))])).
  { intros u Hu Hb.
    destruct (backupUserData_in_starts r None a u Hb Hu) as [Hs Hg].
    split; [exact Hs|]. split; [reflexivity|].
    exists u. split; [exact Hu|]. rewrite Hg, <- Hpay. reflexivity. }
  unfold checkAutoBackup. rewrite !Hkey, Hin, Hon, Hd, Hls.
  fold s. fold threshold.
  change (1000 * 60 * 60) with 3600000.
  destruct (isLoggedIn s); simpl;
    [|split; [split; [discriminate | intros (? & _); discriminate]
             | split; [discriminate | reflexivity]]].
  destruct (user (syncState r)) as [u|] eqn:Hu; simpl;
    [|split; [split; [discriminate | intros (_ & [? ?] & _); discriminate]
             | split; [discriminate | reflexivity]]].
  destruct (isOnline s); simpl;
    [|split; [split; [discriminate | intros (_ & _ & ? & _); discriminate]
             | split; [discriminate | reflexivity]]].
  destruct (isLoggingOutRef a); simpl;
    [split; [split; [discriminate | intros (_ & _ & _ & ? & _); discriminate]
            | split; [discriminate | reflexivity]]|].
  destruct (isBackingUpRef a) eqn:Hb; simpl;
    [split; [split; [discriminate | intros (_ & _ & _ & _ & ? & _); discriminate]
            | split; [discriminate | reflexivity]]|].
  destruct (Hpush u eq_refl eq_refl) as [Hstart Hwhat].
  destruct (unsyncedChanges s).
  { rewrite Hstart. split; [|split; [intros _; exact Hwhat | discriminate]].
    split; [|reflexivity]. intros _. repeat (split; eauto). }
  destruct (key_is (settings (snap a)) "autoBackup" "off").
  { simpl. split; [|split; [discriminate | reflexivity]].
    split; [discriminate|].
    intros (_ & _ & _ & _ & _ & [?|[? _]]); discriminate. }
  destruct (truthy (lastSync s)); simpl.
  - destruct (Z.leb_spec (threshold * 3600000)
                (getTime now - getTime (default "" (lastSync s)))) as [Hle|Hgt].
    + rewrite Hstart. split; [|split; [intros _; exact Hwhat | discriminate]].
      split; [|reflexivity]. intros _. repeat (split; eauto).
    + simpl. split; [|split; [discriminate | reflexivity]].
      split; [discriminate|].
      intros (_ & _ & _ & _ & _ & [?|[_ [?|?]]]); try discriminate. lia.
  - rewrite Hstart. split; [|split; [intros _; exact Hwhat | discriminate]].
    split; [|reflexivity]. intros _. repeat (split; eauto).
Qed.

Lemma checkAutoBackup_decision_witness :
  starts_push (checkAutoBackup (H := iso_host) (provider armed_world)
                 "2024-01-02T06:00:00.000Z" (provider edited_world)) = true
  ∧ budget (snap (provider edited_world)) = 700
  ∧ ∃ data,
      gateway (state_of (checkAutoBackup (H := iso_host)
                           (provider armed_world)
                           "2024-01-02T06:00:00.000Z"
                           (provider edited_world)))
      = gateway (provider edited_world) ++ [BackupUserData "u-alice" data]
      ∧ p_budget data = Some 500.
Proof.
  destruct (checkAutoBackup_decision (H := iso_host) (provider armed_world)
              "2024-01-02T06:00:00.000Z" (provider edited_world))
    as (Hiff & Hpush & _); [vm_compute; reflexivity|].
  assert (Hs : starts_push (checkAutoBackup (H := iso_host)
                 (provider armed_world) "2024-01-02T06:00:00.000Z"
                 (provider edited_world)) = true).
  { apply Hiff. split; [vm_compute; reflexivity|].
    split; [vm_compute; eexists; reflexivity|].
    do 3 (split; [vm_compute; reflexivity|]).
    left. vm_compute. reflexivity. }
  split; [exact Hs|]. split; [vm_compute; reflexivity|].
  destruct (Hpush Hs) as (_ & u & Hu & Hg).
  eexists. split; [rewrite Hg; vm_compute in Hu; injection Hu as <-;
                   vm_compute; reflexivity|].
  reflexivity.
Defined.

(** *** A push from start to end *)

(** X13. With the guard free and a user signed in, [backupUserData]
    makes exactly one backup-write call, to the active wallet's store if a
    wallet is active and to the user's backup otherwise, carrying the
    custom payload if one was given and the live Snapshot if not; it
    changes neither the Snapshot nor the dirty flag before the gateway
    answers. When the gateway then resolves, the call returns a result
    that is not an error, [unsyncedChanges] is false, and the guard and
    [isSyncing] are released. In the personal branch the result is the
    gateway's and [lastSync] is its timestamp. In the wallet branch
    [lastSync] is the clock as the state updater reads it and the
    timestamp of the result is a second reading of the clock: the code
    does not make the two equal. *)
Theorem push_round_trip `{Host} (custom : option Payload) (u : UserProfile)
  (a : App) :
  isBackingUpRef a = false →
  user (syncState a) = Some u →
  ∃ t a1,
    backupUserData custom a = Await t a1
    ∧ t = (if truthy (activeWalletId (syncState a))
           then AwaitSyncWalletData else AwaitBackupUserData)
    ∧ gateway a1
      = gateway a ++ [push_call (activeWalletId (syncState a)) (u_id u)
                                (default (payload_of (snap a)) custom)]
    ∧ snap a1 = snap a
    ∧ unsyncedChanges (syncState a1) = unsyncedChanges (syncState a)
    ∧ isSyncing (syncState a1) = true
    ∧ ∀ v now r, resume t (Resolved v) now a1 = Some r →
        ∃ res a2,
          r = Done (RetPush res) a2
          ∧ unsyncedChanges (syncState a2) = false
          ∧ isSyncing (syncState a2) = false
          ∧ isBackingUpRef a2 = false
          ∧ snap a2 = snap a
          ∧ gateway a2 = gateway a1
          ∧ (t = AwaitBackupUserData →
             v = Pushed res ∧ lastSync (syncState a2) = timestamp res)
          ∧ (t = AwaitSyncWalletData →
             lastSync (syncState a2) = Some (first_read now)
             ∧ res = {| skipped := false;
                        timestamp := Some (second_read now) |}).
Proof.
  intros Hb Hu. unfold backupUserData, backupUserData_in, push_call.
  rewrite Hb, Hu.
  destruct (activeWalletId (syncState a)) as [w|] eqn:Hw;
    [destruct (truthy (Some w))|];
    eexists _, _; (split; [reflexivity|]); (split; [reflexivity|]);
    (split; [reflexivity|]); (split; [reflexivity|]);
    (split; [reflexivity|]); (split; [reflexivity|]);
    intros v now r Hr; simpl in Hr;
    unfold syncWalletData_resume, backupUserData_resume in Hr;
    destruct v; try discriminate; injection Hr as <-;
    eexists _, _; (split; [reflexivity|]);
    repeat split; discriminate.
Qed.

Lemma push_round_trip_witness :
  ∃ a1 res a2,
    backupUserData None (provider in_wallet_world)
    = Await AwaitSyncWalletData a1
    ∧ resume (H := iso_host) AwaitSyncWalletData (Resolved NoValue)
        {| first_read := "2024-01-01T00:00:01.999Z";
           second_read := "2024-01-01T00:00:02.000Z" |} a1
      = Some (Done (RetPush res) a2)
    ∧ lastSync (syncState a2) = Some "2024-01-01T00:00:01.999Z"
    ∧ timestamp res = Some "2024-01-01T00:00:02.000Z".
Proof.
  destruct (push_round_trip (H := iso_host) None (profile_of alice)
              (provider in_wallet_world) eq_refl eq_refl)
    as (t & a1 & Hb & Ht & _ & _ & _ & _ & Hres).
  vm_compute in Ht. subst t.
  destruct (Hres NoValue
              {| first_read := "2024-01-01T00:00:01.999Z";
                 second_read := "2024-01-01T00:00:02.000Z" |}
              _ eq_refl)
    as (res & a2 & Hr & _ & _ & _ & _ & _ & _ & Hwallet).
  destruct (Hwallet eq_refl) as [Hlast Hstamp].
  exists a1, res, a2. split; [exact Hb|].
  split; [rewrite <- Hr; reflexivity|].
  split; [exact Hlast|]. rewrite Hstamp. reflexivity.
Defined.

(** *** The syncing indicator *)

Lemma invoke_syncing `{Host} c a :
  isSyncing (syncState a) = isBackingUpRef a →
  isSyncing (syncState (state_of (invoke c a)))
  = isBackingUpRef (state_of (invoke c a)).
Proof. intros Ha. destruct c; run_op; congruence. Qed.

Lemma tick_syncing `{Host} r now a :
  isSyncing (syncState a) = isBackingUpRef a →
  isSyncing (syncState (state_of (checkAutoBackup r now a)))
  = isBackingUpRef (state_of (checkAutoBackup r now a)).
Proof. intros Ha. run_op; congruence. Qed.

Lemma resume_syncing `{Host} t resp now a r :
  resume t resp now a = Some r →
  isSyncing (syncState a) = isBackingUpRef a →
  isSyncing (syncState (state_of r)) = isBackingUpRef (state_of r).
Proof. intros Hr Ha. destruct t; run_op; congruence. Qed.

Lemma syncing_is_guard `{Host} w :
  reachable w →
  isSyncing (syncState (provider w)) = isBackingUpRef (provider w).
Proof.
  revert w.
  apply (reachable_ind (λ w,
    isSyncing (syncState (provider w)) = isBackingUpRef (provider w))).
  - reflexivity.
  - intros e w w' IH Hstep. destruct e as [c|i resp now|r now];
      simpl in Hstep.
    + injection Hstep as <-. rewrite commit_provider.
      apply (invoke_syncing c (provider w) IH).
    + destruct (pending w !! i) as [t|]; [|discriminate].
      destruct (resume t resp now (provider w)) as [r|] eqn:Er; [|discriminate].
      injection Hstep as <-. rewrite commit_provider.
      apply (resume_syncing _ _ _ _ _ Er IH).
    + destruct (bool_decide _); [|discriminate].
      injection Hstep as <-. rewrite commit_provider.
      apply (tick_syncing r now (provider w) IH).
Qed.

(** X14. In every world a run can reach, [isSyncing] is true exactly
    while a push is in flight. *)
Theorem syncing_while_push_in_flight `{Host} (w : World) :
  reachable w →
  (isSyncing (syncState (provider w)) = true ↔ pushes_in_flight w = 1%nat).
Proof.
  intros Hw. rewrite (syncing_is_guard w Hw), (in_flight_is_guard w Hw).
  unfold ref_count. destruct (isBackingUpRef (provider w)); split;
    congruence.
Qed.

Lemma syncing_while_push_in_flight_witness :
  reachable (H := iso_host) pushing_world
  ∧ isSyncing (syncState (provider pushing_world)) = true.
Proof.
  assert (Hr : reachable (H := iso_host) pushing_world).
  { exists empty_store, true,
      [Invoke (Api.AuthStateChange (Some alice) false);
       Invoke (Api.UpdateBudget 500);
       Invoke (Api.BackupUserData None)].
    vm_compute. reflexivity. }
  split; [exact Hr|].
  apply (syncing_while_push_in_flight (H := iso_host) pushing_world Hr).
  vm_compute. reflexivity.
Defined.

(** *** Logout *)

Lemma invoke_signout_count `{Host} c a :
  (if isLoggingOutRef (state_of (invoke c a)) then 1 else 0)%nat
  = ((if isLoggingOutRef a then 1 else 0)
     + if starts_signout (invoke c a) then 1 else 0)%nat.
Proof. destruct c; run_op; congruence. Qed.

Lemma tick_signout_count `{Host} r now a :
  starts_signout (checkAutoBackup r now a) = false
  ∧ isLoggingOutRef (state_of (checkAutoBackup r now a)) = isLoggingOutRef a.
Proof.
  destruct (tick_frame r now a) as (_ & _ & _ & _ & Hout & _ & _ & _ & Hpush).
  split; [|exact Hout].
  destruct (checkAutoBackup r now a) as [o a'|t a']; [reflexivity|].
  specialize (Hpush t a' eq_refl). destruct t; try discriminate; reflexivity.
Qed.

Lemma resume_signout_count `{Host} t resp now a r :
  resume t resp now a = Some r →
  starts_signout r = false
  ∧ isLoggingOutRef (state_of r)
    = if is_signout_task t then false else isLoggingOutRef a.
Proof. intros Hr. destruct t; run_op; auto. Qed.

Lemma commit_signouts r tasks :
  signouts_pending (commit r tasks)
  = (length (List.filter is_signout_task tasks)
     + if starts_signout r then 1 else 0)%nat.
Proof.
  unfold signouts_pending. destruct r as [o a|t a]; simpl.
  - lia.
  - apply count_snoc.
Qed.

Lemma signouts_is_guard `{Host} w :
  reachable w →
  signouts_pending w = (if isLoggingOutRef (provider w) then 1 else 0)%nat.
Proof.
  revert w.
  apply (reachable_ind (λ w,
    signouts_pending w = (if isLoggingOutRef (provider w) then 1 else 0)%nat)).
  - reflexivity.
  - intros e w w' IH Hstep. destruct e as [c|i resp now|r now];
      simpl in Hstep;
      [| |destruct (bool_decide _); [|discriminate];
          injection Hstep as <-;
          rewrite commit_signouts, commit_provider;
          change (isLoggingOutRef (persist ?a)) with (isLoggingOutRef a);
          destruct (tick_signout_count r now (provider w)) as [-> ->];
          unfold signouts_pending in IH; lia].
    + injection Hstep as <-.
      rewrite commit_signouts, commit_provider.
      change (isLoggingOutRef (persist ?a)) with (isLoggingOutRef a).
      rewrite invoke_signout_count. unfold signouts_pending in IH. lia.
    + destruct (pending w !! i) as [t|] eqn:Ei; [|discriminate].
      destruct (resume t resp now (provider w)) as [r|] eqn:Er; [|discriminate].
      injection Hstep as <-.
      rewrite commit_signouts, commit_provider.
      change (isLoggingOutRef (persist ?a)) with (isLoggingOutRef a).
      destruct (resume_signout_count _ _ _ _ _ Er) as [-> Href].
      pose proof (count_delete is_signout_task _ _ _ Ei) as Hc.
      unfold signouts_pending in IH. rewrite Href.
      destruct (is_signout_task t), (isLoggingOutRef (provider w)); lia.
Qed.

(** X15. In every world a run can reach at most one sign-out is in
    flight, and the logout guard is set exactly while one is. While it is
    set, the auth callback (sign-in or sign-out), a further [logout] and
    the auto-backup timer, whichever render armed it, each return at
    once and change nothing. *)
Theorem logout_single_flight `{Host} (w : World) :
  reachable w →
  (signouts_pending w ≤ 1)%nat
  ∧ (isLoggingOutRef (provider w) = true ↔ signouts_pending w = 1%nat)
  ∧ (isLoggingOutRef (provider w) = true →
     ∀ u online now r,
       step (Invoke (Api.AuthStateChange u online)) w = Some w
       ∧ step (Invoke Api.Logout) w = Some w
       ∧ checkAutoBackup r now (provider w) = Done RetVoid (provider w)
       ∧ (timer_deps r = timer_deps (provider w) →
          step (Tick r now) w = Some w)).
Proof.
  intros Hw. pose proof (signouts_is_guard w Hw) as Hg.
  pose proof (reachable_persisted w Hw) as Hp.
  split; [|split].
  - rewrite Hg. destruct (isLoggingOutRef _); lia.
  - rewrite Hg. destruct (isLoggingOutRef _); split; congruence.
  - intros Hout u online now r.
    assert (Hsame : ∀ c, invoke c (provider w) = Done RetVoid (provider w) →
              step (Invoke c) w = Some w).
    { intros c Hc. unfold step. rewrite Hc. simpl. rewrite Hp.
      destruct w; reflexivity. }
    assert (Htick : checkAutoBackup r now (provider w)
                    = Done RetVoid (provider w)).
    { unfold checkAutoBackup. rewrite Hout.
      rewrite !orb_true_r. reflexivity. }
    split; [|split; [|split]].
    + apply Hsame. simpl.
      unfold handleAuthStateChange. rewrite Hout. reflexivity.
    + apply Hsame. simpl. unfold logout. rewrite Hout. reflexivity.
    + exact Htick.
    + intros Hdeps. unfold step. rewrite bool_decide_eq_true_2 by exact Hdeps.
      rewrite Htick. simpl. rewrite Hp. destruct w; reflexivity.
Qed.

Lemma logout_single_flight_witness :
  reachable (H := iso_host) logging_out_world
  ∧ signouts_pending logging_out_world = 1%nat.
Proof.
  assert (Hr : reachable (H := iso_host) logging_out_world).
  { exists empty_store, true,
      [Invoke (Api.AuthStateChange (Some alice) false);
       Invoke Api.Logout].
    vm_compute. reflexivity. }
  split; [exact Hr|].
  apply (logout_single_flight (H := iso_host) logging_out_world Hr).
  vm_compute. reflexivity.
Defined.

(** X16. With the guard free, [logout] makes one sign-out call; if a
    wallet is active it first stores the live Snapshot under the wallet's
    key, and if none is active it touches neither Snapshot nor store.
    Whatever the gateway answers, a rejection included, the rest of
    [logout] ends signed out: no user, no active wallet, no wallets, no
    last sync, [unsyncedChanges] false, the guard released, and the
    Snapshot as the first half left it. *)
Theorem logout_always_completes `{Host} (a : App) :
  isLoggingOutRef a = false →
  ∃ a1,
    logout a = Await AwaitSignOut a1
    ∧ gateway a1 = gateway a ++ [SignOut]
    ∧ (truthy (activeWalletId (syncState a)) = true →
       k_contexts (storage a1) !! context_key (activeWalletId (syncState a))
       = Some (payload_of (snap a)))
    ∧ (truthy (activeWalletId (syncState a)) = false →
       snap a1 = snap a ∧ storage a1 = storage a)
    ∧ ∀ resp now, ∃ a2,
        resume AwaitSignOut resp now a1 = Some (Done RetVoid a2)
        ∧ isLoggedIn (syncState a2) = false
        ∧ user (syncState a2) = None
        ∧ activeWalletId (syncState a2) = None
        ∧ lastSync (syncState a2) = None
        ∧ unsyncedChanges (syncState a2) = false
        ∧ wallets a2 = []
        ∧ isLoggingOutRef a2 = false
        ∧ snap a2 = snap a1.
Proof.
  intros Hout. unfold logout. rewrite Hout.
  destruct (truthy (activeWalletId (syncState a))) eqn:Hw.
  - unfold loadContextFromStorage, saveCurrentContextToStorage. simpl.
    match goal with
    | |- context [match ?x with Some _ => _ | None => _ end] => destruct x
    end; simpl;
      (eexists; split; [reflexivity|]; split; [reflexivity|];
       split; [intros _; simpl; apply lookup_insert_eq|];
       split; [discriminate|];
       intros resp now; eexists; split; [reflexivity|]; repeat split).
  - eexists. split; [reflexivity|]. split; [reflexivity|].
    split; [discriminate|]. split; [intros _; split; reflexivity|].
    intros resp now. eexists. split; [reflexivity|]. repeat split.
Qed.

Lemma logout_always_completes_witness :
  ∃ a1, logout (H := iso_host) (provider synced_world) = Await AwaitSignOut a1
        ∧ gateway a1 = gateway (provider synced_world) ++ [SignOut].
Proof.
  destruct (logout_always_completes (H := iso_host) (provider synced_world)
              eq_refl) as (a1 & Hl & Hg & _).
  exists a1. split; [exact Hl | exact Hg].
Defined.

(** *** Restore *)

(** X17. A restore that finds nothing changes nothing. Without a
    signed-in user [restoreBackup] returns [false] at once, for every
    strategy. And when the gateway rejects the fetch, or has no wallet
    data, no backup, or a backup without data, the restore returns
    [false] and leaves the provider exactly as it was: the Snapshot, the
    last sync and the pending-restore flag included. *)
Theorem restore_without_data_changes_nothing `{Host} (strat : Strategy.t)
  (t : Task) (resp : Response) (now : Clock) (a : App) (r : Async) :
  t = AwaitRestoreWallet strat ∨ t = AwaitRestoreBackup strat →
  (∃ err, resp = Rejected err)
  ∨ resp = Resolved (WalletData None)
  ∨ resp = Resolved (Backup None)
  ∨ (∃ ts, resp = Resolved (Backup (Some {| be_data := None;
                                            be_timestamp := ts |}))) →
  resume t resp now a = Some r →
  r = Done (RetBool false) a
  ∧ (user (syncState a) = None →
     restoreBackup strat a = Done (RetBool false) a).
Proof.
  intros Ht Hresp Hr. split.
  - destruct Ht as [-> | ->];
      destruct Hresp as [[err ->]|[->|[->|[ts ->]]]];
      simpl in Hr; try discriminate; injection Hr as <-; reflexivity.
  - intros Hu. unfold restoreBackup. rewrite Hu. reflexivity.
Qed.

Lemma restore_without_data_changes_nothing_witness :
  resume (H := iso_host) (AwaitRestoreBackup Strategy.merge)
         (Rejected "Failed to fetch") (instant "2024-01-02T00:00:05.000Z")
         (provider budgeted_world)
  = Some (Done (RetBool false) (provider budgeted_world)).
Proof.
  destruct (resume (H := iso_host) (AwaitRestoreBackup Strategy.merge)
              (Rejected "Failed to fetch") (instant "2024-01-02T00:00:05.000Z")
              (provider budgeted_world)) as [r|] eqn:Er;
    [|discriminate Er].
  destruct (restore_without_data_changes_nothing (H := iso_host)
              Strategy.merge (AwaitRestoreBackup Strategy.merge)
              (Rejected "Failed to fetch") (instant "2024-01-02T00:00:05.000Z")
              (provider budgeted_world) r) as [-> _].
  - right. reflexivity.
  - left. eexists. reflexivity.
  - exact Er.
  - reflexivity.
Defined.

(** X18. A ['replace'] restore overwrites the whole Snapshot from the
    remote payload alone: each of the six pieces becomes what the payload
    holds for it, or its initial value (no transactions, the initial
    accounts and categories, a zero budget, no per-category budgets, the
    default settings) where the payload holds nothing. So the result
    does not depend on what was live, two devices restoring the same
    backup end with the same Snapshot, and restoring the payload of a
    Snapshot [S] gives [S] back. Under ['merge'] the accounts and the
    categories are those of the payload in the same way. Under either
    strategy a restore that found data returns [true], clears the
    pending-restore flag, sets [lastSync] to the remote timestamp when
    there is one and leaves it otherwise, makes no gateway call, writes
    no store key, and leaves [unsyncedChanges] and the active wallet as
    they were. *)
Theorem restore_with_data_bookkeeping `{Host} (strat : Strategy.t)
  (remoteData : Payload) (remoteTimestamp : option string) (a b : App) :
  snap (state_of (restore_apply Strategy.replace (Some remoteData)
                                remoteTimestamp a))
  = snap (state_of (restore_apply Strategy.replace (Some remoteData)
                                  remoteTimestamp b))
  ∧ snap (state_of (restore_apply Strategy.replace (Some remoteData)
                                  remoteTimestamp a))
    = {| transactions := default [] (p_transactions remoteData);
         accounts := default INITIAL_ACCOUNTS (p_accounts remoteData);
         categories := default INITIAL_CATEGORIES (p_categories remoteData);
         budget := default 0 (p_budget remoteData);
         categoryBudgets := default [] (p_category_budgets remoteData);
         settings := default DEFAULT_SETTINGS (p_settings remoteData) |}
  ∧ (∀ S : Snapshot,
       snap (state_of (restore_apply Strategy.replace (Some (payload_of S))
                                     remoteTimestamp a)) = S)
  ∧ accounts (snap (state_of (restore_apply Strategy.merge (Some remoteData)
                                            remoteTimestamp a)))
    = default INITIAL_ACCOUNTS (p_accounts remoteData)
  ∧ categories (snap (state_of (restore_apply Strategy.merge
                                  (Some remoteData) remoteTimestamp a)))
    = default INITIAL_CATEGORIES (p_categories remoteData)
  ∧ ∃ a',
      restore_apply strat (Some remoteData) remoteTimestamp a
      = Done (RetBool true) a'
      ∧ pendingRestoreAvailable (syncState a') = false
      ∧ lastSync (syncState a')
        = (if truthy remoteTimestamp then remoteTimestamp
           else lastSync (syncState a))
      ∧ unsyncedChanges (syncState a') = unsyncedChanges (syncState a)
      ∧ activeWalletId (syncState a') = activeWalletId (syncState a)
      ∧ gateway a' = gateway a
      ∧ storage a' = storage a
      ∧ wallets a' = wallets a.
Proof.
  split; [|split; [|split; [|split; [|split]]]].
  - unfold restore_apply. destruct (truthy remoteTimestamp); reflexivity.
  - unfold restore_apply. destruct (truthy remoteTimestamp); reflexivity.
  - intros S. unfold restore_apply.
    destruct (truthy remoteTimestamp), S; reflexivity.
  - unfold restore_apply. destruct (truthy remoteTimestamp); reflexivity.
  - unfold restore_apply. destruct (truthy remoteTimestamp); reflexivity.
  - unfold restore_apply.
    destruct strat, (truthy remoteTimestamp);
      (eexists; split; [reflexivity|]; repeat split).
Qed.

(** X19. Restoring the same backup under ['merge'] a second time
    changes no transaction: the list after the second merge holds exactly
    the transactions the list after the first holds, under the same
    ids. *)
Theorem merge_restore_twice `{Host} (cloudTxs prevTxs : list Transaction) :
  let once := merge_transactions cloudTxs prevTxs in
  let twice := merge_transactions cloudTxs once in
  keyed twice = keyed once ∧ ∀ t, t ∈ twice ↔ t ∈ once.
Proof.
  intros once twice.
  destruct (merge_transactions_spec cloudTxs prevTxs) as (Hk1 & Hnd1 & _).
  destruct (merge_transactions_spec cloudTxs once) as (Hk2 & Hnd2 & _).
  fold once in Hk1, Hnd1. fold twice in Hk2, Hnd2.
  assert (Hk : keyed twice = keyed once).
  { rewrite Hk2. unfold union_by_id. rewrite Hk1. unfold union_by_id.
    rewrite (assoc_L (∪)), (idemp_L (∪)). reflexivity. }
  split; [exact Hk|].
  assert (Hmem : ∀ l, NoDup (tx_id <$> l) →
            ∀ t, t ∈ l ↔ keyed l !! tx_id t = Some t).
  { intros l Hnd t. unfold keyed. rewrite <- elem_of_list_to_map.
    - rewrite list_elem_of_fmap. split.
      + intros Ht. exists t. auto.
      + intros (t' & [= _ ->] & Ht'). exact Ht'.
    - rewrite <- list_fmap_compose. exact Hnd. }
  intros t. rewrite (Hmem twice Hnd2), (Hmem once Hnd1), Hk. reflexivity.
Qed.

(** *** Realtime listener *)

(** X20. The realtime callbacks never apply remote data: neither
    changes the Snapshot, the Local Store, the dirty flag or [lastSync],
    and neither calls the gateway. A wallet change raises the
    pending-restore flag exactly when there is a row and it is attributed
    to someone other than the current user; a change to the user's backup
    never touches the sync state and only shows a notification, exactly
    when the row is stamped more than 2000 ms after the last sync (after
    the epoch, without one). *)
Theorem realtime_never_applies `{Host} (newRow : option (option string))
  (updated_at : string) (a : App) :
  let a1 := realtime_wallet_change newRow a in
  let a2 := realtime_backup_change updated_at a in
  let localTime :=
    if truthy (lastSync (syncState a))
    then getTime (default "" (lastSync (syncState a))) else 0 in
  (snap a1 = snap a ∧ storage a1 = storage a ∧ gateway a1 = gateway a
   ∧ unsyncedChanges (syncState a1) = unsyncedChanges (syncState a)
   ∧ lastSync (syncState a1) = lastSync (syncState a)
   ∧ activeWalletId (syncState a1) = activeWalletId (syncState a))
  ∧ (pendingRestoreAvailable (syncState a1) = true
     ↔ pendingRestoreAvailable (syncState a) = true
       ∨ ∃ updated_by, newRow = Some updated_by
                       ∧ updated_by ≠ u_id <$> user (syncState a))
  ∧ (snap a2 = snap a ∧ storage a2 = storage a ∧ gateway a2 = gateway a
     ∧ syncState a2 = syncState a)
  ∧ (notifications a2
     = if localTime + 2000 <? getTime updated_at
       then notifications a ++ [("New data received from cloud", info)]
       else notifications a).
Proof.
  intros a1 a2 localTime. unfold a1, a2, realtime_wallet_change,
    realtime_backup_change. fold localTime.
  split; [|split; [|split]].
  - destruct newRow as [by_|]; [|repeat split].
    destruct (negb _); repeat split.
  - destruct newRow as [by_|].
    + destruct (bool_decide (by_ = u_id <$> user (syncState a))) eqn:E;
        simpl.
      * apply bool_decide_eq_true in E. split; [auto|].
        intros [?|(x & [= <-] & Hx)]; [assumption | contradiction].
      * apply bool_decide_eq_false in E. split; [|reflexivity].
        intros _. right. eauto.
    + split; [auto|]. intros [?|(x & ? & _)]; [assumption | discriminate].
  - destruct (localTime + 2000 <? getTime updated_at); repeat split.
  - destruct (localTime + 2000 <? getTime updated_at); reflexivity.
Qed.

(** *** A wallet fetch that answers late *)

(** X21. [switchWallet] to a wallet while online suspends on the fetch
    of that wallet's remote data, and its continuation checks neither the
    session nor the active context: if another [switchWallet] runs before
    the gateway answers, the fetched wallet data is applied to the
    Snapshot of whatever context is active by then. *)
Theorem late_wallet_fetch_lands_on_active_context `{Host} (w : string)
  (B : option string) (remoteData : Payload) (a : App) :
  truthy (Some w) = true →
  isOnline (syncState a) = true →
  let a1 := state_of (switchWallet (Some w) a) in
  let a2 := state_of (switchWallet B a1) in
  switchWallet (Some w) a = Await (AwaitSwitchFetch w) a1
  ∧ ∃ a3,
      switchWallet_resume w (Resolved (WalletData (Some remoteData))) a2
      = Some (Done RetVoid a3)
      ∧ activeWalletId (syncState a3) = B
      ∧ snap a3 = apply_payload remoteData (snap a2).
Proof.
  intros Hw Hon a1 a2. split.
  - unfold a1, switchWallet, switchWallet_in. rewrite Hw, Hon. reflexivity.
  - eexists. split; [reflexivity|]. split; [|reflexivity].
    simpl. apply (switchWallet_state B a1).
Qed.

Lemma late_wallet_fetch_lands_on_active_context_witness :
  ∃ a3,
    switchWallet_resume (H := iso_host) "w1"
      (Resolved (WalletData (Some rent_payload)))
      (state_of (switchWallet (H := iso_host) None
                   (state_of (switchWallet (H := iso_host) (Some "w1")
                                (provider fresh_world)))))
    = Some (Done RetVoid a3)
    ∧ activeWalletId (syncState a3) = None.
Proof.
  destruct (late_wallet_fetch_lands_on_active_context (H := iso_host)
              "w1" None rent_payload (provider fresh_world)
              eq_refl eq_refl) as (_ & a3 & Hres & Hact & _).
  exists a3. split; [exact Hres | exact Hact].
Defined.

(** *** Reloading the page *)

(** X22. What the persistence effects wrote is what a freshly mounted
    provider reads: after a reload the transactions, accounts,
    categories, budget, per-category budgets, wallets, last sync, dirty
    flag and active wallet are those of the provider that was running,
    and the per-context snapshots are still in the store. The settings
    come back with the default settings filled in under them, so they are
    the same when they had every default key. The login, the
    pending-restore flag and the three guard cells start afresh. *)
Theorem reload_round_trip `{Host} (a : App) (online : bool) :
  let a' := mount (storage (persist a)) online in
  transactions (snap a') = transactions (snap a)
  ∧ accounts (snap a') = accounts (snap a)
  ∧ categories (snap a') = categories (snap a)
  ∧ budget (snap a') = budget (snap a)
  ∧ categoryBudgets (snap a') = categoryBudgets (snap a)
  ∧ settings (snap a') = spread DEFAULT_SETTINGS (settings (snap a))
  ∧ (dom DEFAULT_SETTINGS ⊆ dom (settings (snap a)) → snap a' = snap a)
  ∧ wallets a' = wallets a
  ∧ lastSync (syncState a') = lastSync (syncState a)
  ∧ unsyncedChanges (syncState a') = unsyncedChanges (syncState a)
  ∧ activeWalletId (syncState a') = activeWalletId (syncState a)
  ∧ k_contexts (storage a') = k_contexts (storage a)
  ∧ isLoggedIn (syncState a') = false
  ∧ user (syncState a') = None
  ∧ pendingRestoreAvailable (syncState a') = false
  ∧ sessionVersion a' = 0%nat
  ∧ isBackingUpRef a' = false
  ∧ isLoggingOutRef a' = false.
Proof.
  intros a'. unfold a', mount, persist. simpl.
  do 6 (split; [reflexivity|]). split; [|repeat split].
  intros Hdom. rewrite (spread_covered _ _ Hdom). destruct (snap a); reflexivity.
Qed.

Lemma reload_round_trip_witness :
  dom (DEFAULT_SETTINGS (Host := iso_host))
    ⊆ dom (settings (snap (provider synced_world)))
  ∧ snap (mount (H := iso_host) (storage (persist (provider synced_world)))
                true)
    = snap (provider synced_world).
Proof.
  assert (Hd : dom (DEFAULT_SETTINGS (Host := iso_host))
               ⊆ dom (settings (snap (provider synced_world)))).
  { intros k Hk. vm_compute in Hk |- *. exact Hk. }
  split; [exact Hd|].
  apply (reload_round_trip (H := iso_host) (provider synced_world) true), Hd.
Defined.

(** *** The personal Snapshot while a wallet is active *)


Lemma switchWallet_begin_personal `{Host} r walletId a :
  personal_kept (storage a) (activeWalletId (syncState r)) →
  personal_kept (storage (switchWallet_begin r walletId a)) walletId
  ∧ activeWalletId (syncState (switchWallet_begin r walletId a)) = walletId
  ∧ grows (storage a) (storage (switchWallet_begin r walletId a)).
Proof.
  intros Hr.
  assert (Hst : k_contexts (storage (switchWallet_begin r walletId a))
                = <[context_key (activeWalletId (syncState r)) :=
                      payload_of (snap r)]> (k_contexts (storage a))).
  { unfold switchWallet_begin, loadContextFromStorage,
      saveCurrentContextToStorage. simpl.
    repeat case_match; reflexivity. }
  assert (Hact : activeWalletId (syncState (switchWallet_begin r walletId a))
                 = walletId).
  { unfold switchWallet_begin, loadContextFromStorage,
      saveCurrentContextToStorage. simpl.
    repeat case_match; reflexivity. }
  split; [|split; [exact Hact|]].
  - intros _. rewrite Hst.
    destruct (truthy (activeWalletId (syncState r))) eqn:E.
    + apply lookup_insert_is_Some'. right. apply Hr, E.
    + rewrite (context_key_falsy _ E). rewrite lookup_insert_eq. eauto.
  - intros k Hk. rewrite Hst. apply lookup_insert_is_Some'. right. exact Hk.
Qed.

Lemma grows_refl st : grows st st.
Proof. intros k Hk. exact Hk. Qed.

Lemma personal_kept_grows st st' active :
  grows st st' → personal_kept st active → personal_kept st' active.
Proof. intros Hg Hp Ht. apply Hg, Hp, Ht. Qed.

Lemma personal_kept_None st : personal_kept st None.
Proof. intros Ht. discriminate Ht. Qed.

Lemma grows_save r walletId a :
  grows (storage a) (storage (saveCurrentContextToStorage r walletId a)).
Proof.
  intros k Hk.
  change (is_Some (<[context_key walletId := payload_of (snap r)]>
                     (k_contexts (storage a)) !! k)).
  apply lookup_insert_is_Some'. right. exact Hk.
Qed.

Ltac keep_steady :=
  simpl; repeat split;
  first [ apply grows_refl
        | assumption
        | apply personal_kept_None
        | congruence
        | intros; discriminate
        | intros; simplify_eq; simpl in *; congruence
        | match goal with
          | Hp : personal_kept ?st ?x, He : ?y = ?x |- personal_kept ?st ?y =>
              rewrite He; exact Hp
          end
        | idtac ].

Lemma switchWallet_in_personal `{Host} r walletId a :
  personal_kept (storage a) (activeWalletId (syncState r)) →
  grows (storage a) (storage (state_of (switchWallet_in r walletId a)))
  ∧ personal_kept (storage (state_of (switchWallet_in r walletId a)))
      (activeWalletId (syncState (state_of (switchWallet_in r walletId a))))
  ∧ ∀ t a'', switchWallet_in r walletId a = Await t a'' → render_of t = None.
Proof.
  intros Hr.
  destruct (switchWallet_begin_personal r walletId a Hr) as (Hp & Hact & Hg).
  unfold switchWallet_in.
  destruct walletId as [w|];
    [destruct (truthy (Some w) && isOnline (syncState r))%bool|]; simpl;
    rewrite ?Hact; (split; [exact Hg|]); (split; [exact Hp|]);
    intros t a'' Heq; try discriminate; injection Heq as <- _; reflexivity.
Qed.

Lemma invoke_keeps `{Host} c a :
  personal_kept (storage a) (activeWalletId (syncState a)) →
  grows (storage a) (storage (state_of (invoke c a)))
  ∧ personal_kept (storage (state_of (invoke c a)))
      (activeWalletId (syncState (state_of (invoke c a))))
  ∧ ∀ t a'' r, invoke c a = Await t a'' → render_of t = Some r → r = a.
Proof.
  intros Ha. destruct c;
    try (run_op; keep_steady; fail).
  - (* switchWallet *)
    destruct (switchWallet_in_personal a walletId a Ha) as (Hg & Hp & Ht).
    simpl. unfold switchWallet. split; [exact Hg|]. split; [exact Hp|].
    intros t a'' r Heq Hr. rewrite (Ht t a'' Heq) in Hr. discriminate.
  - (* logout *)
    simpl. unfold logout. destruct (isLoggingOutRef a); [solve [keep_steady]|].
    destruct (truthy (activeWalletId (syncState a))) eqn:E; simpl.
    + assert (Hg : grows (storage a)
                (storage (loadContextFromStorage None
                   (saveCurrentContextToStorage a
                      (activeWalletId (syncState a))
                      (set_isLoggingOutRef true a))))).
      { unfold loadContextFromStorage. repeat case_match; simpl;
          intros k Hk; apply lookup_insert_is_Some'; right; exact Hk. }
      assert (Hact : activeWalletId (syncState (loadContextFromStorage None
                   (saveCurrentContextToStorage a
                      (activeWalletId (syncState a))
                      (set_isLoggingOutRef true a))))
                = activeWalletId (syncState a)).
      { unfold loadContextFromStorage. repeat case_match; reflexivity. }
      split; [exact Hg|]. split.
      * rewrite Hact. eapply personal_kept_grows; eauto.
      * intros t a'' r Heq Hr. injection Heq as <- _. discriminate.
    + split; [apply grows_refl|]. split; [exact Ha|].
      intros t a'' r Heq Hr. injection Heq as <- _. discriminate.
Qed.

Lemma resume_keeps `{Host} t resp now a r :
  resume t resp now a = Some r →
  personal_kept (storage a) (activeWalletId (syncState a)) →
  (∀ rd, render_of t = Some rd →
         personal_kept (storage a) (activeWalletId (syncState rd))) →
  grows (storage a) (storage (state_of r))
  ∧ personal_kept (storage (state_of r))
      (activeWalletId (syncState (state_of r)))
  ∧ ∀ t' a'', r = Await t' a'' → render_of t' = None.
Proof.
  intros Hr Ha Hrd.
  destruct t; try (clear Hrd; run_op; keep_steady; fail).
  - (* createWallet *)
    specialize (Hrd render eq_refl). simpl in Hr.
    unfold createWallet_resume in Hr.
    destruct resp as [[| | | | |newWallet]|err]; try discriminate;
      injection Hr as <-; [|keep_steady].
    destruct (switchWallet_in_personal render (Some (w_id newWallet))
                (setWallets (λ prev, prev ++ [newWallet]) a) Hrd)
      as (Hg & Hp & Ht).
    split; [exact Hg|]. split; [exact Hp|].
    intros t' a'' Heq. apply (Ht t' a'' Heq).
  - (* deleteWallet *)
    specialize (Hrd render eq_refl). simpl in Hr.
    unfold deleteWallet_resume in Hr.
    destruct resp as [[| | | | |]|err]; try discriminate;
      injection Hr as <-; [|keep_steady].
    destruct (same (activeWalletId (syncState render)) walletId);
      [|keep_steady].
    destruct (switchWallet_begin_personal render None
                (setWallets
                   (List.filter (λ w, negb (String.eqb (w_id w) walletId))) a)
                Hrd) as (Hp & Hact & Hg).
    simpl. rewrite Hact.
    split; [exact Hg|]. split; [apply personal_kept_None|]. discriminate.
Qed.

Lemma keeps_personal_step `{Host} e w w' :
  keeps_personal w → step e w = Some w' → keeps_personal w'.
Proof.
  intros [Hp Hts] Hstep.
  assert (Hcommit : ∀ r tasks,
    grows (storage (provider w)) (storage (state_of r)) →
    personal_kept (storage (state_of r))
                  (activeWalletId (syncState (state_of r))) →
    (∀ t a'' rd, r = Await t a'' → render_of t = Some rd →
                 rd = provider w) →
    tasks ⊆ pending w →
    keeps_personal (commit r tasks)).
  { intros r tasks Hg Hp' Hnew Hsub.
    assert (Hold : Forall (λ t, ∀ rd, render_of t = Some rd →
                     personal_kept (storage (state_of r))
                                   (activeWalletId (syncState rd))) tasks).
    { apply Forall_forall. intros t Ht rd Hrd.
      rewrite Forall_forall in Hts.
      eapply personal_kept_grows; [exact Hg|].
      apply (Hts t (Hsub t Ht) rd Hrd). }
    destruct r as [o a'|t a']; split; simpl in *.
    - exact Hp'.
    - exact Hold.
    - exact Hp'.
    - apply Forall_app. split; [exact Hold|]. repeat constructor.
      intros rd Hrd. rewrite (Hnew t a' rd eq_refl Hrd).
      eapply personal_kept_grows; [exact Hg | exact Hp]. }
  destruct e as [c|i resp now|r now]; simpl in Hstep;
    [| |destruct (bool_decide _); [|discriminate];
        injection Hstep as <-;
        destruct (tick_frame r now (provider w))
          as (_ & Hst & _ & _ & _ & _ & _ & Hact & Hpush);
        apply Hcommit;
          [rewrite Hst; apply grows_refl
          |rewrite Hst, Hact; exact Hp
          |intros t a'' rd Heq Hrd; specialize (Hpush t a'' Heq);
           destruct t; discriminate
          |reflexivity]].
  - injection Hstep as <-.
    destruct (invoke_keeps c (provider w) Hp) as (Hg & Hp' & Hnew).
    apply Hcommit; auto.
  - destruct (pending w !! i) as [t|] eqn:Et; [|discriminate].
    destruct (resume t resp now (provider w)) as [r|] eqn:Er; [|discriminate].
    injection Hstep as <-.
    assert (Hin : t ∈ pending w) by (eapply list_elem_of_lookup_2; eauto).
    rewrite Forall_forall in Hts.
    destruct (resume_keeps t resp now (provider w) r Er Hp (Hts t Hin))
      as (Hg & Hp' & Hnew).
    apply Hcommit; auto.
    + intros t' a'' rd Heq Hrd. rewrite (Hnew t' a'' Heq) in Hrd. discriminate.
    + apply sublist_subseteq, sublist_delete.
Qed.

(** X23. While a wallet is the active context, the Local Store holds
    the personal Snapshot under [sb_personal_data]. This holds in every
    world of every run of a provider mounted on a store of which it holds
    (an empty store, or any store with no active wallet recorded): each
    [switchWallet], also the one a late [createWallet] or [deleteWallet]
    runs in the render it was called in, stores the outgoing Snapshot
    before it moves the active id, and nothing removes a stored
    Snapshot. *)
Theorem personal_snapshot_kept `{Host} (st : Store) (online : bool)
  (es : list Event) (w : World) :
  personal_kept st (k_active_wallet_id st) →
  run es (boot st online) = Some w →
  truthy (activeWalletId (syncState (provider w))) = true →
  is_Some (k_contexts (storage (provider w)) !! "sb_personal_data").
Proof.
  intros Hst Hrun.
  assert (H0 : keeps_personal (boot st online)).
  { split; [exact Hst | constructor]. }
  assert (Hw : keeps_personal w).
  { revert Hrun H0. generalize (boot st online).
    induction es as [|e es IH]; intros w0 Hrun H0; simpl in Hrun.
    - injection Hrun as <-. exact H0.
    - destruct (step e w0) as [w1|] eqn:E; [|discriminate].
      apply (IH w1 Hrun). eapply keeps_personal_step; eauto. }
  apply Hw.
Qed.

Lemma personal_snapshot_kept_witness :
  truthy (activeWalletId (syncState (provider in_wallet_world))) = true
  ∧ is_Some (k_contexts (storage (provider in_wallet_world))
               !! "sb_personal_data").
Proof.
  split; [reflexivity|].
  apply (personal_snapshot_kept (H := iso_host) empty_store true
           [Invoke (Api.AuthStateChange (Some alice) false);
            Invoke (Api.CreateWallet "Home" "EUR");
            Invoke (Api.UpdateBudget 700);
            Settle 1 (Resolved (NewWallet {| w_id := "w1"; w_name := "Home";
                                             w_currency := "EUR" |}))
                   (instant "2024-01-01T00:00:00.000Z")]
           in_wallet_world).
  - intros Ht. discriminate Ht.
  - vm_compute. reflexivity.
  - reflexivity.
Defined.

(** *** Creating and deleting a wallet *)

Lemma switchWallet_begin_frame `{Host} r walletId a :
  k_contexts (storage (switchWallet_begin r walletId a))
  = <[context_key (activeWalletId (syncState r)) := payload_of (snap r)]>
      (k_contexts (storage a))
  ∧ syncState (switchWallet_begin r walletId a)
    = set_unsyncedChanges false (set_activeWalletId walletId (syncState a))
  ∧ wallets (switchWallet_begin r walletId a) = wallets a
  ∧ gateway (switchWallet_begin r walletId a) = gateway a
  ∧ notifications (switchWallet_begin r walletId a) = notifications a.
Proof.
  unfold switchWallet_begin, loadContextFromStorage,
    saveCurrentContextToStorage. simpl.
  repeat case_match; repeat split.
Qed.

(** X24. Without a signed-in user [createWallet] returns at once: no
    gateway call, nothing changed. When the gateway rejects, only the
    error message is shown. When it answers with the new wallet, the
    wallet is appended to the list and becomes the active context with
    the dirty flag cleared; what is stored under the outgoing context's
    key is the Snapshot of the render [createWallet] was called in, not
    the Snapshot live when the gateway answered. *)
Theorem createWallet_outcomes `{Host} (name currency : string)
  (render a : App) (newWallet : Wallet) (err : string) :
  (user (syncState a) = None →
   createWallet name currency a = Done RetVoid a)
  ∧ createWallet_resume render (Rejected err) a
    = Some (Done RetVoid (showNotification err error a))
  ∧ ∃ r,
      createWallet_resume render (Resolved (NewWallet newWallet)) a = Some r
      ∧ wallets (state_of r) = wallets a ++ [newWallet]
      ∧ activeWalletId (syncState (state_of r)) = Some (w_id newWallet)
      ∧ unsyncedChanges (syncState (state_of r)) = false
      ∧ k_contexts (storage (state_of r))
          !! context_key (activeWalletId (syncState render))
        = Some (payload_of (snap render)).
Proof.
  split; [|split].
  - intros Hu. unfold createWallet. rewrite Hu. reflexivity.
  - reflexivity.
  - eexists. split; [reflexivity|].
    destruct (switchWallet_begin_frame render (Some (w_id newWallet))
                (setWallets (λ prev, prev ++ [newWallet]) a))
      as (Hst & Hsy & Hw & _).
    unfold switchWallet_in.
    destruct (truthy (Some (w_id newWallet)) && isOnline (syncState render))%bool;
      simpl; rewrite Hst, Hsy, Hw; repeat split;
      apply lookup_insert_eq.
Qed.

Lemma createWallet_outcomes_witness :
  createWallet "Home" "EUR" (provider fresh_world)
  = Done RetVoid (provider fresh_world).
Proof.
  apply (createWallet_outcomes (H := iso_host) "Home" "EUR"
           (provider fresh_world) (provider fresh_world)
           {| w_id := "w1"; w_name := "Home"; w_currency := "EUR" |} "").
  reflexivity.
Defined.

(** X25. When the gateway rejects a [deleteWallet], only the error
    message is shown. When it confirms, no wallet with that id is left in
    the list and the other wallets are kept in order; if the deleted
    wallet was the active one in the render [deleteWallet] was called in,
    the personal context becomes active with the dirty flag cleared, and
    otherwise neither the Snapshot nor the sync state changes. *)
Theorem deleteWallet_outcomes `{Host} (walletId : string) (render a : App)
  (err : string) :
  deleteWallet_resume walletId render (Rejected err) a
  = Some (Done RetVoid (showNotification err error a))
  ∧ ∃ a',
      deleteWallet_resume walletId render (Resolved NoValue) a
      = Some (Done RetVoid a')
      ∧ wallets a'
        = List.filter (λ w, negb (String.eqb (w_id w) walletId)) (wallets a)
      ∧ Forall (λ w, w_id w ≠ walletId) (wallets a')
      ∧ (activeWalletId (syncState render) = Some walletId →
         activeWalletId (syncState a') = None
         ∧ unsyncedChanges (syncState a') = false)
      ∧ (activeWalletId (syncState render) ≠ Some walletId →
         snap a' = snap a ∧ syncState a' = syncState a
         ∧ storage a' = storage a).
Proof.
  split; [reflexivity|].
  eexists. split; [reflexivity|].
  destruct (switchWallet_begin_frame render None
              (setWallets
                 (List.filter (λ w, negb (String.eqb (w_id w) walletId))) a))
    as (_ & Hsy & Hw & _).
  assert (Hwl : wallets
            (if same (activeWalletId (syncState render)) walletId
             then showNotification (switched_message None) success
                    (switchWallet_begin render None
                       (setWallets
                          (List.filter
                             (λ w, negb (String.eqb (w_id w) walletId))) a))
             else setWallets
                    (List.filter (λ w, negb (String.eqb (w_id w) walletId))) a)
            = List.filter (λ w, negb (String.eqb (w_id w) walletId))
                          (wallets a)).
  { destruct (same _ walletId); [simpl; rewrite Hw|]; reflexivity. }
  split; [exact Hwl|]. split; [|split].
  - simpl. rewrite Hwl. apply Forall_forall. intros x Hx.
    apply list_elem_of_In, filter_In in Hx. destruct Hx as [_ Hx].
    apply negb_true_iff, String.eqb_neq in Hx. exact Hx.
  - intros Hact. rewrite Hact. simpl. rewrite String.eqb_refl. simpl.
    rewrite Hsy. split; reflexivity.
  - intros Hact.
    destruct (same (activeWalletId (syncState render)) walletId) eqn:E.
    + exfalso. apply Hact.
      destruct (activeWalletId (syncState render)) as [x|]; [|discriminate].
      simpl in E. apply String.eqb_eq in E. congruence.
    + repeat split.
Qed.

Lemma deleteWallet_outcomes_witness :
  ∃ a',
    deleteWallet_resume (H := iso_host) "w1" (provider in_wallet_world)
      (Resolved NoValue) (provider in_wallet_world)
    = Some (Done RetVoid a')
    ∧ activeWalletId (syncState a') = None.
Proof.
  destruct (deleteWallet_outcomes (H := iso_host) "w1"
              (provider in_wallet_world) (provider in_wallet_world) "")
    as (_ & a' & Hres & _ & _ & Hact & _).
  exists a'. split; [exact Hres|]. apply Hact. reflexivity.
Defined.

(** *** The auth callback *)

(** X26. With no logout under way, the auth callback firing without a
    user signs the provider out (no user, no active wallet, no wallets,
    no last sync, [unsyncedChanges] false) and advances the session
    counter by one, without calling the gateway and without touching the
    Snapshot or the per-context store: the Snapshot that was live stays
    live under the personal context. Firing with a user, it records the
    profile and the login and changes neither the Snapshot, the dirty
    flag, the last sync nor the active wallet before the gateway
    answers. *)
Theorem auth_callback_effects `{Host} (u : AuthUser) (online : bool)
  (a : App) :
  isLoggingOutRef a = false →
  (∃ a',
     handleAuthStateChange None online a = Done RetVoid a'
     ∧ isLoggedIn (syncState a') = false
     ∧ user (syncState a') = None
     ∧ activeWalletId (syncState a') = None
     ∧ lastSync (syncState a') = None
     ∧ unsyncedChanges (syncState a') = false
     ∧ wallets a' = []
     ∧ sessionVersion a' = S (sessionVersion a)
     ∧ snap a' = snap a ∧ storage a' = storage a ∧ gateway a' = gateway a)
  ∧ let a' := state_of (handleAuthStateChange (Some u) online a) in
    isLoggedIn (syncState a') = true
    ∧ user (syncState a') = Some (profile_of u)
    ∧ sessionVersion a' = S (sessionVersion a)
    ∧ snap a' = snap a ∧ storage a' = storage a
    ∧ unsyncedChanges (syncState a') = unsyncedChanges (syncState a)
    ∧ lastSync (syncState a') = lastSync (syncState a)
    ∧ activeWalletId (syncState a') = activeWalletId (syncState a).
Proof.
  intros Hout. unfold handleAuthStateChange. rewrite Hout. split.
  - eexists. split; [reflexivity|]. repeat split.
  - destruct online; [repeat split|].
    unfold auth_reconcile. destruct (negb _); repeat split.
Qed.

Lemma auth_callback_effects_witness :
  ∃ a',
    handleAuthStateChange None true (provider synced_world) = Done RetVoid a'
    ∧ snap a' = snap (provider synced_world).
Proof.
  destruct (auth_callback_effects (H := iso_host) alice true
              (provider synced_world) eq_refl)
    as ((a' & Hres & Hrest) & _).
  exists a'. split; [exact Hres|]. apply Hrest.
Defined.
